(** * Ai_Gemimmi_suite: the request pipeline of [server.js]

    A shallow embedding of the HTTP server of the suite ([src/server.js]):
    the credential store, the session, the file extraction pipeline, the
    object upload adapter and the bot endpoint, with the properties the
    specification states about them.

    Conventions of the embedding.
    - A JavaScript string is a [string], read as its sequence of code
      units (those an [ascii] can hold), so [String.length] is [.length] and
      [String.substring] is [.slice].
    - A JavaScript value (a request body, the parsed [users.json], the
      reply of the generative API) is a [value].
    - The disk is a finite map from paths to contents, [process.env] a
      finite map from names to strings.
    - A handler is a computation in the monad [M]: it reads and writes a
      [World] (disk, session, log of I/O events) and either yields a result
      or throws. Every call of the generative API and of the object store
      is logged before it is made.
    - What the process is started with ([__dirname], [process.env]) and
      what the server obtains from V8, from Node, from its npm packages and
      from the network are the fields of the class [Externals]; the
      properties hold for every instance of it. *)

From Stdlib Require Import Ascii Floats DecimalString DecimalNat.
From stdpp Require Import base option list strings gmap.

(** ** Strings *)

Module Js.

(** The line feed of the template literals of [server.js]. *)
Definition LF : string := String (Ascii.ascii_of_nat 10) "".

(** [s.slice(from, to)] for [0 <= from <= to]. *)
Definition slice (s : string) (from to : nat) : string :=
  String.substring from (to - from) s.

(** [s.startsWith(p)] *)
Definition startsWith (s p : string) : bool := String.prefix p s.

(** [s.includes(p)] *)
Fixpoint includes (s p : string) : bool :=
  String.prefix p s ||
  match s with
  | EmptyString => false
  | String _ s' => includes s' p
  end.

(** A template literal [`${n}`] of a natural number: its decimal digits. *)
Definition digits (n : nat) : string := NilZero.string_of_uint (Nat.to_uint n).

(** The same for an integer, as [Date.now()] gives one. *)
Definition digitsZ (z : Z) : string := NilZero.string_of_int (Z.to_int z).

(** White space of [String.prototype.trim] among the code units a [string]
    holds: TAB, LF, VT, FF, CR, SP and NBSP. *)
Definition isWhiteSpace (c : Ascii.ascii) : bool :=
  let n := Ascii.nat_of_ascii c in
  ((9 <=? n) && (n <=? 13)) || (n =? 32) || (n =? 160).

Fixpoint trimStart (s : string) : string :=
  match s with
  | EmptyString => EmptyString
  | String c s' => if isWhiteSpace c then trimStart s' else s
  end.

(** [trimEnd] keeps a character when it is not white space or when
    something is kept after it. *)
Fixpoint trimEnd (s : string) : string :=
  match s with
  | EmptyString => EmptyString
  | String c s' =>
      match trimEnd s' with
      | EmptyString => if isWhiteSpace c then EmptyString else String c EmptyString
      | r => String c r
      end
  end.

(** [s.trim()] *)
Definition trim (s : string) : string := trimEnd (trimStart s).

(** [a || b] on strings *)
Definition or_else (a b : string) : string :=
  if String.eqb a "" then b else a.

(** [s.replace(/\/$/, '')]: one trailing slash is removed. *)
Fixpoint dropTrailingSlash (s : string) : string :=
  match s with
  | EmptyString => EmptyString
  | String c EmptyString => if Ascii.eqb c "/"%char then EmptyString else s
  | String c s' => String c (dropTrailingSlash s')
  end.

End Js.

(** Reading a decimal numeral back, the inverse of [Js.digits]. *)
Definition readDigits (s : string) : option nat :=
  Nat.of_uint <$> NilZero.uint_of_string s.

(** ** Truncation *)

(** The marker [`\n\n[Truncated ${n} chars]`] that stands for [n] omitted
    characters. *)
Definition truncationMarker (n : nat) : string :=
  Js.LF +:+ Js.LF +:+ "[Truncated " +:+ Js.digits n +:+ " chars]".

(** [function truncateText(text, limit = 12000)] *)
Definition truncateText_limit (text : string) (limit : nat) : string :=
  if bool_decide (text = "") then ""
  else if String.length text <=? limit then text
  else Js.slice text 0 limit +:+ truncationMarker (String.length text - limit).

#[local] Set Warnings "-abstract-large-number".

(** The default of [limit]. *)
Definition DEFAULT_LIMIT : nat := 12000.

(** [truncateText(text)], as every caller writes it. *)
Definition truncateText (text : string) : string :=
  truncateText_limit text DEFAULT_LIMIT.

(** ** JavaScript values *)

#[local] Set Warnings "-register-all".

(** What [JSON.parse] and the body parsers produce, and what [res.json]
    sends. Numbers are IEEE 754 doubles. *)
Inductive value : Type :=
| VUndefined
| VNull
| VBool (b : bool)
| VNum (x : float)
| VStr (s : string)
| VArr (items : list value)
| VObj (fields : list (string * value)).

Module Val.

(** [!!v] *)
Definition truthy (v : value) : bool :=
  match v with
  | VUndefined | VNull => false
  | VBool b => b
  | VNum x => PrimFloat.eqb x x && negb (PrimFloat.eqb x 0)
  | VStr s => negb (String.eqb s "")
  | VArr _ | VObj _ => true
  end.

(** [a || b] *)
Definition or (a b : value) : value := if truthy a then a else b.

(** [a === b]. Arrays and objects are equal when they are the same
    allocation; the server compares a value of one parse with a value of
    another, which never are. *)
Definition strict_eq (a b : value) : bool :=
  match a, b with
  | VUndefined, VUndefined => true
  | VNull, VNull => true
  | VBool x, VBool y => Bool.eqb x y
  | VNum x, VNum y => PrimFloat.eqb x y
  | VStr x, VStr y => String.eqb x y
  | _, _ => false
  end.

(** [typeof v === 'string'] *)
Definition is_string (v : value) : bool :=
  match v with VStr _ => true | _ => false end.

Fixpoint assoc (k : string) (fields : list (string * value)) : value :=
  match fields with
  | [] => VUndefined
  | (k', v) :: rest => if String.eqb k' k then v else assoc k rest
  end.

(** [v.k] on a [v] that is neither [null] nor [undefined], for the keys
    the server reads ([uid], [password], [nickname], [users], [text],
    [chartType], [candidates], [content], [parts], [inlineData],
    [inline_data], [data], [mimeType], [mime_type]): none of them is a
    property a string, a number, a boolean or an array has of its own. *)
Definition field (v : value) (k : string) : value :=
  match v with
  | VObj fields => assoc k fields
  | _ => VUndefined
  end.

(** [v?.k] *)
Definition opt_field (v : value) (k : string) : value :=
  match v with
  | VUndefined | VNull => VUndefined
  | _ => field v k
  end.

(** [v?.[0]] *)
Definition opt_first (v : value) : value :=
  match v with
  | VArr (x :: _) => x
  | VStr (String c _) => VStr (String c "")
  | VObj fields => assoc "0" fields
  | _ => VUndefined
  end.

Fixpoint assign (k : string) (x : value) (fields : list (string * value))
  : list (string * value) :=
  match fields with
  | [] => [(k, x)]
  | (k', v) :: rest =>
      if String.eqb k' k then (k', x) :: rest else (k', v) :: assign k x rest
  end.

(** [v.k = x] in a module that is not in strict mode: an assignment to a
    property of a primitive is dropped. *)
Definition set_field (v : value) (k : string) (x : value) : value :=
  match v with
  | VObj fields => VObj (assign k x fields)
  | _ => v
  end.

(** A value that holds no object: a string, a number, a boolean, [null],
    [undefined], or an array of such values. *)
Fixpoint plain (v : value) : bool :=
  match v with
  | VArr items => forallb plain items
  | VObj _ => false
  | _ => true
  end.

(** [Object.hasOwn(v, k)] for an object *)
Definition has_own (k : string) (fields : list (string * value)) : bool :=
  existsb (fun entry => String.eqb (fst entry) k) fields.

(** [arr.join(sep)] of an array of strings *)
Fixpoint join (sep : string) (l : list string) : string :=
  match l with
  | [] => ""
  | [s] => s
  | s :: rest => s +:+ sep +:+ join sep rest
  end.

End Val.

(** ** Exceptions *)

(** A [TypeError] is raised by the language (a property of [null] or
    [undefined], a call of something that is no function); every other
    error carries the message it was made with. *)
Inductive exn : Type :=
| TypeError
| Thrown (message : string).

Inductive outcome (A : Type) : Type :=
| Ok (a : A)
| Throw (e : exn).
Arguments Ok {A} a.
Arguments Throw {A} e.

#[global] Instance outcome_ret : MRet outcome := fun A a => Ok a.
#[global] Instance outcome_bind : MBind outcome :=
  fun A B f m => match m with Ok a => f a | Throw e => Throw e end.

(** [v.k]: a [TypeError] on [null] and [undefined]. *)
Definition get_prop (v : value) (k : string) : outcome value :=
  match v with
  | VUndefined | VNull => Throw TypeError
  | _ => Ok (Val.field v k)
  end.

(** [arr.find(p)]: the first element [p] accepts, with its position, so
    that an assignment through the reference [find] returns can be replayed
    on the array. [p] is run on the elements in order and stops the search
    when it throws. *)
Fixpoint find_from (p : value -> outcome bool) (i : nat) (l : list value)
  : outcome (option (nat * value)) :=
  match l with
  | [] => Ok None
  | x :: rest =>
      b ← p x;
      if b : bool then Ok (Some (i, x)) else find_from p (S i) rest
  end.

(** [v.find(p)]: only an array has a [find] method. *)
Definition Array_find (p : value -> outcome bool) (v : value)
  : outcome (option (nat * value)) :=
  match v with
  | VArr items => find_from p 0 items
  | _ => Throw TypeError
  end.

(** [arr.filter(p)] *)
Fixpoint filter_from (p : value -> outcome bool) (l : list value)
  : outcome (list value) :=
  match l with
  | [] => Ok []
  | x :: rest =>
      b ← p x;
      kept ← filter_from p rest;
      Ok (if b : bool then x :: kept else kept)
  end.

(** [v.trim()]: only a string has a [trim] method. *)
Definition call_trim (v : value) : outcome string :=
  match v with
  | VStr s => Ok (Js.trim s)
  | _ => Throw TypeError
  end.

(** ** The world outside the source file *)

Definition Buffer : Type := list Byte.byte.

(** The reply of [fetch]: [response.status] and the body [response.json()]
    parses. *)
Record FetchResponse : Type := {
  resp_status : nat;
  resp_body : string
}.

(** [response.ok] *)
Definition resp_ok (r : FetchResponse) : bool :=
  (200 <=? resp_status r) && (resp_status r <=? 299).

(** A workbook as [xlsx.read] returns it: [SheetNames] and [Sheets]. *)
Record Workbook (sheet : Type) : Type := {
  SheetNames : list string;
  Sheets : list (string * sheet)
}.
Arguments SheetNames {sheet} _.
Arguments Sheets {sheet} _.

(** [{"users":[]}], the text [readUsers] parses in place of an empty file,
    and the value it stands for. *)
Definition EMPTY_USERS_JSON : string :=
  Eval cbv in
    "{" +:+ String "034"%char "users" +:+ String "034"%char ":[]}".

Definition emptyUsers : value := VObj [("users", VArr [])].

(** What the process is started with and what V8, Node, the npm packages
    and the network give the server. *)
Class Externals : Type := {
  (** [__dirname] and [process.env] *)
  dirname : string;
  process_env : gmap string string;
  (** [err.message] of a [TypeError] *)
  typeErrorMessage : string;
  (** [String.prototype.toUpperCase], [toLowerCase] *)
  toUpperCase : string -> string;
  toLowerCase : string -> string;
  (** [String(x)] of a number *)
  Number_toString : float -> string;
  (** [JSON.parse]: [None] when it throws a [SyntaxError] *)
  JSON_parse : string -> option value;
  (** [JSON.stringify(v, null, indent)] *)
  JSON_stringify : nat -> value -> string;
  JSON_parse_EMPTY_USERS : JSON_parse EMPTY_USERS_JSON = Some emptyUsers;
  (** [path.extname] *)
  path_extname : string -> string;
  (** [buffer.toString('utf8')], [Buffer.from(s, 'utf8')],
      [buffer.toString('base64')] *)
  utf8_decode : Buffer -> string;
  utf8_encode : string -> Buffer;
  base64 : Buffer -> string;
  (** [mime.lookup]: [None] for [false] *)
  mime_lookup : string -> option string;
  (** [(await pdfParse(buffer)).text] *)
  pdfParse : Buffer -> outcome string;
  (** [(await mammoth.extractRawText({ buffer })).value] *)
  mammoth_extractRawText : Buffer -> outcome string;
  (** [parse(buffer, { columns: true, skip_empty_lines: true })] *)
  csv_parse : Buffer -> outcome (list value);
  (** [xlsx.read(buffer, { type: 'buffer' })], [xlsx.utils.sheet_to_csv] *)
  sheet : Type;
  xlsx_read : Buffer -> outcome (Workbook sheet);
  xlsx_sheet_to_csv : option sheet -> outcome string;
  (** [r2Client.send(new PutObjectCommand({Bucket, Key, Body, ContentType}))],
      with the contents of the file [Body] streams *)
  S3_send : string -> string -> Buffer -> string -> outcome unit;
  (** [fetch(url, { method: 'POST', headers, body })] by url, API key and
      body *)
  fetch : string -> string -> string -> outcome FetchResponse
}.

(** I/O the server performs, in the order it performs it. *)
Inductive Event : Type :=
| FsExists (path : string)
| FsRead (path : string)
| FsWrite (path : string) (data : Buffer)
| FsUnlink (path : string)
| ConsoleError (text : string)
| R2Put (bucket key bodyPath contentType : string)
| Fetch (url apiKey body : string).

(** The outbound network calls: the object store and the generative API. *)
Definition is_network (e : Event) : bool :=
  match e with
  | R2Put _ _ _ _ | Fetch _ _ _ => true
  | _ => false
  end.

(** [req.session] *)
Record Session : Type := {
  uid : value;
  nickname : value
}.

(** A session express-session has just created. *)
Definition newSession : Session := {| uid := VUndefined; nickname := VUndefined |}.

(** The state a request runs in: the local disk, the session of the
    request, the I/O performed so far, and what [Date.now()] and
    [crypto.randomBytes(n).toString('hex')] return. *)
Record World : Type := {
  disk : gmap string Buffer;
  session : Session;
  log : list Event;
  clock : Z;
  entropy : nat -> string
}.

Definition with_disk (d : gmap string Buffer) (w : World) : World :=
  {| disk := d; session := session w; log := log w;
     clock := clock w; entropy := entropy w |}.

Definition with_session (s : Session) (w : World) : World :=
  {| disk := disk w; session := s; log := log w;
     clock := clock w; entropy := entropy w |}.

Definition with_log (l : list Event) (w : World) : World :=
  {| disk := disk w; session := session w; log := l;
     clock := clock w; entropy := entropy w |}.

(** ** The monad of handlers *)

Definition M (A : Type) : Type := World -> outcome A * World.

#[global] Instance M_ret : MRet M := fun A a w => (Ok a, w).
#[global] Instance M_bind : MBind M :=
  fun A B f m w =>
    match m w with
    | (Ok a, w') => f a w'
    | (Throw e, w') => (Throw e, w')
    end.

(** [throw e] *)
Definition throw {A : Type} (e : exn) : M A := fun w => (Throw e, w).

(** [try { m } catch (err) { h err }] *)
Definition try_catch {A : Type} (m : M A) (h : exn -> M A) : M A :=
  fun w =>
    match m w with
    | (Ok a, w') => (Ok a, w')
    | (Throw e, w') => h e w'
    end.

(** A computation that touches no state. *)
Definition liftO {A : Type} (o : outcome A) : M A := fun w => (o, w).

(** The current state. *)
Definition ask : M World := fun w => (Ok w, w).

(** One more event at the end of the log. *)
Definition emit (e : Event) : M unit :=
  fun w => (Ok tt, with_log (log w ++ [e]) w).

Definition put_disk (d : gmap string Buffer) : M unit :=
  fun w => (Ok tt, with_disk d w).

Definition put_session (s : Session) : M unit :=
  fun w => (Ok tt, with_session s w).

(** * The server *)

Section Server.

Context {ext : Externals}.

(** [path.join(__dirname, 'data')], [path.join(__dirname, 'uploads')] and
    [path.join(dataDir, 'users.json')] *)
Definition dataDir : string := dirname +:+ "/data".
Definition uploadDir : string := dirname +:+ "/uploads".
Definition usersPath : string := dataDir +:+ "/users.json".

(** [process.env.NAME] *)
Definition getenv (name : string) : value :=
  match process_env !! name with
  | Some s => VStr s
  | None => VUndefined
  end.

(** [String(v)], and [`${v}`] in a template literal, where the conversion
    returns. It always does for a value that holds no object ([Val.plain]).
    What it does for an object depends on the methods the object has: one
    that [JSON.parse] made is ['[object Object]'] unless it has a property
    [toString] of its own ([ToString] below), one that multer made for a
    field [name[key]] has no prototype and cannot be converted at all. A
    [value] does not tell the two apart, so the properties that depend on
    a conversion of a request field take the field to be [Val.plain]. *)
Fixpoint toString (v : value) : string :=
  match v with
  | VUndefined => "undefined"
  | VNull => "null"
  | VBool true => "true"
  | VBool false => "false"
  | VNum x => Number_toString x
  | VStr s => s
  | VArr items =>
      Val.join ","
        ((fix each (l : list value) : list string :=
            match l with
            | [] => []
            | VUndefined :: rest | VNull :: rest => "" :: each rest
            | x :: rest => toString x :: each rest
            end) items)
  | VObj _ => "[object Object]"
  end.

(** [String(v)] and [`${v}`] for a value [JSON.parse] returned. An object
    with a property [toString] of its own has nothing to be converted
    with: the property is no function, and [Object.prototype.valueOf]
    returns the object, so the conversion throws a [TypeError]. An array
    joins the conversions of its elements, [null] and [undefined] counting
    as the empty string. *)
Fixpoint ToString (v : value) : outcome string :=
  match v with
  | VArr items =>
      strings ← (fix each (l : list value) : outcome (list string) :=
                   match l with
                   | [] => Ok []
                   | VUndefined :: rest | VNull :: rest =>
                       others ← each rest; Ok ("" :: others)
                   | x :: rest =>
                       s ← ToString x; others ← each rest; Ok (s :: others)
                   end) items;
      Ok (Val.join "," strings)
  | VObj fields =>
      if Val.has_own "toString" fields then Throw TypeError else Ok "[object Object]"
  | _ => Ok (toString v)
  end.

(** ** The local disk

    The disk holds the regular files the process can read and write: a
    path is missing or has contents. A path that is there and cannot be
    read (a directory, a file of another user) is outside the model. *)

(** [fs.existsSync(path)] *)
Definition existsSync (path : string) : M bool :=
  emit (FsExists path);;
  w ← ask;
  mret (match disk w !! path with Some _ => true | None => false end).

(** The error Node throws when it opens a file that is not there. *)
Definition ENOENT (path : string) : exn :=
  Thrown ("ENOENT: no such file or directory, open '" +:+ path +:+ "'").

(** [fs.readFileSync(path)] *)
Definition readFileSync (path : string) : M Buffer :=
  emit (FsRead path);;
  w ← ask;
  match disk w !! path with
  | Some b => mret b
  | None => throw (ENOENT path)
  end.

(** [fs.writeFileSync(path, data)] *)
Definition writeFileSync (path : string) (data : Buffer) : M unit :=
  emit (FsWrite path data);;
  w ← ask;
  put_disk (<[path := data]> (disk w)).

(** [fs.unlink(path, () => {})]; the deletion is taken to be done when the
    request ends. *)
Definition unlink (path : string) : M unit :=
  emit (FsUnlink path);;
  w ← ask;
  put_disk (delete path (disk w)).

(** ** Credential store *)

(** [function readUsers()] *)
Definition readUsers : M value :=
  there ← existsSync usersPath;
  if negb there then mret emptyUsers
  else
    buf ← readFileSync usersPath;
    let raw := utf8_decode buf in
    match JSON_parse (Js.or_else raw EMPTY_USERS_JSON) with
    | Some data => mret data
    | None =>
        emit (ConsoleError "Invalid users.json. Resetting to empty list.");;
        mret emptyUsers
    end.

(** [function writeUsers(data)] *)
Definition writeUsers (data : value) : M unit :=
  writeFileSync usersPath (utf8_encode (JSON_stringify 2 data)).

(** ** Upload layer *)

(** A file part of a multipart request, as multer meets it. *)
Record Upload : Type := {
  up_originalname : string;
  up_mimetype : string;
  up_content : Buffer
}.

(** [req.file] *)
Record File : Type := {
  originalname : string;
  mimetype : string;
  path : string;
  size : N
}.

(** [storage.filename] *)
Definition filename (w : World) (originalname : string) : string :=
  let ext := path_extname (Js.or_else originalname "") in
  Js.digitsZ (clock w) +:+ "-" +:+ entropy w 6 +:+ ext.

(** [limits.fileSize] *)
Definition fileSize : N := 25 * 1024 * 1024.

(** [fileFilter]: [cb(new Error(...))] is [Throw], [cb(null, true)] is
    [Ok true]. *)
Definition fileFilter (file_mimetype : string) : outcome bool :=
  if Js.startsWith file_mimetype "audio/" || Js.startsWith file_mimetype "video/"
  then Throw (Thrown "Audio/video files are not supported.")
  else Ok true.

(** [upload.single('file')]: multer asks [fileFilter], then stores an
    accepted file under [uploadDir] with the name [filename] gives; a file
    that reaches [fileSize] bytes is an error (multer's ['File too large'],
    raised when the count of bytes received equals the limit) and is not
    kept. *)
Definition upload_single (part : option Upload) : M (option File) :=
  match part with
  | None => mret None
  | Some u =>
      accepted ← liftO (fileFilter (up_mimetype u));
      if negb accepted then mret None
      else
        w ← ask;
        let n := N.of_nat (length (up_content u)) in
        if (fileSize <=? n)%N then throw (Thrown "File too large")
        else
          let p := uploadDir +:+ "/" +:+ filename w (up_originalname u) in
          writeFileSync p (up_content u);;
          mret (Some {| originalname := up_originalname u;
                        mimetype := up_mimetype u;
                        path := p;
                        size := n |})
  end.

(** ** Object upload adapter *)

(** [const r2Enabled = !!(... && ... && ... && ...)] *)
Definition r2Enabled : bool :=
  Val.truthy (getenv "R2_ENDPOINT") && Val.truthy (getenv "R2_ACCESS_KEY_ID")
  && Val.truthy (getenv "R2_SECRET_ACCESS_KEY") && Val.truthy (getenv "R2_BUCKET").

(** The configuration of [new S3Client({...})] *)
Record S3Client : Type := {
  region : string;
  endpoint : value;
  accessKeyId : value;
  secretAccessKey : value
}.

(** [const r2Client = r2Enabled ? new S3Client({...}) : null] *)
Definition r2Client : option S3Client :=
  if r2Enabled
  then Some {| region := "auto";
               endpoint := getenv "R2_ENDPOINT";
               accessKeyId := getenv "R2_ACCESS_KEY_ID";
               secretAccessKey := getenv "R2_SECRET_ACCESS_KEY" |}
  else None.

(** [file.mimetype || mime.lookup(file.originalname) || fallback] *)
Definition mimeOf (file : File) (fallback : string) : string :=
  Js.or_else (mimetype file)
    (Js.or_else (default "" (mime_lookup (originalname file))) fallback).

(** [uploadToR2]: [null] or the public URL *)
Definition uploadToR2 (file : File) : M value :=
  match r2Client with
  | None => mret VNull
  | Some _ =>
      w ← ask;
      let key := "uploads/" +:+ Js.digitsZ (clock w) +:+ "-" +:+ entropy w 8
                 +:+ "-" +:+ originalname file in
      let contentType := mimeOf file "application/octet-stream" in
      let bucket := toString (getenv "R2_BUCKET") in
      emit (R2Put bucket key (path file) contentType);;
      match disk w !! path file with
      | None => throw (ENOENT (path file))
      | Some body =>
          liftO (S3_send bucket key body contentType);;
          let publicUrl := getenv "R2_PUBLIC_URL" in
          if Val.truthy publicUrl
          then mret (VStr (Js.dropTrailingSlash (toString publicUrl) +:+ "/" +:+ key))
          else mret VNull
      end
  end.

(** ** File extraction pipeline *)

(** [{ mimeType, data }] and [{ text, inlineImage }] *)
Record InlineImage : Type := {
  mimeType : string;
  data : string
}.

Record Extracted : Type := {
  text : string;
  inlineImage : option InlineImage
}.

(** [wb.Sheets[wb.SheetNames[0]]]; without a first name the key is
    [undefined], which reads the property ['undefined']. [Sheets] lists
    the properties the object has of its own; a sheet name is taken not to
    be the name of a property of [Object.prototype]. *)
Definition firstSheet (wb : Workbook sheet) : option sheet :=
  let name := default "undefined" (head (SheetNames wb)) in
  snd <$> find (fun entry => String.eqb (fst entry) name) (Sheets wb).

(** [async function extractFromFile(file)] *)
Definition extractFromFile (file : option File) : M Extracted :=
  match file with
  | None => mret {| text := ""; inlineImage := None |}
  | Some file =>
      buffer ← readFileSync (path file);
      let ext := toLowerCase (path_extname (Js.or_else (originalname file) "")) in
      let mimeType := mimeOf file "" in
      if Js.startsWith mimeType "image/" then
        mret {| text := "";
                inlineImage := Some {| mimeType := mimeType;
                                       data := base64 buffer |} |}
      else if String.eqb ext ".pdf" then
        data_text ← liftO (pdfParse buffer);
        mret {| text := truncateText (Js.or_else data_text ""); inlineImage := None |}
      else if String.eqb ext ".docx" then
        result_value ← liftO (mammoth_extractRawText buffer);
        mret {| text := truncateText (Js.or_else result_value ""); inlineImage := None |}
      else if String.eqb ext ".csv" then
        records ← liftO (csv_parse buffer);
        let preview := JSON_stringify 2 (VArr (take 30 records)) in
        mret {| text := truncateText ("CSV preview (first rows):" +:+ Js.LF +:+ preview);
                inlineImage := None |}
      else if String.eqb ext ".xlsx" then
        wb ← liftO (xlsx_read buffer);
        csv ← liftO (xlsx_sheet_to_csv (firstSheet wb));
        mret {| text := truncateText ("XLSX preview (CSV):" +:+ Js.LF +:+ csv);
                inlineImage := None |}
      else
        let fallback := utf8_decode buffer in
        mret {| text := truncateText fallback; inlineImage := None |}
  end.

(** ** Prompt assembly *)

(** [function buildSystemPrompt(botId, chartType)] *)
Definition buildSystemPrompt (botId chartType : string) : string :=
  if String.eqb botId "image" then
    "You are an image generation assistant. Return a concise caption plus the generated image."
  else if String.eqb botId "report" then
    "You are a report generation assistant. Return a structured report with title, executive summary, sections, key findings, and conclusion."
  else if String.eqb botId "paper" then
    "You are an academic paper analysis assistant. Return objective, methods, key results, limitations, and future work."
  else if String.eqb botId "data" then
    let chartInstruction :=
      if negb (String.eqb chartType "")
      then "Include output for a " +:+ chartType +:+ " chart."
      else "Include a recommended chart type." in
    "You are a data analytics assistant. Provide dataset overview, descriptive stats, patterns, and insights. "
      +:+ chartInstruction
  else "You are an assistant.".

(** ** HTTP responses *)

(** [res.status(status).json(body)] *)
Record Response : Type := {
  status : nat;
  body : value
}.

Definition json (status : nat) (body : value) : Response :=
  {| status := status; body := body |}.

(** [{ error: message }] *)
Definition error (message : string) : value := VObj [("error", VStr message)].

(** ** Login, logout, session *)

(** [u => u.uid === uid && u.password === password] *)
Definition credentialsMatch (uid password u : value) : outcome bool :=
  u_uid ← get_prop u "uid";
  if Val.strict_eq u_uid uid
  then u_password ← get_prop u "password";
       Ok (Val.strict_eq u_password password)
  else Ok false.

(** What [find] returned: the element, or [undefined]. *)
Definition found_value (found : option (nat * value)) : value :=
  match found with
  | Some (_, u) => u
  | None => VUndefined
  end.

(** [app.post('/api/login', ...)] *)
Definition post_api_login (req_body : value) : M Response :=
  body_uid ← liftO (get_prop req_body "uid");
  body_password ← liftO (get_prop req_body "password");
  if negb (Val.truthy body_uid) || negb (Val.truthy body_password)
  then mret (json 400 (error "UID and password required"))
  else
    data ← readUsers;
    users ← liftO (get_prop data "users");
    found ← liftO (Array_find (credentialsMatch body_uid body_password) users);
    let user := found_value found in
    if negb (Val.truthy user)
    then mret (json 401 (error "Invalid credentials"))
    else
      put_session {| uid := Val.field user "uid";
                     nickname := Val.or (Val.field user "nickname") (VStr "") |};;
      mret (json 200 (VObj [("ok", VBool true);
                            ("needsNickname", VBool (negb (Val.truthy (Val.field user "nickname"))))])).

(** [app.post('/api/logout', ...)]: [req.session.destroy], after which the
    next request finds a new session. *)
Definition post_api_logout : M Response :=
  put_session newSession;;
  mret (json 200 (VObj [("ok", VBool true)])).

(** [app.get('/api/session', ...)] *)
Definition get_api_session : M Response :=
  w ← ask;
  mret (json 200 (VObj [("authenticated", VBool (Val.truthy (uid (session w))));
                        ("uid", Val.or (uid (session w)) VNull);
                        ("nickname", Val.or (nickname (session w)) VNull)])).

(** ** Nickname *)

(** [u => u.uid === req.session.uid] *)
Definition uidMatch (session_uid u : value) : outcome bool :=
  u_uid ← get_prop u "uid";
  Ok (Val.strict_eq u_uid session_uid).

(** [data] after [user.nickname = nickname], where [user] is the element
    of [data.users] at position [i] that [find] returned. *)
Definition assign_nickname (data : value) (i : nat) (nickname : string) : value :=
  match Val.field data "users" with
  | VArr items =>
      match items !! i with
      | Some user =>
          Val.set_field data "users"
            (VArr (<[i := Val.set_field user "nickname" (VStr nickname)]> items))
      | None => data
      end
  | _ => data
  end.

(** [app.post('/api/nickname', ...)] *)
Definition post_api_nickname (req_body : value) : M Response :=
  w ← ask;
  if negb (Val.truthy (uid (session w)))
  then mret (json 401 (error "Not authenticated"))
  else
    body_nickname ← liftO (get_prop req_body "nickname");
    nickname ← liftO (call_trim (Val.or body_nickname (VStr "")));
    if String.eqb nickname ""
    then mret (json 400 (error "Nickname required"))
    else
      data ← readUsers;
      users ← liftO (get_prop data "users");
      found ← liftO (Array_find (uidMatch (uid (session w))) users);
      match found with
      | Some (i, user) =>
          if negb (Val.truthy user)
          then mret (json 404 (error "User not found"))
          else
            writeUsers (assign_nickname data i nickname);;
            put_session {| uid := uid (session w); nickname := VStr nickname |};;
            mret (json 200 (VObj [("ok", VBool true); ("nickname", VStr nickname)]))
      | None => mret (json 404 (error "User not found"))
      end.

(** ** Bot endpoint *)

(** The parts of the user message, in the order the handler pushes them. *)
Definition assembleParts (userText : string) (extracted : Extracted) : list value :=
  let parts := [] in
  let parts :=
    if negb (String.eqb userText "")
    then parts ++ [VObj [("text", VStr userText)]]
    else parts in
  let parts :=
    if negb (String.eqb (text extracted) "")
    then parts ++ [VObj [("text", VStr (Js.LF +:+ Js.LF +:+ "[File Content]" +:+ Js.LF
                                          +:+ text extracted))]]
    else parts in
  let parts :=
    match inlineImage extracted with
    | Some image =>
        parts ++ [VObj [("inline_data",
                         VObj [("mime_type", VStr (mimeType image));
                               ("data", VStr (data image))])]]
    | None => parts
    end in
  if length parts =? 0
  then parts ++ [VObj [("text", VStr "No input provided.")]]
  else parts.

(** The object the handler sends to [generateContent]. *)
Definition generateContentRequest (botId systemPrompt : string) (parts : list value)
  : value :=
  VObj [("systemInstruction",
         VObj [("role", VStr "system");
               ("parts", VArr [VObj [("text", VStr systemPrompt)]])]);
        ("generationConfig",
         if String.eqb botId "image"
         then VObj [("responseModalities", VArr [VStr "TEXT"; VStr "IMAGE"])]
         else VObj []);
        ("contents",
         VArr [VObj [("role", VStr "user"); ("parts", VArr parts)]])].

(** [await response.json()] *)
Definition response_json (r : FetchResponse) : outcome value :=
  match JSON_parse (resp_body r) with
  | Some data => Ok data
  | None => Throw (Thrown "Unexpected token in JSON")
  end.

(** [text] and [image] of the reply, from the parsed body of the
    response. The template literal of the data URL converts the MIME type,
    then the data. *)
Definition normalizeReply (reply : value) : outcome (string * value) :=
  let partsOut :=
    Val.or (Val.opt_field
              (Val.opt_field (Val.opt_first (Val.opt_field reply "candidates")) "content")
              "parts")
           (VArr []) in
  match partsOut with
  | VArr items =>
      textParts ← filter_from (fun p => t ← get_prop p "text"; Ok (Val.is_string t)) items;
      let text :=
        Js.trim (Val.join (Js.LF +:+ Js.LF)
                   (map (fun p => toString (Val.field p "text")) textParts)) in
      imagePart ← find_from
                    (fun p => a ← get_prop p "inlineData";
                              b ← get_prop p "inline_data";
                              Ok (Val.truthy (Val.or a b)))
                    0 items;
      let inline :=
        match imagePart with
        | Some (_, p) =>
            if Val.truthy p
            then Val.or (Val.field p "inlineData") (Val.field p "inline_data")
            else VNull
        | None => VNull
        end in
      image ←
        (if Val.truthy inline && Val.truthy (Val.field inline "data")
         then
           mime ← ToString (Val.or (Val.field inline "mimeType")
                                   (Val.field inline "mime_type"));
           data ← ToString (Val.field inline "data");
           Ok (VStr ("data:" +:+ mime +:+ ";base64," +:+ data))
         else Ok VNull);
      Ok (text, image)
  | _ => Throw TypeError
  end.

(** [(req.body && req.body.name) ? String(req.body.name) : ''], where the
    conversion returns (see [toString]). Where it throws, which is before
    the handler does any I/O, the [catch] of the handler answers the
    generic 500; that path has no counterpart here. *)
Definition formField (req_body : value) (name : string) : string :=
  if Val.truthy req_body && Val.truthy (Val.field req_body name)
  then toString (Val.field req_body name)
  else "".

(** The body of the [try] block of the handler. *)
Definition bot_request (botId : string) (model key : value) (req_body : value)
    (req_file : option File) : M Response :=
  let userText := formField req_body "text" in
  let chartType := formField req_body "chartType" in
  extracted ← extractFromFile req_file;
  fileUrl ← match req_file with
            | Some file => uploadToR2 file
            | None => mret VNull
            end;
  let systemPrompt := buildSystemPrompt botId chartType in
  let parts := assembleParts userText extracted in
  let url := "https://generativelanguage.googleapis.com/v1beta/models/"
             +:+ toString model +:+ ":generateContent" in
  let payload := JSON_stringify 0 (generateContentRequest botId systemPrompt parts) in
  emit (Fetch url (toString key) payload);;
  response ← liftO (fetch url (toString key) payload);
  reply ← liftO (response_json response);
  if negb (resp_ok response)
  then mret (json (resp_status response)
               (VObj [("error", VStr "Bot request failed"); ("details", reply)]))
  else
    out ← liftO (normalizeReply reply);
    match req_file with
    | Some file =>
        there ← existsSync (path file);
        if there : bool then unlink (path file) else mret tt
    | None => mret tt
    end;;
    mret (json 200 (VObj [("text", VStr (fst out)); ("image", snd out);
                          ("fileUrl", fileUrl); ("raw", reply)])).

(** The handler of [app.post('/api/bot/:botId', upload.single('file'), ...)] *)
Definition post_api_bot (botId : string) (req_body : value) (req_file : option File)
  : M Response :=
  w ← ask;
  if negb (Val.truthy (uid (session w)))
  then mret (json 401 (error "Not authenticated"))
  else
    let model := getenv ("BOT_" +:+ toUpperCase botId +:+ "_MODEL") in
    let key := getenv ("BOT_" +:+ toUpperCase botId +:+ "_KEY") in
    if negb (Val.truthy model) || negb (Val.truthy key)
    then mret (json 501 (error "Bot API not configured"))
    else
      try_catch (bot_request botId model key req_body req_file)
        (fun _ => mret (json 500 (error "Bot request failed"))).

(** ** Error-handling middleware and routes *)

(** [err.message]. V8 words the message of a [TypeError] after the
    expression that failed; [typeErrorMessage] is the message of the one
    [v.trim()] raises, and no property states the message of another. *)
Definition message (err : exn) : string :=
  match err with
  | TypeError => typeErrorMessage
  | Thrown m => m
  end.

(** [app.use((err, req, res, next) => ...)] for an error that was thrown *)
Definition errorMiddleware (err : exn) : Response :=
  json 400 (error (Js.or_else (message err) "Upload failed")).

(** Express hands what a middleware or a handler throws to the
    error-handling middleware. *)
Definition route (handler : M Response) : M Response :=
  try_catch handler (fun err => mret (errorMiddleware err)).

(** [POST /api/bot/:botId]: the upload layer, then the handler. *)
Definition route_api_bot (botId : string) (req_body : value) (part : option Upload)
  : M Response :=
  route (req_file ← upload_single part; post_api_bot botId req_body req_file).

(** [POST /api/login] and [POST /api/nickname] *)
Definition route_api_login (req_body : value) : M Response :=
  route (post_api_login req_body).

Definition route_api_nickname (req_body : value) : M Response :=
  route (post_api_nickname req_body).

End Server.

(** * A sample deployment

    One concrete [Externals] to run the server on: an ASCII-only V8, a
    [JSON.parse] that knows the three documents below, and packages that
    answer with fixed texts. *)

Module Sample.

Definition quoted (s : string) : string :=
  String "034"%char (s +:+ String "034"%char "").

(** [{"users":[{"uid":"a","password":"right"}]}] *)
Definition USERS_JSON : string :=
  Eval cbv in
    "{" +:+ quoted "users" +:+ ":[{" +:+ quoted "uid" +:+ ":" +:+ quoted "a" +:+ ","
        +:+ quoted "password" +:+ ":" +:+ quoted "right" +:+ "}]}".

Definition users : value :=
  VObj [("users", VArr [VObj [("uid", VStr "a"); ("password", VStr "right")]])].

(** [{"candidates":[{"content":{"parts":[{"text":"hello"}]}}]}] *)
Definition REPLY_JSON : string :=
  Eval cbv in
    "{" +:+ quoted "candidates" +:+ ":[{" +:+ quoted "content" +:+ ":{"
        +:+ quoted "parts" +:+ ":[{" +:+ quoted "text" +:+ ":" +:+ quoted "hello"
        +:+ "}]}}]}".

Definition reply : value :=
  VObj [("candidates",
         VArr [VObj [("content",
                      VObj [("parts", VArr [VObj [("text", VStr "hello")]])])]])].

Definition parse (s : string) : option value :=
  if String.eqb s EMPTY_USERS_JSON then Some emptyUsers
  else if String.eqb s USERS_JSON then Some users
  else if String.eqb s REPLY_JSON then Some reply
  else None.

Definition upper (c : ascii) : ascii :=
  let n := Ascii.nat_of_ascii c in
  if (97 <=? n) && (n <=? 122) then Ascii.ascii_of_nat (n - 32) else c.

Definition lower (c : ascii) : ascii :=
  let n := Ascii.nat_of_ascii c in
  if (65 <=? n) && (n <=? 90) then Ascii.ascii_of_nat (n + 32) else c.

Fixpoint map_string (f : ascii -> ascii) (s : string) : string :=
  match s with
  | EmptyString => EmptyString
  | String c s' => String (f c) (map_string f s')
  end.

(** The extension of a plain file name: from its last dot on, when that
    dot is not its first character. *)
Fixpoint from_last_dot (s : string) : option string :=
  match s with
  | EmptyString => None
  | String c s' =>
      match from_last_dot s' with
      | Some e => Some e
      | None => if Ascii.eqb c "."%char then Some s else None
      end
  end.

Definition extname (name : string) : string :=
  match name with
  | EmptyString => ""
  | String c rest => default "" (from_last_dot rest)
  end.

(** [JSON.stringify] without indentation and without escapes. *)
Fixpoint stringify (v : value) : string :=
  match v with
  | VUndefined | VNull => "null"
  | VBool true => "true"
  | VBool false => "false"
  | VNum _ => "0"
  | VStr s => quoted s
  | VArr items =>
      "[" +:+ Val.join ","
                ((fix each (l : list value) : list string :=
                    match l with
                    | [] => []
                    | x :: rest => stringify x :: each rest
                    end) items) +:+ "]"
  | VObj fields =>
      "{" +:+ Val.join ","
                ((fix each (l : list (string * value)) : list string :=
                    match l with
                    | [] => []
                    | (k, x) :: rest => (quoted k +:+ ":" +:+ stringify x) :: each rest
                    end) fields) +:+ "}"
  end.

Definition host (env : gmap string string) : Externals := {|
  dirname := "/srv/suite";
  process_env := env;
  typeErrorMessage := "Cannot read properties of undefined";
  toUpperCase := map_string upper;
  toLowerCase := map_string lower;
  Number_toString := fun _ => "0";
  JSON_parse := parse;
  JSON_stringify := fun _ => stringify;
  JSON_parse_EMPTY_USERS := eq_refl;
  path_extname := extname;
  utf8_decode := String.string_of_list_byte;
  utf8_encode := String.list_byte_of_string;
  base64 := fun _ => "AAAA";
  mime_lookup := fun _ => None;
  pdfParse := fun _ => Ok "text of the pdf";
  mammoth_extractRawText := fun _ => Ok "text of the document";
  csv_parse := fun _ => Ok [VObj [("a", VStr "1")]];
  sheet := string;
  xlsx_read := fun _ => Ok {| SheetNames := ["Sheet1"]; Sheets := [("Sheet1", "a,b")] |};
  xlsx_sheet_to_csv := fun s => match s with Some csv => Ok csv | None => Throw TypeError end;
  S3_send := fun _ _ _ _ => Ok tt;
  fetch := fun _ _ _ => Ok {| resp_status := 200; resp_body := REPLY_JSON |}
|}.

Definition bytes (s : string) : Buffer := String.list_byte_of_string s.

(** A disk with the [users.json] above and an uploaded PDF, and a disk
    whose [users.json] is no JSON. *)
Definition disk0 : gmap string Buffer :=
  {[ "/srv/suite/data/users.json" := bytes USERS_JSON;
     "/srv/suite/uploads/1-c0ffee.pdf" := bytes "%PDF-1.4" ]}.

Definition disk1 : gmap string Buffer :=
  {[ "/srv/suite/data/users.json" := bytes "{users" ]}.

Definition world (d : gmap string Buffer) (s : Session) : World :=
  {| disk := d; session := s; log := []; clock := 1700000000000;
     entropy := fun n => "c0ffee" |}.

Definition loggedIn : Session := {| uid := VStr "a"; nickname := VStr "" |}.

(** [req.file] of the uploaded PDF, and an audio part. *)
Definition pdfFile : File :=
  {| originalname := "report.pdf"; mimetype := "application/pdf";
     path := "/srv/suite/uploads/1-c0ffee.pdf"; size := 8 |}.

Definition audioPart : Upload :=
  {| up_originalname := "song.mp3"; up_mimetype := "audio/mpeg";
     up_content := bytes "ID3" |}.

(** No bot is configured, nor is the object store. *)
Definition env0 : gmap string string := ∅.

(** The [data] bot is configured. *)
Definition env1 : gmap string string :=
  {[ "BOT_DATA_MODEL" := "gemini"; "BOT_DATA_KEY" := "secret" ]}.

(** The object store is configured, with a public base URL. *)
Definition env2 : gmap string string :=
  {[ "R2_ENDPOINT" := "https://r2.example"; "R2_ACCESS_KEY_ID" := "id";
     "R2_SECRET_ACCESS_KEY" := "key"; "R2_BUCKET" := "bucket";
     "R2_PUBLIC_URL" := "https://cdn.example/" ]}.

(** The three deployments. *)
Definition h0 : Externals := host env0.
Definition h1 : Externals := host env1.
Definition h2 : Externals := host env2.

Fixpoint repeat_char (c : ascii) (n : nat) : string :=
  match n with
  | O => EmptyString
  | S n' => String c (repeat_char c n')
  end.

#[local] Set Warnings "-abstract-large-number".

(** A text of 12,005 characters. *)
Definition longText : string := repeat_char "a"%char 12005.

End Sample.

(** * Vocabulary of the properties *)

Section Vocabulary.

Context {ext : Externals}.

(** What the credential store holds: the parsed [users.json], or the empty
    list of users when the file is missing or does not parse. *)
Definition stored (w : World) : value :=
  match disk w !! usersPath with
  | None => emptyUsers
  | Some buf =>
      default emptyUsers (JSON_parse (Js.or_else (utf8_decode buf) EMPTY_USERS_JSON))
  end.

(** The I/O of one [readUsers]. *)
Definition readUsers_events (w : World) : list Event :=
  match disk w !! usersPath with
  | None => [FsExists usersPath]
  | Some buf =>
      match JSON_parse (Js.or_else (utf8_decode buf) EMPTY_USERS_JSON) with
      | Some _ => [FsExists usersPath; FsRead usersPath]
      | None => [FsExists usersPath; FsRead usersPath;
                 ConsoleError "Invalid users.json. Resetting to empty list."]
      end
  end.

(** [null] or [undefined] *)
Definition nullish (v : value) : bool :=
  match v with
  | VUndefined | VNull => true
  | _ => false
  end.

(** The outbound network calls of a log. *)
Definition network (l : list Event) : list Event := filter (fun e => is_network e = true) l.

(** The literal that precedes extracted file text in a message part. *)
Definition FILE_CONTENT_MARKER : string := "[File Content]".

(** The sentence the [data] template holds for a chart type. *)
Definition chartSentence (chartType : string) : string :=
  "Include output for a " +:+ chartType +:+ " chart.".

(** The key [uploadToR2] stores a file under, and the URL it returns. *)
Definition objectKey (w : World) (file : File) : string :=
  "uploads/" +:+ Js.digitsZ (clock w) +:+ "-" +:+ entropy w 8 +:+ "-"
    +:+ originalname file.

Definition publicUrl (base key : string) : string :=
  Js.dropTrailingSlash base +:+ "/" +:+ key.

(** The URL of [generateContent] for a model. *)
Definition generateContentUrl (model : string) : string :=
  "https://generativelanguage.googleapis.com/v1beta/models/" +:+ model
    +:+ ":generateContent".

(** A text part and an inline-image part of the user message. *)
Definition textPart (t : string) : value := VObj [("text", VStr t)].

Definition imagePart (image : InlineImage) : value :=
  VObj [("inline_data",
         VObj [("mime_type", VStr (mimeType image)); ("data", VStr (data image))])].

End Vocabulary.

(** * Pages *)

(** What a page route does with the response: [res.redirect(location)] or
    [res.sendFile(path.join(root, file))]. [path.join] resolves the
    dot-dot segments of [file], so the file it names may lie outside
    [root]. *)
Inductive PageReply : Type :=
| Redirect (location : string)
| SendFile (root file : string).

(** [s.replace('/', '')]: the first slash is removed. *)
Fixpoint removeFirstSlash (s : string) : string :=
  match s with
  | EmptyString => EmptyString
  | String c s' => if Ascii.eqb c "/"%char then s' else String c (removeFirstSlash s')
  end.

Section Pages.

Context {ext : Externals}.

(** [path.join(__dirname, 'public')] *)
Definition publicDir : string := dirname +:+ "/public".

(** [function requireAuth(req, res, next)], with what [next] does. *)
Definition requireAuth (s : Session) (req_path : string) (next : PageReply)
  : PageReply :=
  if negb (Val.truthy (uid s)) then Redirect "/login.html"
  else if negb (Val.truthy (nickname s)) && negb (String.eqb req_path "/nickname.html")
  then Redirect "/nickname.html"
  else next.

(** [app.get('/', ...)] *)
Definition get_root (s : Session) : PageReply :=
  if negb (Val.truthy (uid s)) then Redirect "/login.html"
  else if negb (Val.truthy (nickname s)) then Redirect "/nickname.html"
  else SendFile publicDir "index.html".

(** [app.get(['/*.html'], ...)] *)
Definition get_html (s : Session) (req_path : string) : PageReply :=
  let file := removeFirstSlash req_path in
  if String.eqb file "login.html" then SendFile publicDir "login.html"
  else if String.eqb file "nickname.html" then
    if negb (Val.truthy (uid s)) then Redirect "/login.html"
    else if Val.truthy (nickname s) then Redirect "/index.html"
    else SendFile publicDir "nickname.html"
  else requireAuth s req_path (SendFile publicDir file).

(** The page a browser ends on when it asks for [req_path] and follows at
    most [hops] redirects. *)
Fixpoint follow (hops : nat) (s : Session) (req_path : string) : PageReply :=
  match get_html s req_path, hops with
  | Redirect location, S hops' => follow hops' s location
  | reply, _ => reply
  end.

End Pages.

(** * The browser script *)

Module Client.

(** How a promise settles: [res] with its status, or a thrown value
    ([None] for [undefined]). *)
Inductive settled : Type :=
| Resolved (status : nat)
| Rejected (err : option exn).

(** What the page does besides calling [fetch]. *)
Inductive Effect : Type :=
| SetStatus (state text : string)
| Sleep (ms : nat).

(** [res.status === 502 || res.status === 503 || res.status === 504] *)
Definition waking (status : nat) : bool :=
  (status =? 502) || (status =? 503) || (status =? 504).

(** The [catch] block of iteration [i]. *)
Definition onCatch (i : nat) : list Effect :=
  [SetStatus "warn" "Waking up server..."; Sleep (800 * (i + 1))].

(** The loop of [fetchWithRetry] from iteration [i] with [remaining]
    iterations to go: [net i] is what the call of [fetch] in iteration [i]
    gives, [done] the effects so far. *)
Fixpoint retryFrom (net : nat -> outcome nat) (i remaining : nat)
    (lastErr : option exn) (done : list Effect) : settled * list Effect :=
  match remaining with
  | O => (Rejected lastErr, done)
  | S remaining' =>
      let attempt :=
        res_status ← net i;
        if waking res_status then Throw (Thrown "waking") else Ok res_status in
      match attempt with
      | Ok res_status => (Resolved res_status, done)
      | Throw err => retryFrom net (S i) remaining' (Some err) (done ++ onCatch i)
      end
  end.

(** [const fetchWithRetry = async (url, options, tries = 3) => ...] *)
Definition fetchWithRetry (net : nat -> outcome nat) (tries : nat) : settled * list Effect :=
  retryFrom net 0 tries None [].

(** Whether the call of [fetch] in iteration [i] counts as a failure. *)
Definition fails (net : nat -> outcome nat) (i : nat) : Prop :=
  match net i with
  | Ok res_status => waking res_status = true
  | Throw _ => True
  end.

(** The value the loop catches in iteration [i]. *)
Definition caught (net : nat -> outcome nat) (i : nat) : exn :=
  match net i with
  | Ok _ => Thrown "waking"
  | Throw err => err
  end.

(** The effects of the [catch] blocks of iterations [i, ..., i + k - 1]. *)
Definition retries (i k : nat) : list Effect := flat_map onCatch (seq i k).

(** The time spent in [sleep], in milliseconds. *)
Definition asleep (l : list Effect) : nat :=
  fold_right (fun e acc => match e with Sleep ms => ms + acc | SetStatus _ _ => acc end) 0 l.

End Client.

(** * Further sample deployments *)

Module Scenario.

(** The store of [Sample.users] once its user is called Bob, the body of
    an error of the generative API, and a reply with an image. *)
Definition named : value :=
  VObj [("users",
         VArr [VObj [("uid", VStr "a"); ("password", VStr "right");
                     ("nickname", VStr "Bob")]])].

Definition quota : value := VObj [("error", VObj [("message", VStr "quota exceeded")])].

Definition imageReply : value :=
  VObj [("candidates",
         VArr [VObj [("content",
                      VObj [("parts",
                             VArr [VObj [("text", VStr "a cat")];
                                   VObj [("inlineData",
                                          VObj [("mimeType", VStr "image/png");
                                                ("data", VStr "AAAA")])]])])]])].

(** A reply whose image has for data an object [{"toString": 0}]. *)
Definition badReply : value :=
  VObj [("candidates",
         VArr [VObj [("content",
                      VObj [("parts",
                             VArr [VObj [("inlineData",
                                          VObj [("mimeType", VStr "image/png");
                                                ("data",
                                                 VObj [("toString", VNum 0)])])]])])]])].

Definition parse (s : string) : option value :=
  if String.eqb s "{}" then Some (VObj [])
  else if String.eqb s (Sample.stringify named) then Some named
  else if String.eqb s (Sample.stringify quota) then Some quota
  else Sample.parse s.

(** [Sample.host] with this parser, and with the given answers of the
    object store and of the generative API. *)
Definition host (env : gmap string string) (put : outcome unit)
    (answer : outcome FetchResponse) : Externals := {|
  dirname := "/srv/suite";
  process_env := env;
  typeErrorMessage := "Cannot read properties of undefined";
  toUpperCase := Sample.map_string Sample.upper;
  toLowerCase := Sample.map_string Sample.lower;
  Number_toString := fun _ => "0";
  JSON_parse := parse;
  JSON_stringify := fun _ => Sample.stringify;
  JSON_parse_EMPTY_USERS := eq_refl;
  path_extname := Sample.extname;
  utf8_decode := String.string_of_list_byte;
  utf8_encode := String.list_byte_of_string;
  base64 := fun _ => "AAAA";
  mime_lookup := fun _ => None;
  pdfParse := fun _ => Ok "text of the pdf";
  mammoth_extractRawText := fun _ => Ok "text of the document";
  csv_parse := fun _ => Ok [VObj [("a", VStr "1")]];
  sheet := string;
  xlsx_read := fun _ => Ok {| SheetNames := ["Sheet1"]; Sheets := [("Sheet1", "a,b")] |};
  xlsx_sheet_to_csv := fun s => match s with Some csv => Ok csv | None => Throw TypeError end;
  S3_send := fun _ _ _ _ => put;
  fetch := fun _ _ _ => answer
|}.

(** The [data] bot and the object store are configured. *)
Definition env3 : gmap string string :=
  {[ "BOT_DATA_MODEL" := "gemini"; "BOT_DATA_KEY" := "secret";
     "R2_ENDPOINT" := "https://r2.example"; "R2_ACCESS_KEY_ID" := "id";
     "R2_SECRET_ACCESS_KEY" := "key"; "R2_BUCKET" := "bucket" ]}.

(** A deployment where everything answers, one whose object store
    refuses the upload, and one whose generative API answers 429. *)
Definition h3 : Externals :=
  host Sample.env1 (Ok tt) (Ok {| resp_status := 200; resp_body := Sample.REPLY_JSON |}).

Definition h4 : Externals :=
  host env3 (Throw (Thrown "AccessDenied"))
    (Ok {| resp_status := 200; resp_body := Sample.REPLY_JSON |}).

Definition h5 : Externals :=
  host Sample.env1 (Ok tt)
    (Ok {| resp_status := 429; resp_body := Sample.stringify quota |}).

(** A disk whose [users.json] is an empty object. *)
Definition disk2 : gmap string Buffer :=
  {[ "/srv/suite/data/users.json" := Sample.bytes "{}" ]}.

(** A user with a nickname, and a session whose user is not in the store. *)
Definition member : Session := {| uid := VStr "a"; nickname := VStr "Bob" |}.

Definition stranger : Session := {| uid := VStr "zed"; nickname := VStr "" |}.

(** [req.file] of a file that is not on the disk, and two form parts. *)
Definition goneFile : File :=
  {| originalname := "gone.txt"; mimetype := "text/plain";
     path := "/srv/suite/uploads/gone.txt"; size := 4 |}.

(** [req.file] of a workbook, stored where the PDF of [Sample.disk0] is. *)
Definition bookFile : File :=
  {| originalname := "Book.XLSX";
     mimetype := "application/vnd.openxmlformats-officedocument.spreadsheetml.sheet";
     path := "/srv/suite/uploads/1-c0ffee.pdf"; size := 8 |}.

Definition notes : Upload :=
  {| up_originalname := "notes.txt"; up_mimetype := "text/plain";
     up_content := Sample.bytes "hello" |}.


(** A server that answers 503, then is unreachable, then answers 200, and
    one that answers 503 for ever. *)
Definition wakes (i : nat) : outcome nat :=
  match i with
  | 0 => Ok 503
  | 1 => Throw TypeError
  | _ => Ok 200
  end.

Definition sleeps (i : nat) : outcome nat := Ok 503.

End Scenario.

(** * More vocabulary *)

Section Vocabulary2.

Context {ext : Externals}.

(** The text of the string [text] parts of a reply, in order. *)
Definition textsOf (items : list value) : list string :=
  omap (fun p => match Val.field p "text" with
                 | VStr t => Some t
                 | _ => None
                 end) items.

(** A reply of the generative API whose first candidate has these parts. *)
Definition has_parts (reply : value) (items : list value) : Prop :=
  Val.opt_field
    (Val.opt_field (Val.opt_first (Val.opt_field reply "candidates")) "content")
    "parts" = VArr items.

(** A bot whose model and key are set. *)
Definition configured (botId : string) : Prop :=
  Val.truthy (getenv ("BOT_" +:+ toUpperCase botId +:+ "_MODEL")) = true /\
  Val.truthy (getenv ("BOT_" +:+ toUpperCase botId +:+ "_KEY")) = true.

(** The model and the key of a bot, as the handler reads them. *)
Definition modelOf (botId : string) : value :=
  getenv ("BOT_" +:+ toUpperCase botId +:+ "_MODEL").

Definition keyOf (botId : string) : value :=
  getenv ("BOT_" +:+ toUpperCase botId +:+ "_KEY").

(** The call of [generateContent] the handler makes for a request whose
    file gave [extracted]. *)
Definition generateContentCall (botId : string) (req_body : value)
    (extracted : Extracted) : Event :=
  Fetch (generateContentUrl (toString (modelOf botId))) (toString (keyOf botId))
    (JSON_stringify 0
       (generateContentRequest botId
          (buildSystemPrompt botId (formField req_body "chartType"))
          (assembleParts (formField req_body "text") extracted))).

(** What [fetch] answers to that call. *)
Definition generateContentReply (botId : string) (req_body : value)
    (extracted : Extracted) : outcome FetchResponse :=
  fetch (generateContentUrl (toString (modelOf botId))) (toString (keyOf botId))
    (JSON_stringify 0
       (generateContentRequest botId
          (buildSystemPrompt botId (formField req_body "chartType"))
          (assembleParts (formField req_body "text") extracted))).

(** [file ? await uploadToR2(file) : null] *)
Definition upload_step (req_file : option File) : M value :=
  match req_file with
  | Some file => uploadToR2 file
  | None => mret VNull
  end.

(** The disk once the file of the request is deleted. *)
Definition without_file (req_file : option File) (d : gmap string Buffer)
  : gmap string Buffer :=
  match req_file with
  | Some file => delete (path file) d
  | None => d
  end.

(** No event of the log is a call of the generative API. *)
Definition no_fetch (l : list Event) : Prop :=
  Forall (fun e => match e with Fetch _ _ _ => False | _ => True end) l.

(** [JSON.parse] reads back what [writeUsers] writes for [data]. *)
Definition reads_back (data : value) : Prop :=
  utf8_decode (utf8_encode (JSON_stringify 2 data)) = JSON_stringify 2 data /\
  JSON_stringify 2 data <> "" /\
  JSON_parse (JSON_stringify 2 data) = Some data.

End Vocabulary2.
(** * Properties *)

(** ** Strings *)

Section StringFacts.

Lemma append_cons (c : ascii) (a b : string) :
  String c a +:+ b = String c (a +:+ b).
Proof. reflexivity. Qed.

Lemma length_append (a b : string) :
  String.length (a +:+ b) = String.length a + String.length b.
Proof. induction a as [|c a IH]; simpl; [reflexivity | now rewrite IH]. Qed.

Lemma length_substring_0 (n : nat) (s : string) :
  n <= String.length s -> String.length (String.substring 0 n s) = n.
Proof.
  revert s. induction n as [|n IH]; intros [|c s] Hn; simpl in *;
    try reflexivity; try lia.
  f_equal. apply IH. lia.
Qed.

Lemma substring_0_all (s : string) :
  String.substring 0 (String.length s) s = s.
Proof. induction s as [|c s IH]; simpl; [reflexivity | now rewrite IH]. Qed.

Lemma substring_split (n : nat) (s : string) :
  n <= String.length s ->
  String.substring 0 n s +:+ String.substring n (String.length s - n) s = s.
Proof.
  revert s. induction n as [|n IH]; intros s Hn.
  - destruct s as [|c s]; simpl; [reflexivity|].
    now rewrite substring_0_all.
  - destruct s as [|c s]; simpl in *; [lia|].
    rewrite append_cons. f_equal. apply IH. lia.
Qed.

Lemma length_substring_rest (n : nat) (s : string) :
  n <= String.length s ->
  String.length (String.substring n (String.length s - n) s) = String.length s - n.
Proof.
  intros Hn. pose proof (substring_split n s Hn) as E.
  apply (f_equal String.length) in E.
  rewrite length_append, length_substring_0 in E by exact Hn. lia.
Qed.

Lemma readDigits_digits (n : nat) : readDigits (Js.digits n) = Some n.
Proof.
  unfold readDigits, Js.digits.
  pose proof (DecimalNat.Unsigned.of_to n) as Hn.
  destruct (Nat.to_uint n) as [| | | | | | | | | |] eqn:E;
    try (rewrite NilZero.usu by discriminate; simpl; now f_equal).
  rewrite NilZero.usu_nil. simpl. f_equal. exact Hn.
Qed.

End StringFacts.

(** ** Truncation *)

Lemma truncateText_limit_short (text : string) (limit : nat) :
  String.length text <= limit -> truncateText_limit text limit = text.
Proof.
  intros Hle. unfold truncateText_limit.
  case_bool_decide as He; [now subst|].
  apply Nat.leb_le in Hle. now rewrite Hle.
Qed.

Lemma truncateText_limit_long (text : string) (limit : nat) :
  limit < String.length text ->
  truncateText_limit text limit =
    Js.slice text 0 limit +:+ truncationMarker (String.length text - limit).
Proof.
  intros Hlt. unfold truncateText_limit.
  case_bool_decide as He; [subst; simpl in Hlt; lia|].
  destruct (Nat.leb_spec (String.length text) limit); [lia | reflexivity].
Qed.

(** C1. A text longer than 12,000 characters comes back as its first 12,000
    characters followed by the marker; the result is 12,000 characters plus
    the marker long, and the number the marker prints is the number of
    characters left out. A text of at most 12,000 characters comes back
    unchanged. *)
Theorem truncateText_spec (text : string) :
  (12000 < String.length text ->
   exists kept omitted : string,
     text = kept +:+ omitted /\
     String.length kept = 12000 /\
     String.length omitted = String.length text - 12000 /\
     truncateText text =
       kept +:+ Js.LF +:+ Js.LF +:+ "[Truncated " +:+
         Js.digits (String.length omitted) +:+ " chars]" /\
     truncateText text = kept +:+ truncationMarker (String.length text - 12000) /\
     readDigits (Js.digits (String.length omitted)) = Some (String.length text - 12000) /\
     String.length (truncateText text) =
       12000 + String.length (truncationMarker (String.length text - 12000)))
  /\
  (String.length text <= 12000 -> truncateText text = text).
Proof.
  split.
  - intros Hlt.
    exists (Js.slice text 0 12000),
           (String.substring 12000 (String.length text - 12000) text).
    assert (Hle : 12000 <= String.length text) by (apply Nat.lt_le_incl, Hlt).
    unfold truncateText, DEFAULT_LIMIT.
    rewrite (truncateText_limit_long _ _ Hlt).
    unfold Js.slice. rewrite Nat.sub_0_r.
    rewrite (length_substring_rest _ _ Hle).
    repeat split.
    + symmetry. apply substring_split, Hle.
    + apply length_substring_0, Hle.
    + apply readDigits_digits.
    + rewrite length_append. f_equal. apply length_substring_0, Hle.
  - apply truncateText_limit_short.
Qed.

(** ** The monad *)

Lemma with_log_same (w : World) : with_log (log w) w = w.
Proof. now destruct w. Qed.

Lemma network_app (l1 l2 : list Event) : network (l1 ++ l2) = network l1 ++ network l2.
Proof. unfold network. apply filter_app. Qed.

Ltac run :=
  unfold route, try_catch, liftO, throw, emit, ask, put_disk, put_session,
    mbind, M_bind, mret, M_ret; cbn.

Tactic Notation "run" "in" hyp(H) :=
  unfold route, try_catch, liftO, throw, emit, ask, put_disk, put_session,
    mbind, M_bind, mret, M_ret in H; cbn in H.

Ltac world :=
  unfold with_log, with_disk, with_session; cbn; rewrite <- ?app_assoc; cbn.

Section Properties.

Context {ext : Externals}.

(** ** Credential store *)

Lemma readUsers_run (w : World) :
  readUsers w = (Ok (stored w), with_log (log w ++ readUsers_events w) w).
Proof.
  unfold readUsers, existsSync, readFileSync, stored, readUsers_events. run.
  destruct (disk w !! usersPath) as [buf|] eqn:Hfile; cbn; [|reflexivity].
  rewrite Hfile.
  destruct (JSON_parse _) as [data|]; world; reflexivity.
Qed.

Lemma strict_eq_str (x : value) (s : string) :
  Val.strict_eq x (VStr s) = true <-> x = VStr s.
Proof.
  destruct x; cbn; split; try discriminate; intros Hx.
  - apply String.eqb_eq in Hx. now subst.
  - injection Hx as ->. apply String.eqb_refl.
Qed.

Lemma truthy_str (s : string) : s <> "" -> Val.truthy (VStr s) = true.
Proof.
  intros Hs. cbn. destruct (String.eqb_spec s ""); [contradiction | reflexivity].
Qed.

Lemma field_some_get_prop (v : value) (k : string) (x : value) :
  Val.field v k = x -> x <> VUndefined -> get_prop v k = Ok x.
Proof.
  intros Hf Hx. destruct v; cbn in *; subst; try contradiction; reflexivity.
Qed.

Lemma get_prop_not_nullish (v : value) (k : string) :
  nullish v = false -> get_prop v k = Ok (Val.field v k).
Proof. destruct v; cbn; try discriminate; reflexivity. Qed.

Lemma find_from_none (p : value -> outcome bool) (l : list value) (i : nat) :
  Forall (fun u => p u = Ok false) l -> find_from p i l = Ok None.
Proof.
  intros Hall. revert i. induction Hall as [|u l Hu _ IH]; intros i; cbn.
  - reflexivity.
  - rewrite Hu. cbn. apply IH.
Qed.

Lemma credentialsMatch_false (uid0 password0 : string) (u : value) :
  nullish u = false ->
  ~ (Val.field u "uid" = VStr uid0 /\ Val.field u "password" = VStr password0) ->
  credentialsMatch (VStr uid0) (VStr password0) u = Ok false.
Proof.
  intros Hu Hno. unfold credentialsMatch.
  rewrite !(get_prop_not_nullish _ _ Hu). cbn.
  destruct (Val.strict_eq (Val.field u "uid") (VStr uid0)) eqn:E1; [|reflexivity].
  destruct (Val.strict_eq (Val.field u "password") (VStr password0)) eqn:E2; [|reflexivity].
  apply strict_eq_str in E1, E2. exfalso. apply Hno. now split.
Qed.

Lemma login_no_match (w : World) (req_body : value)
    (uid0 password0 : string) (users : list value) :
  Val.field req_body "uid" = VStr uid0 -> uid0 <> "" ->
  Val.field req_body "password" = VStr password0 -> password0 <> "" ->
  Val.field (stored w) "users" = VArr users ->
  Forall (fun u => nullish u = false) users ->
  Forall (fun u => ~ (Val.field u "uid" = VStr uid0 /\
                      Val.field u "password" = VStr password0)) users ->
  post_api_login req_body w =
    (Ok (json 401 (error "Invalid credentials")),
     with_log (log w ++ readUsers_events w) w).
Proof.
  intros Huid Hu Hpw Hp Husers Hrec Hnone.
  unfold post_api_login. run.
  rewrite (field_some_get_prop _ _ _ Huid) by discriminate.
  rewrite (field_some_get_prop _ _ _ Hpw) by discriminate.
  rewrite (truthy_str _ Hu), (truthy_str _ Hp). cbn.
  rewrite readUsers_run.
  rewrite (field_some_get_prop _ _ _ Husers) by discriminate.
  cbn. rewrite find_from_none; [reflexivity|].
  rewrite Forall_forall in *. intros u Hin.
  apply credentialsMatch_false; auto.
Qed.

(** C4. A login whose uid and password are non-empty and are not those of
    any record of the store is answered 401 with
    [{error: "Invalid credentials"}], never 200, whatever other records the
    store holds; the session is left as it was. *)
Theorem login_invalid_credentials (w : World) (req_body : value)
    (uid0 password0 : string) (users : list value) :
  Val.field req_body "uid" = VStr uid0 -> uid0 <> "" ->
  Val.field req_body "password" = VStr password0 -> password0 <> "" ->
  Val.field (stored w) "users" = VArr users ->
  Forall (fun u => nullish u = false) users ->
  Forall (fun u => ~ (Val.field u "uid" = VStr uid0 /\
                      Val.field u "password" = VStr password0)) users ->
  exists (r : Response) (w' : World),
    post_api_login req_body w = (Ok r, w') /\
    route_api_login req_body w = (Ok r, w') /\
    status r = 401 /\ status r <> 200 /\
    body r = VObj [("error", VStr "Invalid credentials")] /\
    session w' = session w /\ disk w' = disk w.
Proof.
  intros Huid Hu Hpw Hp Husers Hrec Hnone.
  pose proof (login_no_match w req_body uid0 password0 users
                Huid Hu Hpw Hp Husers Hrec Hnone) as Hrun.
  exists (json 401 (error "Invalid credentials")),
         (with_log (log w ++ readUsers_events w) w).
  repeat split; try exact Hrun; try (cbn; lia).
  unfold route_api_login. run. now rewrite Hrun.
Qed.

Lemma find_from_first (p : value -> outcome bool) (l : list value) :
  forall (k i : nat) (x : value),
    l !! i = Some x -> p x = Ok true ->
    (forall (j : nat) (y : value), j < i -> l !! j = Some y -> p y = Ok false) ->
    find_from p k l = Ok (Some (k + i, x)).
Proof.
  induction l as [|a l IH]; intros k i x Hi Hx Hbefore; [discriminate Hi|].
  destruct i as [|i]; cbn in *.
  - injection Hi as ->. rewrite Hx. cbn. now rewrite Nat.add_0_r.
  - rewrite (Hbefore 0 a (Nat.lt_0_succ i) eq_refl). cbn.
    rewrite (IH (S k) i x Hi Hx); [do 3 f_equal; lia|].
    intros j y Hj Hy. apply (Hbefore (S j) y); [lia | exact Hy].
Qed.

Lemma match_is_object (u : value) (k : string) (x : value) :
  Val.strict_eq (Val.field u k) x = true -> Val.truthy x = true ->
  nullish u = false /\ Val.truthy u = true.
Proof.
  destruct u; cbn; try (destruct x; cbn; discriminate). now split.
Qed.

(** The other half of the login scenario: the first record that has the
    uid and the password of the request opens the session, and
    [needsNickname] tells whether the record has no nickname. *)
Lemma login_accepts (w : World) (req_body : value) (uid0 password0 : string)
    (users : list value) (i : nat) (user : value) :
  Val.field req_body "uid" = VStr uid0 -> uid0 <> "" ->
  Val.field req_body "password" = VStr password0 -> password0 <> "" ->
  Val.field (stored w) "users" = VArr users ->
  users !! i = Some user ->
  Val.field user "uid" = VStr uid0 -> Val.field user "password" = VStr password0 ->
  (forall (j : nat) (y : value), j < i -> users !! j = Some y ->
     nullish y = false /\
     ~ (Val.field y "uid" = VStr uid0 /\ Val.field y "password" = VStr password0)) ->
  post_api_login req_body w =
    (Ok (json 200 (VObj [("ok", VBool true);
                         ("needsNickname",
                          VBool (negb (Val.truthy (Val.field user "nickname"))))])),
     with_session {| uid := VStr uid0;
                     nickname := Val.or (Val.field user "nickname") (VStr "") |}
       (with_log (log w ++ readUsers_events w) w)).
Proof.
  intros Huid Hu Hpw Hp Husers Hi Huser_uid Huser_pw Hbefore.
  assert (Hobj : nullish user = false /\ Val.truthy user = true).
  { apply (match_is_object user "uid" (VStr uid0)).
    - now apply strict_eq_str.
    - now apply truthy_str. }
  destruct Hobj as [Hnn Htruthy].
  unfold post_api_login. run.
  rewrite (field_some_get_prop _ _ _ Huid) by discriminate.
  rewrite (field_some_get_prop _ _ _ Hpw) by discriminate.
  rewrite (truthy_str _ Hu), (truthy_str _ Hp). cbn.
  rewrite readUsers_run.
  rewrite (field_some_get_prop _ _ _ Husers) by discriminate. cbn.
  rewrite (find_from_first _ users 0 i user Hi).
  - cbn. rewrite Htruthy. cbn. now rewrite Huser_uid.
  - unfold credentialsMatch. rewrite !(get_prop_not_nullish _ _ Hnn). cbn.
    rewrite Huser_uid, Huser_pw. cbn. now rewrite !String.eqb_refl.
  - intros j y Hj Hy. destruct (Hbefore j y Hj Hy) as [Hy1 Hy2].
    now apply credentialsMatch_false.
Qed.

(** ** Nickname and session *)

(** C5. A nickname update on a session that holds no user id is answered
    401 and leaves the world as it was: the credential store is neither
    read nor written, and no I/O is logged. *)
Theorem nickname_unauthenticated (w : World) (req_body : value) :
  Val.truthy (uid (session w)) = false ->
  post_api_nickname req_body w = (Ok (json 401 (error "Not authenticated")), w) /\
  route_api_nickname req_body w = (Ok (json 401 (error "Not authenticated")), w) /\
  forall (r : Response) (w' : World),
    post_api_nickname req_body w = (Ok r, w') ->
    status r = 401 /\ disk w' = disk w /\ log w' = log w.
Proof.
  intros Hno.
  assert (Hrun : post_api_nickname req_body w =
                 (Ok (json 401 (error "Not authenticated")), w)).
  { unfold post_api_nickname. run. now rewrite Hno. }
  split; [exact Hrun|]. split.
  - unfold route_api_nickname. run. now rewrite Hrun.
  - intros r w' Hr. rewrite Hrun in Hr. injection Hr as <- <-. now cbn.
Qed.

Lemma call_trim_ok (v : value) (nick : string) :
  call_trim (Val.or v (VStr "")) = Ok nick -> nick <> "" ->
  exists raw : string, v = VStr raw /\ nick = Js.trim raw.
Proof.
  unfold Val.or. destruct (Val.truthy v) eqn:Ht; cbn.
  - destruct v; cbn; try discriminate. intros [= <-] _. now exists s.
  - intros [= <-] Hn. now contradiction Hn.
Qed.

Lemma nickname_reflected (w w1 : World) (req_body : value) (r : Response) :
  post_api_nickname req_body w = (Ok r, w1) ->
  status r = 200 ->
  exists raw : string,
    Val.field req_body "nickname" = VStr raw /\
    Js.trim raw <> "" /\
    Val.truthy (uid (session w)) = true /\
    r = json 200 (VObj [("ok", VBool true); ("nickname", VStr (Js.trim raw))]) /\
    get_api_session w1 =
      (Ok (json 200 (VObj [("authenticated", VBool true);
                           ("uid", uid (session w));
                           ("nickname", VStr (Js.trim raw))])), w1).
Proof.
  intros Hrun Hok. unfold post_api_nickname in Hrun. run in Hrun.
  destruct (Val.truthy (uid (session w))) eqn:Hauth; cbn in Hrun;
    [|injection Hrun as <- <-; discriminate Hok].
  destruct (get_prop req_body "nickname") as [body_nickname|] eqn:Hget;
    cbn in Hrun; [|discriminate Hrun].
  destruct (call_trim (Val.or body_nickname (VStr ""))) as [nick|] eqn:Htrim;
    cbn in Hrun; [|discriminate Hrun].
  destruct (String.eqb_spec nick "") as [->|Hnick]; cbn in Hrun;
    [injection Hrun as <- <-; discriminate Hok|].
  destruct (call_trim_ok _ _ Htrim Hnick) as (raw & -> & ->).
  rewrite readUsers_run in Hrun. cbn in Hrun.
  destruct (get_prop (stored w) "users") as [users|]; cbn in Hrun; [|discriminate Hrun].
  destruct (Array_find (uidMatch (uid (session w))) users) as [[[i user]|]|];
    cbn in Hrun; try discriminate Hrun;
    [|injection Hrun as <- <-; discriminate Hok].
  destruct (Val.truthy user); cbn in Hrun;
    [|injection Hrun as <- <-; discriminate Hok].
  unfold writeUsers, writeFileSync in Hrun. run in Hrun.
  injection Hrun as <- <-.
  exists raw. repeat split.
  - destruct req_body; cbn in Hget; try discriminate Hget; now injection Hget.
  - exact Hnick.
  - unfold get_api_session. run. rewrite Hauth.
    unfold Val.or. rewrite Hauth, (truthy_str _ Hnick). reflexivity.
Qed.

Lemma nickname_accepts (w : World) (req_body : value) (raw : string)
    (users : list value) (i : nat) (user : value) :
  Val.truthy (uid (session w)) = true ->
  Val.field req_body "nickname" = VStr raw -> Js.trim raw <> "" ->
  Val.field (stored w) "users" = VArr users ->
  users !! i = Some user ->
  Val.strict_eq (Val.field user "uid") (uid (session w)) = true ->
  (forall (j : nat) (y : value), j < i -> users !! j = Some y ->
     nullish y = false /\
     Val.strict_eq (Val.field y "uid") (uid (session w)) = false) ->
  post_api_nickname req_body w =
    (Ok (json 200 (VObj [("ok", VBool true); ("nickname", VStr (Js.trim raw))])),
     with_session {| uid := uid (session w); nickname := VStr (Js.trim raw) |}
       (with_disk
          (<[usersPath :=
               utf8_encode (JSON_stringify 2 (assign_nickname (stored w) i (Js.trim raw)))]>
             (disk w))
          (with_log
             (log w ++ readUsers_events w ++
              [FsWrite usersPath
                 (utf8_encode
                    (JSON_stringify 2 (assign_nickname (stored w) i (Js.trim raw))))])
             w))).
Proof.
  intros Hauth Hnick Htrim Husers Hi Hmatch Hbefore.
  destruct (match_is_object user "uid" _ Hmatch Hauth) as [Hnn Htruthy].
  unfold post_api_nickname. run. rewrite Hauth. cbn.
  rewrite (field_some_get_prop _ _ _ Hnick) by discriminate. cbn.
  assert (Hraw : raw <> "") by (intros ->; now apply Htrim).
  unfold Val.or. rewrite (truthy_str _ Hraw). cbn.
  destruct (String.eqb_spec (Js.trim raw) ""); [contradiction|]. cbn.
  rewrite readUsers_run.
  rewrite (field_some_get_prop _ _ _ Husers) by discriminate. cbn.
  rewrite (find_from_first _ users 0 i user Hi).
  - cbn. rewrite Htruthy. cbn.
    unfold writeUsers, writeFileSync. run. world. reflexivity.
  - unfold uidMatch. rewrite (get_prop_not_nullish _ _ Hnn). cbn. now rewrite Hmatch.
  - intros j y Hj Hy. destruct (Hbefore j y Hj Hy) as [Hy1 Hy2].
    unfold uidMatch. rewrite (get_prop_not_nullish _ _ Hy1). cbn. now rewrite Hy2.
Qed.

(** C6. When a nickname update succeeds, the session endpoint called next
    in the same session answers with that nickname, trimmed, with
    [authenticated] true and the uid the session had. And it does succeed
    for an authenticated session whose uid has a record in the store, when
    the nickname sent is a string that is not blank. *)
Theorem nickname_then_session :
  (forall (w w1 : World) (req_body : value) (r : Response),
      post_api_nickname req_body w = (Ok r, w1) ->
      status r = 200 ->
      exists raw : string,
        Val.field req_body "nickname" = VStr raw /\
        Js.trim raw <> "" /\
        Val.truthy (uid (session w)) = true /\
        r = json 200 (VObj [("ok", VBool true); ("nickname", VStr (Js.trim raw))]) /\
        get_api_session w1 =
          (Ok (json 200 (VObj [("authenticated", VBool true);
                               ("uid", uid (session w));
                               ("nickname", VStr (Js.trim raw))])), w1))
  /\
  (forall (w : World) (req_body : value) (raw : string) (users : list value)
          (i : nat) (user : value),
      Val.truthy (uid (session w)) = true ->
      Val.field req_body "nickname" = VStr raw -> Js.trim raw <> "" ->
      Val.field (stored w) "users" = VArr users ->
      users !! i = Some user ->
      Val.strict_eq (Val.field user "uid") (uid (session w)) = true ->
      (forall (j : nat) (y : value), j < i -> users !! j = Some y ->
         nullish y = false /\
         Val.strict_eq (Val.field y "uid") (uid (session w)) = false) ->
      exists w1 : World,
        post_api_nickname req_body w =
          (Ok (json 200 (VObj [("ok", VBool true);
                               ("nickname", VStr (Js.trim raw))])), w1) /\
        get_api_session w1 =
          (Ok (json 200 (VObj [("authenticated", VBool true);
                               ("uid", uid (session w));
                               ("nickname", VStr (Js.trim raw))])), w1)).
Proof.
  split.
  - exact nickname_reflected.
  - intros w req_body raw users i user Hauth Hnick Htrim Husers Hi Hmatch Hbefore.
    pose proof (nickname_accepts w req_body raw users i user
                  Hauth Hnick Htrim Husers Hi Hmatch Hbefore) as Hrun.
    eexists. split; [exact Hrun|].
    destruct (nickname_reflected _ _ _ _ Hrun eq_refl) as (raw' & Hraw' & _ & _ & _ & Hs).
    rewrite Hnick in Hraw'. injection Hraw' as <-. exact Hs.
Qed.

(** ** Reading the store *)

Lemma stored_missing (w : World) :
  disk w !! usersPath = None -> stored w = emptyUsers.
Proof. intros Hfile. unfold stored. now rewrite Hfile. Qed.

Lemma stored_unparsable (w : World) (buf : Buffer) :
  disk w !! usersPath = Some buf -> JSON_parse (utf8_decode buf) = None ->
  stored w = emptyUsers.
Proof.
  intros Hfile Hbad. unfold stored, Js.or_else. rewrite Hfile.
  destruct (String.eqb (utf8_decode buf) "").
  - now rewrite JSON_parse_EMPTY_USERS.
  - now rewrite Hbad.
Qed.

Lemma nickname_no_user (w : World) (req_body : value) (raw : string) :
  Val.truthy (uid (session w)) = true ->
  Val.field req_body "nickname" = VStr raw -> Js.trim raw <> "" ->
  stored w = emptyUsers ->
  post_api_nickname req_body w =
    (Ok (json 404 (error "User not found")),
     with_log (log w ++ readUsers_events w) w).
Proof.
  intros Hauth Hnick Htrim Hempty. unfold post_api_nickname. run.
  rewrite Hauth. cbn.
  rewrite (field_some_get_prop _ _ _ Hnick) by discriminate. cbn.
  assert (Hraw : raw <> "") by (intros ->; now apply Htrim).
  unfold Val.or. rewrite (truthy_str _ Hraw). cbn.
  destruct (String.eqb_spec (Js.trim raw) ""); [contradiction|]. cbn.
  rewrite readUsers_run, Hempty. reflexivity.
Qed.

(** C9. A [users.json] that is missing or corrupt is an empty list of
    users, not a fatal error. When the file is missing, and when its
    contents do not parse as JSON, [readUsers] returns [{users: []}] and
    leaves the disk as it is, reporting the corrupt file on the console;
    an empty file is read as [{users: []}] without a report. A login then
    finds no user (401) and a nickname update finds no record (404), as
    with a store that holds no user. *)
Theorem readUsers_falls_back (w : World) :
  disk w !! usersPath = None \/
  (exists buf : Buffer,
      disk w !! usersPath = Some buf /\
      (utf8_decode buf = "" \/ JSON_parse (utf8_decode buf) = None)) ->
  (exists w' : World,
      readUsers w = (Ok (VObj [("users", VArr [])]), w') /\ disk w' = disk w /\
      session w' = session w /\
      (disk w !! usersPath = None -> log w' = log w ++ [FsExists usersPath]) /\
      (forall buf : Buffer,
          disk w !! usersPath = Some buf -> utf8_decode buf = "" ->
          log w' = log w ++ [FsExists usersPath; FsRead usersPath]) /\
      (forall buf : Buffer,
          disk w !! usersPath = Some buf -> utf8_decode buf <> "" ->
          log w' = log w ++ [FsExists usersPath; FsRead usersPath;
                             ConsoleError "Invalid users.json. Resetting to empty list."])) /\
  (forall (req_body : value) (uid0 password0 : string),
      Val.field req_body "uid" = VStr uid0 -> uid0 <> "" ->
      Val.field req_body "password" = VStr password0 -> password0 <> "" ->
      exists w' : World,
        post_api_login req_body w =
          (Ok (json 401 (error "Invalid credentials")), w') /\
        session w' = session w) /\
  (forall (req_body : value) (raw : string),
      Val.truthy (uid (session w)) = true ->
      Val.field req_body "nickname" = VStr raw -> Js.trim raw <> "" ->
      exists w' : World,
        post_api_nickname req_body w =
          (Ok (json 404 (error "User not found")), w') /\
        disk w' = disk w /\ session w' = session w).
Proof.
  intros Hbad.
  assert (Hempty : stored w = emptyUsers).
  { destruct Hbad as [Hmissing | (buf & Hfile & [Hraw | Hparse])].
    - now apply stored_missing.
    - unfold stored, Js.or_else. rewrite Hfile, Hraw. cbn.
      now rewrite JSON_parse_EMPTY_USERS.
    - now apply (stored_unparsable w buf). }
  split; [|split].
  - exists (with_log (log w ++ readUsers_events w) w).
    rewrite readUsers_run, Hempty. split; [reflexivity|].
    split; [reflexivity|]. split; [reflexivity|]. cbn. split; [|split].
    + intros Hmissing. unfold readUsers_events. now rewrite Hmissing.
    + intros buf Hfile Hraw. unfold readUsers_events, Js.or_else.
      rewrite Hfile, Hraw. cbn. now rewrite JSON_parse_EMPTY_USERS.
    + intros buf Hfile Hraw. unfold readUsers_events. rewrite Hfile.
      destruct Hbad as [Hmissing | (buf' & Hfile' & [Hraw' | Hparse])];
        [congruence| |].
      * assert (buf' = buf) as -> by congruence. contradiction.
      * assert (buf' = buf) as -> by congruence.
        unfold Js.or_else. apply String.eqb_neq in Hraw. now rewrite Hraw, Hparse.
  - intros req_body uid0 password0 Huid Hu Hpw Hp.
    exists (with_log (log w ++ readUsers_events w) w). split; [|reflexivity].
    apply (login_no_match w req_body uid0 password0 []); auto.
    now rewrite Hempty.
  - intros req_body raw Hauth Hnick Htrim.
    exists (with_log (log w ++ readUsers_events w) w).
    split; [|split; reflexivity].
    now apply (nickname_no_user w req_body raw).
Qed.

(** ** Upload layer *)

Lemma fileFilter_rejects (m : string) :
  Js.startsWith m "audio/" = true \/ Js.startsWith m "video/" = true ->
  fileFilter m = Throw (Thrown "Audio/video files are not supported.").
Proof.
  intros Hm. unfold fileFilter.
  destruct Hm as [-> | ->]; [reflexivity | now rewrite orb_true_r].
Qed.

(** A file the upload layer accepts is on the disk when the handler runs,
    with the declared name and type. *)
Lemma upload_single_stores (u : Upload) (w w1 : World) (file : File) :
  upload_single (Some u) w = (Ok (Some file), w1) ->
  disk w1 !! path file = Some (up_content u) /\
  originalname file = up_originalname u /\ mimetype file = up_mimetype u.
Proof.
  unfold upload_single. run.
  destruct (fileFilter (up_mimetype u)) as [[|]|e]; cbn; try discriminate.
  destruct (fileSize <=? N.of_nat (length (up_content u)))%N; cbn; [discriminate|].
  unfold writeFileSync. run. intros [= <- <-]. cbn.
  split; [apply lookup_insert_eq | now split].
Qed.

(** C10. A file whose declared MIME type starts with [audio/] or [video/]
    is refused by the upload layer: the request is answered 400 with
    ['Audio/video files are not supported.'], the handler and with it the
    extraction pipeline do not run, and nothing is read or written. *)
Theorem upload_rejects_audio_video (w : World) (botId : string) (req_body : value)
    (part : Upload) :
  Js.startsWith (up_mimetype part) "audio/" = true \/
  Js.startsWith (up_mimetype part) "video/" = true ->
  upload_single (Some part) w =
    (Throw (Thrown "Audio/video files are not supported."), w) /\
  route_api_bot botId req_body (Some part) w =
    (Ok (json 400 (error "Audio/video files are not supported.")), w) /\
  forall (r : Response) (w' : World),
    route_api_bot botId req_body (Some part) w = (Ok r, w') ->
    status r = 400 /\ log w' = log w /\ disk w' = disk w.
Proof.
  intros Hm.
  assert (Hup : upload_single (Some part) w =
                (Throw (Thrown "Audio/video files are not supported."), w)).
  { unfold upload_single. run. now rewrite (fileFilter_rejects _ Hm). }
  assert (Hroute : route_api_bot botId req_body (Some part) w =
                   (Ok (json 400 (error "Audio/video files are not supported.")), w)).
  { unfold route_api_bot. run. unfold upload_single in Hup. run in Hup.
    now rewrite (fileFilter_rejects _ Hm). }
  split; [exact Hup|]. split; [exact Hroute|].
  intros r w' Hr. rewrite Hroute in Hr. injection Hr as <- <-. now cbn.
Qed.

(** ** Bot configuration *)

Lemma post_api_bot_unconfigured (w : World) (botId : string) (req_body : value)
    (req_file : option File) :
  Val.truthy (uid (session w)) = true ->
  Val.truthy (getenv ("BOT_" +:+ toUpperCase botId +:+ "_MODEL")) = false \/
  Val.truthy (getenv ("BOT_" +:+ toUpperCase botId +:+ "_KEY")) = false ->
  post_api_bot botId req_body req_file w =
    (Ok (json 501 (error "Bot API not configured")), w).
Proof.
  intros Hauth Hmissing. unfold post_api_bot. run. rewrite Hauth. cbn.
  destruct Hmissing as [-> | ->]; [reflexivity | now rewrite orb_true_r].
Qed.

Lemma upload_single_keeps (part : option Upload) (w w1 : World)
    (o : outcome (option File)) :
  upload_single part w = (o, w1) ->
  session w1 = session w /\ network (log w1) = network (log w).
Proof.
  unfold upload_single. destruct part as [u|]; run.
  - destruct (fileFilter (up_mimetype u)) as [[|]|e]; cbn.
    + destruct (fileSize <=? N.of_nat (length (up_content u)))%N; cbn.
      * intros [= <- <-]. now split.
      * unfold writeFileSync. run. intros [= <- <-]. cbn.
        rewrite network_app. cbn. now rewrite app_nil_r.
    + intros [= <- <-]. now split.
    + intros [= <- <-]. now split.
  - intros [= <- <-]. now split.
Qed.

(** C3. An authenticated request to a bot whose model or whose key is not
    configured is answered 501 with an error body, and the world is left
    as it was: neither the generative API nor the object store is called.
    The same holds behind the upload layer: a request it lets through is
    answered 501, and no request makes a network call. *)
Theorem bot_not_configured (w : World) (botId : string) (req_body : value)
    (req_file : option File) :
  Val.truthy (uid (session w)) = true ->
  Val.truthy (getenv ("BOT_" +:+ toUpperCase botId +:+ "_MODEL")) = false \/
  Val.truthy (getenv ("BOT_" +:+ toUpperCase botId +:+ "_KEY")) = false ->
  post_api_bot botId req_body req_file w =
    (Ok (json 501 (VObj [("error", VStr "Bot API not configured")])), w) /\
  (forall (r : Response) (w' : World),
      post_api_bot botId req_body req_file w = (Ok r, w') ->
      status r = 501 /\ network (log w') = network (log w)) /\
  (forall (part : option Upload) (stored_file : option File) (w1 : World),
      upload_single part w = (Ok stored_file, w1) ->
      route_api_bot botId req_body part w =
        (Ok (json 501 (VObj [("error", VStr "Bot API not configured")])), w1)) /\
  (forall (part : option Upload) (o : outcome Response) (w' : World),
      route_api_bot botId req_body part w = (o, w') ->
      network (log w') = network (log w)).
Proof.
  intros Hauth Hmissing.
  pose proof (post_api_bot_unconfigured w botId req_body req_file Hauth Hmissing) as Hrun.
  split; [exact Hrun|]. split; [|split].
  - intros r w' Hr. rewrite Hrun in Hr. injection Hr as <- <-. now cbn.
  - intros part stored_file w1 Hup.
    destruct (upload_single_keeps _ _ _ _ Hup) as [Hsession _].
    unfold route_api_bot. run. rewrite Hup.
    rewrite post_api_bot_unconfigured; [reflexivity | now rewrite Hsession | exact Hmissing].
  - intros part o w' Hr. unfold route_api_bot in Hr. run in Hr.
    destruct (upload_single part w) as [[stored_file|e] w1] eqn:Hup.
    + destruct (upload_single_keeps _ _ _ _ Hup) as [Hsession Hnet].
      rewrite post_api_bot_unconfigured in Hr by (rewrite ?Hsession; assumption).
      injection Hr as <- <-. exact Hnet.
    + destruct (upload_single_keeps _ _ _ _ Hup) as [_ Hnet].
      injection Hr as <- <-. exact Hnet.
Qed.

(** ** Object upload adapter *)

Lemma r2Enabled_true :
  r2Enabled = true <->
  Val.truthy (getenv "R2_ENDPOINT") = true /\
  Val.truthy (getenv "R2_ACCESS_KEY_ID") = true /\
  Val.truthy (getenv "R2_SECRET_ACCESS_KEY") = true /\
  Val.truthy (getenv "R2_BUCKET") = true.
Proof. unfold r2Enabled. rewrite !andb_true_iff. tauto. Qed.

Lemma r2Client_disabled : r2Enabled = false -> r2Client = None.
Proof. unfold r2Client. now intros ->. Qed.

Lemma getenv_truthy (name : string) :
  Val.truthy (getenv name) = true ->
  exists s : string, process_env !! name = Some s /\ s <> "" /\ getenv name = VStr s.
Proof.
  unfold getenv. destruct (process_env !! name) as [s|]; cbn; [|discriminate].
  intros Hs. exists s. repeat split.
  intros ->. discriminate Hs.
Qed.

(** C8. [uploadToR2] returns [null] and performs no I/O unless the
    endpoint, the access key, the secret key and the bucket are all set.
    When the upload is performed and succeeds, it returns the public URL if
    a public base URL is set and [null] if not; a URL is returned only with
    a public base URL. *)
Theorem uploadToR2_contract (w : World) (file : File) :
  (Val.truthy (getenv "R2_ENDPOINT") = false \/
   Val.truthy (getenv "R2_ACCESS_KEY_ID") = false \/
   Val.truthy (getenv "R2_SECRET_ACCESS_KEY") = false \/
   Val.truthy (getenv "R2_BUCKET") = false ->
   uploadToR2 file w = (Ok VNull, w))
  /\
  (forall (bucket : string) (content : Buffer),
      r2Enabled = true ->
      getenv "R2_BUCKET" = VStr bucket ->
      disk w !! path file = Some content ->
      S3_send bucket (objectKey w file) content
        (mimeOf file "application/octet-stream") = Ok tt ->
      let w' := with_log (log w ++ [R2Put bucket (objectKey w file) (path file)
                                      (mimeOf file "application/octet-stream")]) w in
      (forall base : string,
          process_env !! "R2_PUBLIC_URL" = Some base -> base <> "" ->
          uploadToR2 file w = (Ok (VStr (publicUrl base (objectKey w file))), w')) /\
      (process_env !! "R2_PUBLIC_URL" = None \/ process_env !! "R2_PUBLIC_URL" = Some "" ->
       uploadToR2 file w = (Ok VNull, w')))
  /\
  (forall (v : value) (w' : World),
      uploadToR2 file w = (Ok v, w') -> v <> VNull ->
      r2Enabled = true /\
      exists base : string,
        process_env !! "R2_PUBLIC_URL" = Some base /\ base <> "" /\
        v = VStr (publicUrl base (objectKey w file))).
Proof.
  split; [|split].
  - intros Hmissing.
    assert (Hoff : r2Enabled = false).
    { destruct r2Enabled eqn:Hon; [|reflexivity].
      apply r2Enabled_true in Hon. destruct Hon as (H1 & H2 & H3 & H4).
      destruct Hmissing as [H|[H|[H|H]]]; congruence. }
    unfold uploadToR2. now rewrite (r2Client_disabled Hoff).
  - intros bucket content Hon Hbucket Hfile Hsend w'.
    assert (Hrun : forall v : value,
               (if Val.truthy (getenv "R2_PUBLIC_URL")
                then VStr (Js.dropTrailingSlash (toString (getenv "R2_PUBLIC_URL")) +:+ "/"
                           +:+ objectKey w file)
                else VNull) = v ->
               uploadToR2 file w = (Ok v, w')).
    { intros v <-. unfold uploadToR2, r2Client. rewrite Hon. run.
      rewrite Hbucket, Hfile. cbn. fold (objectKey w file).
      rewrite Hsend. cbn.
      now destruct (Val.truthy (getenv "R2_PUBLIC_URL")). }
    split.
    + intros base Hbase Hne. apply Hrun. unfold getenv. rewrite Hbase.
      now rewrite (truthy_str _ Hne).
    + intros Hnone. apply Hrun. unfold getenv.
      now destruct Hnone as [-> | ->].
  - intros v w' Hrun Hv. unfold uploadToR2, r2Client in Hrun.
    destruct r2Enabled eqn:Hon; [|injection Hrun as <- <-; contradiction].
    split; [reflexivity|]. run in Hrun.
    destruct (disk w !! path file) as [content|]; cbn in Hrun; [|discriminate Hrun].
    destruct (S3_send _ _ _ _) as [[]|]; cbn in Hrun; [|discriminate Hrun].
    destruct (Val.truthy (getenv "R2_PUBLIC_URL")) eqn:Hpub; cbn in Hrun;
      [|injection Hrun as <- <-; contradiction].
    injection Hrun as <- <-.
    apply getenv_truthy in Hpub. destruct Hpub as (base & Hbase & Hne & ->).
    exists base. now repeat split.
Qed.

(** ** Prompt assembly *)

Lemma prefix_append (b c : string) : String.prefix b (b +:+ c) = true.
Proof.
  induction b as [|x b IH]; cbn; [now destruct c|].
  rewrite append_cons. cbn.
  destruct (Ascii.ascii_dec x x); [exact IH | contradiction].
Qed.

Lemma includes_unfold (s p : string) :
  Js.includes s p =
    String.prefix p s ||
    match s with
    | EmptyString => false
    | String _ s' => Js.includes s' p
    end.
Proof. destruct s; reflexivity. Qed.

Lemma prefix_refl (b : string) : String.prefix b b = true.
Proof.
  induction b as [|x b IH]; cbn; [reflexivity|].
  destruct (Ascii.ascii_dec x x); [exact IH | contradiction].
Qed.

Lemma includes_suffix (a b : string) : Js.includes (a +:+ b) b = true.
Proof.
  induction a as [|x a IH].
  - change ("" +:+ b) with b. now rewrite includes_unfold, prefix_refl.
  - rewrite append_cons, includes_unfold, IH. apply orb_true_r.
Qed.

Lemma buildSystemPrompt_data (chartType : string) :
  chartType <> "" ->
  buildSystemPrompt "data" chartType =
    "You are a data analytics assistant. Provide dataset overview, descriptive stats, patterns, and insights. "
      +:+ chartSentence chartType.
Proof.
  intros Hc. unfold buildSystemPrompt, chartSentence. cbn.
  destruct (String.eqb_spec chartType ""); [contradiction | reflexivity].
Qed.

Lemma formField_str (req_body : value) (name s : string) :
  Val.field req_body name = VStr s -> formField req_body name = s.
Proof.
  intros Hf. unfold formField. rewrite Hf.
  destruct req_body; cbn in Hf; try discriminate Hf. cbn.
  destruct (String.eqb_spec s ""); [now subst | reflexivity].
Qed.

Lemma assembleParts_order (userText : string) (extracted : Extracted) :
  assembleParts userText extracted =
    match
      (if String.eqb userText "" then [] else [textPart userText]) ++
      (if String.eqb (text extracted) "" then []
       else [textPart (Js.LF +:+ Js.LF +:+ FILE_CONTENT_MARKER +:+ Js.LF
                         +:+ text extracted)]) ++
      (match inlineImage extracted with
       | Some image => [imagePart image]
       | None => []
       end)
    with
    | [] => [textPart "No input provided."]
    | parts => parts
    end.
Proof.
  unfold assembleParts, textPart, imagePart, FILE_CONTENT_MARKER.
  destruct (String.eqb userText ""), (String.eqb (text extracted) ""),
    (inlineImage extracted); reflexivity.
Qed.

(** What the handler does once the bot is found configured, the file (if
    any) is extracted and the upload (if any) is done: it calls
    [generateContent] with the system instruction of the bot and the
    assembled parts. *)
Lemma bot_request_calls (botId model key : string) (req_body : value)
    (req_file : option File) (w w1 w2 : World) (extracted : Extracted)
    (fileUrl : value) :
  extractFromFile req_file w = (Ok extracted, w1) ->
  match req_file with
  | Some file => uploadToR2 file
  | None => mret VNull
  end w1 = (Ok fileUrl, w2) ->
  exists (o : outcome Response) (w' : World) (rest : list Event),
    bot_request botId (VStr model) (VStr key) req_body req_file w = (o, w') /\
    log w' =
      log w2 ++
      Fetch (generateContentUrl model) key
        (JSON_stringify 0
           (generateContentRequest botId
              (buildSystemPrompt botId (formField req_body "chartType"))
              (assembleParts (formField req_body "text") extracted))) :: rest /\
    (req_file = None -> rest = []).
Proof.
  intros Hex Hup. unfold bot_request. run. rewrite Hex. cbn.
  unfold mret, M_ret in Hup. rewrite Hup. cbn.
  fold (generateContentUrl model).
  destruct (fetch _ _ _) as [response|e]; cbn;
    [|eexists _, _, []; repeat split; reflexivity].
  destruct (response_json response) as [reply|e]; cbn;
    [|eexists _, _, []; repeat split; reflexivity].
  destruct (resp_ok response); cbn;
    [|eexists _, _, []; repeat split; reflexivity].
  destruct (normalizeReply reply) as [out|e]; cbn;
    [|eexists _, _, []; repeat split; reflexivity].
  destruct req_file as [file|]; cbn.
  - unfold existsSync, unlink. run. world.
    destruct (disk w2 !! path file); world.
    + eexists _, _, [_; _]. repeat split; try discriminate; reflexivity.
    + eexists _, _, [_]. repeat split; try discriminate; reflexivity.
  - eexists _, _, []. repeat split; reflexivity.
Qed.

Lemma post_api_bot_calls (botId model key : string) (req_body : value)
    (req_file : option File) (w w1 w2 : World) (extracted : Extracted)
    (fileUrl : value) :
  Val.truthy (uid (session w)) = true ->
  getenv ("BOT_" +:+ toUpperCase botId +:+ "_MODEL") = VStr model -> model <> "" ->
  getenv ("BOT_" +:+ toUpperCase botId +:+ "_KEY") = VStr key -> key <> "" ->
  extractFromFile req_file w = (Ok extracted, w1) ->
  match req_file with
  | Some file => uploadToR2 file
  | None => mret VNull
  end w1 = (Ok fileUrl, w2) ->
  exists (r : Response) (w' : World) (rest : list Event),
    post_api_bot botId req_body req_file w = (Ok r, w') /\
    log w' =
      log w2 ++
      Fetch (generateContentUrl model) key
        (JSON_stringify 0
           (generateContentRequest botId
              (buildSystemPrompt botId (formField req_body "chartType"))
              (assembleParts (formField req_body "text") extracted))) :: rest /\
    (req_file = None -> rest = []).
Proof.
  intros Hauth Hmodel Hm Hkey Hk Hex Hup.
  destruct (bot_request_calls botId model key req_body req_file w w1 w2
              extracted fileUrl Hex Hup) as (o & w' & rest & Hrun & Hlog & Hrest).
  unfold post_api_bot. run. rewrite Hauth, Hmodel, Hkey. cbn.
  apply String.eqb_neq in Hm, Hk. rewrite Hm, Hk. cbn.
  unfold bot_request in Hrun. run in Hrun.
  unfold bot_request. run. rewrite Hrun.
  destruct o as [r|e]; [exists r, w', rest | eexists _, w', rest]; now repeat split.
Qed.

(** C7. The parts of the user message are, in this order, the user text
    when it is not empty, the extracted file text when it is not empty,
    behind the [[File Content]] marker, and the inline image when there is
    one; when all three are absent the single part ['No input provided.']
    is sent. For a configured bot and a request whose fields [text] and
    [chartType] hold no object, so that [String] converts them, the handler
    calls the generative API with the system instruction of the bot and
    these parts. For the bot [data] with
    a non-empty chart type and no file, the system instruction contains
    ['Include output for a <chartType> chart.'] and the parts are the user
    text alone, or the placeholder alone: no part is made of file
    content. *)
Theorem bot_message_assembly :
  (forall (userText : string) (extracted : Extracted),
      assembleParts userText extracted =
        match
          (if String.eqb userText "" then [] else [textPart userText]) ++
          (if String.eqb (text extracted) "" then []
           else [textPart (Js.LF +:+ Js.LF +:+ FILE_CONTENT_MARKER +:+ Js.LF
                             +:+ text extracted)]) ++
          (match inlineImage extracted with
           | Some image => [imagePart image]
           | None => []
           end)
        with
        | [] => [textPart "No input provided."]
        | parts => parts
        end)
  /\
  (forall (botId model key : string) (req_body : value) (req_file : option File)
          (w w1 w2 : World) (extracted : Extracted) (fileUrl : value),
      Val.truthy (uid (session w)) = true ->
      getenv ("BOT_" +:+ toUpperCase botId +:+ "_MODEL") = VStr model -> model <> "" ->
      getenv ("BOT_" +:+ toUpperCase botId +:+ "_KEY") = VStr key -> key <> "" ->
      Val.plain (Val.field req_body "text") = true ->
      Val.plain (Val.field req_body "chartType") = true ->
      extractFromFile req_file w = (Ok extracted, w1) ->
      match req_file with
      | Some file => uploadToR2 file
      | None => mret VNull
      end w1 = (Ok fileUrl, w2) ->
      exists (r : Response) (w' : World) (rest : list Event),
        post_api_bot botId req_body req_file w = (Ok r, w') /\
        log w' =
          log w2 ++
          Fetch (generateContentUrl model) key
            (JSON_stringify 0
               (generateContentRequest botId
                  (buildSystemPrompt botId (formField req_body "chartType"))
                  (assembleParts (formField req_body "text") extracted))) :: rest)
  /\
  (forall (w : World) (req_body : value) (chartType model key : string),
      Val.truthy (uid (session w)) = true ->
      getenv ("BOT_" +:+ toUpperCase "data" +:+ "_MODEL") = VStr model -> model <> "" ->
      getenv ("BOT_" +:+ toUpperCase "data" +:+ "_KEY") = VStr key -> key <> "" ->
      Val.field req_body "chartType" = VStr chartType -> chartType <> "" ->
      Val.plain (Val.field req_body "text") = true ->
      let userText := formField req_body "text" in
      let systemPrompt := buildSystemPrompt "data" chartType in
      let parts := if String.eqb userText ""
                   then [textPart "No input provided."]
                   else [textPart userText] in
      Js.includes systemPrompt ("Include output for a " +:+ chartType +:+ " chart.") = true /\
      (Js.includes userText FILE_CONTENT_MARKER = false ->
       Forall (fun p => forall t : string,
                   Val.field p "text" = VStr t ->
                   Js.includes t FILE_CONTENT_MARKER = false) parts) /\
      exists (r : Response) (w' : World),
        post_api_bot "data" req_body None w = (Ok r, w') /\
        log w' =
          log w ++
          [Fetch (generateContentUrl model) key
             (JSON_stringify 0 (generateContentRequest "data" systemPrompt parts))]).
Proof.
  split; [exact assembleParts_order|]. split.
  - intros botId model key req_body req_file w w1 w2 extracted fileUrl
      Hauth Hmodel Hm Hkey Hk _ _ Hex Hup.
    destruct (post_api_bot_calls botId model key req_body req_file w w1 w2
                extracted fileUrl Hauth Hmodel Hm Hkey Hk Hex Hup)
      as (r & w' & rest & Hrun & Hlog & _).
    now exists r, w', rest.
  - intros w req_body chartType model key Hauth Hmodel Hm Hkey Hk Hchart Hc _
      userText systemPrompt parts.
    split; [|split].
    + unfold systemPrompt. rewrite (buildSystemPrompt_data _ Hc).
      apply includes_suffix.
    + intros Huser. unfold parts.
      destruct (String.eqb userText ""); constructor; try constructor;
        intros t [= <-]; [reflexivity | exact Huser].
    + destruct (post_api_bot_calls "data" model key req_body None w w w
                  {| text := ""; inlineImage := None |} VNull
                  Hauth Hmodel Hm Hkey Hk eq_refl eq_refl)
        as (r & w' & rest & Hrun & Hlog & Hrest).
      exists r, w'. split; [exact Hrun|].
      rewrite Hlog, (Hrest eq_refl), (formField_str _ _ _ Hchart).
      rewrite assembleParts_order. cbn.
      fold userText. unfold parts. now destruct (String.eqb userText "").
Qed.

(** ** File extraction pipeline *)

Lemma or_else_empty (t : string) : Js.or_else t "" = t.
Proof. unfold Js.or_else. now destruct (String.eqb_spec t "") as [->|]. Qed.

Lemma truncateText_empty : truncateText "" = "".
Proof. reflexivity. Qed.

Lemma find_first {A : Type} (p : A -> bool) (l : list A) (i : nat) (x : A) :
  l !! i = Some x -> p x = true ->
  (forall (j : nat) (y : A), j < i -> l !! j = Some y -> p y = false) ->
  find p l = Some x.
Proof.
  revert i. induction l as [|a l IH]; intros i Hi Hx Hbefore; [discriminate Hi|].
  cbn. destruct i as [|i].
  - injection Hi as ->. now rewrite Hx.
  - rewrite (Hbefore 0 a (Nat.lt_0_succ i) eq_refl).
    apply (IH i Hi Hx). intros j y Hj Hy. apply (Hbefore (S j) y); [lia | exact Hy].
Qed.

Lemma find_nowhere {A : Type} (p : A -> bool) (l : list A) :
  Forall (fun y => p y = false) l -> find p l = None.
Proof.
  induction 1 as [|a l Ha _ IH]; [reflexivity|]. cbn. now rewrite Ha.
Qed.

Lemma firstSheet_first (wb : Workbook sheet) (i : nat) (sh : sheet) :
  let name := default "undefined" (head (SheetNames wb)) in
  Sheets wb !! i = Some (name, sh) ->
  (forall (j : nat) (entry : string * sheet),
      j < i -> Sheets wb !! j = Some entry -> fst entry <> name) ->
  firstSheet wb = Some sh.
Proof.
  intros name Hi Hbefore. unfold firstSheet. fold name.
  rewrite (find_first _ _ i (name, sh) Hi); [reflexivity | apply String.eqb_refl |].
  intros j entry Hj Hentry. apply String.eqb_neq. now apply (Hbefore j).
Qed.

Lemma firstSheet_absent (wb : Workbook sheet) :
  Forall (fun entry => fst entry <> default "undefined" (head (SheetNames wb)))
    (Sheets wb) ->
  firstSheet wb = None.
Proof.
  intros Habsent. unfold firstSheet.
  rewrite find_nowhere; [reflexivity|].
  eapply Forall_impl; [exact Habsent|]. intros entry Hne. now apply String.eqb_neq.
Qed.

(** C2. For an uploaded file, [extractFromFile] reads it and dispatches in
    this order: a MIME type that starts with [image/] gives the bytes in
    base64 as the inline image and no text; otherwise the extension [.pdf]
    gives the text of the PDF extractor, [.docx] the raw text of the
    document, [.csv] the preview of at most the first 30 parsed records,
    [.xlsx] the sheet of the workbook that bears the first of its sheet
    names, as CSV, or what the converter makes of [undefined] when the
    workbook has no sheet name, and any other file its bytes decoded as
    UTF-8. An extractor that throws makes the extraction throw. Outside
    the image branch the inline image is [null] and the text went through
    [truncateText]. *)
Theorem extractFromFile_dispatch (w : World) (file : File) (buffer : Buffer) :
  disk w !! path file = Some buffer ->
  let ext := toLowerCase (path_extname (Js.or_else (originalname file) "")) in
  let mimeType := mimeOf file "" in
  let w' := with_log (log w ++ [FsRead (path file)]) w in
  let plain := fun t : string => {| text := truncateText t; inlineImage := None |} in
  (Js.startsWith mimeType "image/" = true ->
   extractFromFile (Some file) w =
     (Ok {| text := "";
            inlineImage := Some {| mimeType := mimeType; data := base64 buffer |} |},
      w'))
  /\
  (Js.startsWith mimeType "image/" = false ->
   (ext = ".pdf" ->
    extractFromFile (Some file) w = (t ← pdfParse buffer; Ok (plain t), w')) /\
   (ext = ".docx" ->
    extractFromFile (Some file) w =
      (t ← mammoth_extractRawText buffer; Ok (plain t), w')) /\
   (ext = ".csv" ->
    extractFromFile (Some file) w =
      (records ← csv_parse buffer;
       Ok (plain ("CSV preview (first rows):" +:+ Js.LF
                    +:+ JSON_stringify 2 (VArr (take 30 records)))), w')) /\
   (ext = ".xlsx" ->
    (forall e : exn,
        xlsx_read buffer = Throw e -> extractFromFile (Some file) w = (Throw e, w')) /\
    (forall (wb : Workbook sheet) (name : string) (rest : list string)
            (i : nat) (sh : sheet),
        xlsx_read buffer = Ok wb -> SheetNames wb = name :: rest ->
        Sheets wb !! i = Some (name, sh) ->
        (forall (j : nat) (entry : string * sheet),
            j < i -> Sheets wb !! j = Some entry -> fst entry <> name) ->
        extractFromFile (Some file) w =
          (csv ← xlsx_sheet_to_csv (Some sh);
           Ok (plain ("XLSX preview (CSV):" +:+ Js.LF +:+ csv)), w')) /\
    (forall wb : Workbook sheet,
        xlsx_read buffer = Ok wb -> SheetNames wb = [] ->
        Forall (fun entry => fst entry <> "undefined") (Sheets wb) ->
        extractFromFile (Some file) w =
          (csv ← xlsx_sheet_to_csv None;
           Ok (plain ("XLSX preview (CSV):" +:+ Js.LF +:+ csv)), w'))) /\
   (ext <> ".pdf" -> ext <> ".docx" -> ext <> ".csv" -> ext <> ".xlsx" ->
    extractFromFile (Some file) w = (Ok (plain (utf8_decode buffer)), w')) /\
   (forall (r : Extracted) (w'' : World),
       extractFromFile (Some file) w = (Ok r, w'') ->
       inlineImage r = None /\ exists raw : string, text r = truncateText raw))
  /\
  (forall records : list value,
      length (take 30 records) <= 30 /\
      take 30 records ++ drop 30 records = records).
Proof.
  intros Hfile ext0 mimeType0 w' plain.
  assert (Hrun : extractFromFile (Some file) w =
    (if Js.startsWith mimeType0 "image/" then
       Ok {| text := "";
             inlineImage := Some {| mimeType := mimeType0; data := base64 buffer |} |}
     else if String.eqb ext0 ".pdf" then t ← pdfParse buffer; Ok (plain t)
     else if String.eqb ext0 ".docx" then t ← mammoth_extractRawText buffer; Ok (plain t)
     else if String.eqb ext0 ".csv" then
       records ← csv_parse buffer;
       Ok (plain ("CSV preview (first rows):" +:+ Js.LF
                    +:+ JSON_stringify 2 (VArr (take 30 records))))
     else if String.eqb ext0 ".xlsx" then
       wb ← xlsx_read buffer;
       csv ← xlsx_sheet_to_csv (firstSheet wb);
       Ok (plain ("XLSX preview (CSV):" +:+ Js.LF +:+ csv))
     else Ok (plain (utf8_decode buffer)), w')).
  { unfold extractFromFile, readFileSync. run. rewrite Hfile. cbn.
    fold ext0. fold mimeType0. fold w'.
    destruct (Js.startsWith mimeType0 "image/"); [reflexivity|].
    destruct (String.eqb ext0 ".pdf").
    { destruct (pdfParse buffer); cbn; [|reflexivity].
      now rewrite or_else_empty. }
    destruct (String.eqb ext0 ".docx").
    { destruct (mammoth_extractRawText buffer); cbn; [|reflexivity].
      now rewrite or_else_empty. }
    destruct (String.eqb ext0 ".csv").
    { now destruct (csv_parse buffer). }
    destruct (String.eqb ext0 ".xlsx").
    { destruct (xlsx_read buffer) as [wb|]; cbn; [|reflexivity].
      now destruct (xlsx_sheet_to_csv (firstSheet wb)). }
    reflexivity. }
  split; [|split].
  - intros Himg. now rewrite Hrun, Himg.
  - intros Himg. rewrite Hrun, Himg.
    split; [now intros ->|]. split; [now intros ->|].
    split; [now intros ->|]. split; [|split].
    + intros ->. cbn. split; [now intros e ->|].
      split.
      * intros wb name rest i sh -> Hnames Hi Hbefore. cbn.
        rewrite (firstSheet_first wb i sh); [reflexivity | now rewrite Hnames |].
        now rewrite Hnames.
      * intros wb -> Hnames Habsent. cbn.
        rewrite (firstSheet_absent wb); [reflexivity | now rewrite Hnames].
    + intros H1 H2 H3 H4.
      apply String.eqb_neq in H1, H2, H3, H4. now rewrite H1, H2, H3, H4.
    + intros r w'' Hr.
      assert (Hplain : exists raw : string, r = plain raw).
      { destruct (String.eqb ext0 ".pdf");
          [destruct (pdfParse buffer); cbn in Hr; inversion Hr; now eexists|].
        destruct (String.eqb ext0 ".docx");
          [destruct (mammoth_extractRawText buffer); cbn in Hr; inversion Hr;
           now eexists|].
        destruct (String.eqb ext0 ".csv");
          [destruct (csv_parse buffer); cbn in Hr; inversion Hr; now eexists|].
        destruct (String.eqb ext0 ".xlsx").
        { destruct (xlsx_read buffer) as [wb|]; cbn in Hr; [|now inversion Hr].
          destruct (xlsx_sheet_to_csv (firstSheet wb)); cbn in Hr; inversion Hr;
            now eexists. }
        inversion Hr. now eexists. }
      destruct Hplain as (raw & ->). split; [reflexivity | now exists raw].
  - intros records. split.
    + rewrite length_take. lia.
    + apply take_drop.
Qed.

End Properties.

(** * Further properties *)

Section MoreProperties.

Context {ext : Externals}.

(** ** Pages *)

Lemma removeFirstSlash_nickname : removeFirstSlash "/nickname.html" = "nickname.html".
Proof. reflexivity. Qed.

Lemma get_html_root (s : Session) (req_path root file : string) :
  get_html s req_path = SendFile root file -> root = publicDir.
Proof.
  unfold get_html, requireAuth.
  repeat match goal with
         | |- context [if ?b then _ else _] => destruct b; cbn
         end; try discriminate; now intros [= <- <-].
Qed.

(** X1. [GET /*.html] gives [sendFile] the join of [public] and the
    request path without its first slash, which it passes on as it is: it
    looks for no dot-dot segment, so the join may name a file outside
    [public]. It sends [login.html] to everyone, [nickname.html] to the
    sessions that hold a uid and no nickname, and any other path to the
    sessions that hold both, and to no other session. *)
Theorem pages_need_session (s : Session) (req_path root file : string) :
  (get_html s req_path = SendFile root file ->
   root = publicDir /\
   file = removeFirstSlash req_path /\
   (file = "login.html" \/
    (file = "nickname.html" /\
     Val.truthy (uid s) = true /\ Val.truthy (nickname s) = false) \/
    (file <> "login.html" /\ file <> "nickname.html" /\
     Val.truthy (uid s) = true /\ Val.truthy (nickname s) = true))) /\
  (removeFirstSlash req_path = "login.html" \/
   (removeFirstSlash req_path = "nickname.html" /\
    Val.truthy (uid s) = true /\ Val.truthy (nickname s) = false) \/
   (removeFirstSlash req_path <> "login.html" /\
    removeFirstSlash req_path <> "nickname.html" /\
    Val.truthy (uid s) = true /\ Val.truthy (nickname s) = true) ->
   get_html s req_path = SendFile publicDir (removeFirstSlash req_path)).
Proof.
  split.
  - unfold get_html, requireAuth.
    destruct (String.eqb_spec (removeFirstSlash req_path) "login.html") as [Hl|Hl].
    { intros [= <- <-]. now repeat split; [symmetry | left]. }
    destruct (String.eqb_spec (removeFirstSlash req_path) "nickname.html") as [Hn|Hn].
    { destruct (Val.truthy (uid s)); cbn; [|discriminate].
      destruct (Val.truthy (nickname s)); cbn; [discriminate|].
      intros [= <- <-]. repeat split; [now symmetry|]. right. left. now repeat split. }
    destruct (Val.truthy (uid s)); cbn; [|discriminate].
    destruct (Val.truthy (nickname s)); cbn.
    + intros [= <- <-]. repeat split. right. right. now repeat split.
    + destruct (String.eqb_spec req_path "/nickname.html") as [->|Hp]; cbn;
        [|discriminate].
      now contradiction Hn.
  - unfold get_html, requireAuth.
    intros [Hl | [(Hn & Hu & Hnick) | (Hl & Hn & Hu & Hnick)]].
    + now rewrite Hl.
    + rewrite Hn, Hu, Hnick. reflexivity.
    + apply String.eqb_neq in Hl, Hn. now rewrite Hl, Hn, Hu, Hnick.
Qed.

(** X2. A redirect of [GET /*.html] goes to [/login.html],
    [/nickname.html] or [/index.html], a redirect of [GET /] to
    [/login.html] or [/nickname.html], and the page it names is sent to the
    same session without a further redirect: a browser that follows one
    redirect always ends on a file. [GET /] sends [index.html] or
    redirects to a page that is sent. *)
Theorem redirects_land (s : Session) (req_path : string) :
  (forall location : string,
      get_html s req_path = Redirect location ->
      (location = "/login.html" \/ location = "/nickname.html" \/
       location = "/index.html") /\
      get_html s location = SendFile publicDir (removeFirstSlash location)) /\
  (forall location : string,
      get_root s = Redirect location ->
      (location = "/login.html" \/ location = "/nickname.html") /\
      get_html s location = SendFile publicDir (removeFirstSlash location)) /\
  (exists file : string, follow 1 s req_path = SendFile publicDir file) /\
  (get_root s = SendFile publicDir "index.html" \/
   get_html s "/login.html" = SendFile publicDir "login.html" /\
   get_root s = Redirect "/login.html" \/
   get_html s "/nickname.html" = SendFile publicDir "nickname.html" /\
   get_root s = Redirect "/nickname.html").
Proof.
  assert (Hhtml : forall location : string,
             get_html s req_path = Redirect location ->
             (location = "/login.html" \/ location = "/nickname.html" \/
              location = "/index.html") /\
             get_html s location = SendFile publicDir (removeFirstSlash location)).
  { intros location. unfold get_html at 1. unfold requireAuth.
    destruct (String.eqb (removeFirstSlash req_path) "login.html"); [discriminate|].
    destruct (String.eqb (removeFirstSlash req_path) "nickname.html").
    - destruct (Val.truthy (uid s)) eqn:Hu; cbn.
      + destruct (Val.truthy (nickname s)) eqn:Hn; cbn; [|discriminate].
        intros [= <-]. split; [now right; right|].
        unfold get_html, requireAuth. cbn. now rewrite Hu, Hn.
      + intros [= <-]. split; [now left | reflexivity].
    - destruct (Val.truthy (uid s)) eqn:Hu; cbn.
      + destruct (Val.truthy (nickname s)) eqn:Hn; cbn; [discriminate|].
        destruct (String.eqb req_path "/nickname.html"); cbn; [discriminate|].
        intros [= <-]. split; [now right; left|].
        unfold get_html. cbn. now rewrite Hu, Hn.
      + intros [= <-]. split; [now left | reflexivity]. }
  split; [exact Hhtml|]. split; [|split].
  - intros location. unfold get_root.
    destruct (Val.truthy (uid s)) eqn:Hu; cbn.
    + destruct (Val.truthy (nickname s)) eqn:Hn; cbn; [discriminate|].
      intros [= <-]. split; [now right|]. unfold get_html. cbn. now rewrite Hu, Hn.
    + intros [= <-]. split; [now left | reflexivity].
  - cbn. destruct (get_html s req_path) as [location|root file] eqn:Hreply.
    + destruct (Hhtml location eq_refl) as [_ ->]. now eexists.
    + rewrite (get_html_root _ _ _ _ Hreply). now eexists.
  - unfold get_root, get_html. cbn.
    destruct (Val.truthy (uid s)); cbn; [|now right; left].
    destruct (Val.truthy (nickname s)); cbn; [now left | now right; right].
Qed.

(** ** Login and logout *)

Lemma find_from_found (p : value -> outcome bool) (l : list value) :
  forall (k i : nat) (x : value),
    find_from p k l = Ok (Some (i, x)) ->
    exists n : nat,
      i = k + n /\ l !! n = Some x /\ p x = Ok true /\
      forall (j : nat) (y : value), j < n -> l !! j = Some y -> p y = Ok false.
Proof.
  induction l as [|a l IH]; intros k i x Hfind; cbn in Hfind; [discriminate|].
  destruct (p a) as [[|]|e] eqn:Ha; cbn in Hfind; try discriminate.
  - injection Hfind as <- <-. exists 0.
    split; [lia|]. split; [reflexivity|]. split; [exact Ha|].
    intros j y Hj. lia.
  - destruct (IH (S k) i x Hfind) as (n & -> & Hn & Hx & Hbefore).
    exists (S n).
    split; [lia|]. split; [exact Hn|]. split; [exact Hx|].
    intros [|j] y Hj Hy; cbn in Hy.
    + now injection Hy as <-.
    + apply (Hbefore j y); [lia | exact Hy].
Qed.

(** X3. A login whose uid or password is missing or empty is answered 400
    with ['UID and password required'] before the store is read: the world
    is left as it was. *)
Theorem login_requires_fields (w : World) (req_body : value) :
  nullish req_body = false ->
  Val.truthy (Val.field req_body "uid") = false \/
  Val.truthy (Val.field req_body "password") = false ->
  post_api_login req_body w =
    (Ok (json 400 (VObj [("error", VStr "UID and password required")])), w) /\
  route_api_login req_body w =
    (Ok (json 400 (VObj [("error", VStr "UID and password required")])), w).
Proof.
  intros Hbody Hmissing.
  assert (Hrun : post_api_login req_body w =
                 (Ok (json 400 (error "UID and password required")), w)).
  { unfold post_api_login. run. rewrite !(get_prop_not_nullish _ _ Hbody). cbn.
    destruct Hmissing as [-> | ->]; [reflexivity | now rewrite orb_true_r]. }
  split; [exact Hrun|]. unfold route_api_login. run. now rewrite Hrun.
Qed.

Lemma login_ok_inv (w w1 : World) (req_body : value) (r : Response) :
  post_api_login req_body w = (Ok r, w1) ->
  status r = 200 ->
  exists (users : list value) (n : nat) (user : value),
    Val.truthy (Val.field req_body "uid") = true /\
    Val.truthy (Val.field req_body "password") = true /\
    Val.field (stored w) "users" = VArr users /\
    users !! n = Some user /\
    credentialsMatch (Val.field req_body "uid") (Val.field req_body "password") user
      = Ok true /\
    (forall (j : nat) (y : value), j < n -> users !! j = Some y ->
       credentialsMatch (Val.field req_body "uid") (Val.field req_body "password") y
         = Ok false) /\
    r = json 200 (VObj [("ok", VBool true);
                        ("needsNickname",
                         VBool (negb (Val.truthy (Val.field user "nickname"))))]) /\
    w1 = with_session {| uid := Val.field user "uid";
                         nickname := Val.or (Val.field user "nickname") (VStr "") |}
           (with_log (log w ++ readUsers_events w) w).
Proof.
  intros Hrun Hok. unfold post_api_login in Hrun. run in Hrun.
  destruct (get_prop req_body "uid") as [body_uid|] eqn:Huid; cbn in Hrun;
    [|discriminate Hrun].
  destruct (get_prop req_body "password") as [body_password|] eqn:Hpw; cbn in Hrun;
    [|discriminate Hrun].
  assert (Hu : body_uid = Val.field req_body "uid")
    by (destruct req_body; cbn in Huid; try discriminate Huid; now injection Huid).
  assert (Hp : body_password = Val.field req_body "password")
    by (destruct req_body; cbn in Hpw; try discriminate Hpw; now injection Hpw).
  subst body_uid body_password.
  destruct (Val.truthy (Val.field req_body "uid")) eqn:Htu; cbn in Hrun;
    [|injection Hrun as <- <-; discriminate Hok].
  destruct (Val.truthy (Val.field req_body "password")) eqn:Htp; cbn in Hrun;
    [|injection Hrun as <- <-; discriminate Hok].
  rewrite readUsers_run in Hrun. cbn in Hrun.
  destruct (get_prop (stored w) "users") as [us|] eqn:Hus; cbn in Hrun;
    [|discriminate Hrun].
  destruct us as [| | | | |users|]; cbn in Hrun; try discriminate Hrun.
  destruct (find_from _ 0 users) as [[[i user]|]|] eqn:Hfind; cbn in Hrun;
    try discriminate Hrun; [|injection Hrun as <- <-; discriminate Hok].
  destruct (Val.truthy user); cbn in Hrun;
    [|injection Hrun as <- <-; discriminate Hok].
  injection Hrun as <- <-.
  destruct (find_from_found _ _ _ _ _ Hfind) as (n & _ & Hn & Hmatch & Hbefore).
  exists users, n, user. repeat split; auto.
  destruct (stored w); cbn in Hus; try discriminate Hus; now injection Hus.
Qed.

Lemma credentialsMatch_true_str (u p : string) (user : value) :
  credentialsMatch (VStr u) (VStr p) user = Ok true ->
  Val.field user "uid" = VStr u /\ Val.field user "password" = VStr p.
Proof.
  unfold credentialsMatch.
  destruct (get_prop user "uid") as [x|] eqn:Hx; cbn; [|discriminate].
  destruct (Val.strict_eq x (VStr u)) eqn:E1; [|discriminate].
  destruct (get_prop user "password") as [y|] eqn:Hy; cbn; [|discriminate].
  intros [= E2]. apply strict_eq_str in E1, E2. subst.
  destruct user; cbn in Hx, Hy; try discriminate Hx;
    injection Hx as Hx; injection Hy as Hy; cbn; now split.
Qed.

(** X4. After a login that is answered 200 for a string uid and a string
    password, the session holds that uid, the session endpoint reports
    [authenticated] with it, [needsNickname] is true exactly when the
    session endpoint reports no nickname, and [/] then leads to the nickname
    page or to the index accordingly. The store is not changed. *)
Theorem login_opens_session (w w1 : World) (req_body : value) (r : Response)
    (u p : string) :
  Val.field req_body "uid" = VStr u ->
  Val.field req_body "password" = VStr p ->
  post_api_login req_body w = (Ok r, w1) ->
  status r = 200 ->
  exists needsNickname : bool,
    r = json 200 (VObj [("ok", VBool true); ("needsNickname", VBool needsNickname)]) /\
    uid (session w1) = VStr u /\ u <> "" /\
    get_api_session w1 =
      (Ok (json 200 (VObj [("authenticated", VBool true);
                           ("uid", VStr u);
                           ("nickname",
                            if needsNickname then VNull else nickname (session w1))])),
       w1) /\
    Val.truthy (nickname (session w1)) = negb needsNickname /\
    get_root (session w1) =
      (if needsNickname then Redirect "/nickname.html"
       else SendFile publicDir "index.html") /\
    disk w1 = disk w.
Proof.
  intros Hu Hp Hrun Hok.
  destruct (login_ok_inv _ _ _ _ Hrun Hok)
    as (users & n & user & Htu & _ & _ & _ & Hmatch & _ & -> & ->).
  rewrite Hu, Hp in Hmatch.
  destruct (credentialsMatch_true_str _ _ _ Hmatch) as [Huid _].
  assert (Hne : u <> "").
  { rewrite Hu in Htu. cbn in Htu. intros ->. discriminate Htu. }
  exists (negb (Val.truthy (Val.field user "nickname"))).
  cbn. rewrite Huid. split; [reflexivity|]. split; [reflexivity|].
  split; [exact Hne|].
  unfold get_api_session, get_root, Val.or. run.
  apply String.eqb_neq in Hne. rewrite ?Hne. cbn.
  destruct (Val.truthy (Val.field user "nickname")) eqn:Hn; cbn; rewrite ?Hn;
    cbn; rewrite ?Hn; repeat split.
Qed.

(** X5. After a logout the session endpoint reports no user, a nickname
    update and a bot request are answered 401, and every page request ends
    on the login page. *)
Theorem logout_closes_session (w : World) :
  exists w1 : World,
    post_api_logout w = (Ok (json 200 (VObj [("ok", VBool true)])), w1) /\
    disk w1 = disk w /\
    get_api_session w1 =
      (Ok (json 200 (VObj [("authenticated", VBool false);
                           ("uid", VNull); ("nickname", VNull)])), w1) /\
    (forall req_body : value,
        post_api_nickname req_body w1 =
          (Ok (json 401 (VObj [("error", VStr "Not authenticated")])), w1)) /\
    (forall (botId : string) (req_body : value) (req_file : option File),
        post_api_bot botId req_body req_file w1 =
          (Ok (json 401 (VObj [("error", VStr "Not authenticated")])), w1)) /\
    (forall req_path : string,
        follow 1 (session w1) req_path = SendFile publicDir "login.html").
Proof.
  exists (with_session newSession w).
  repeat split.
  intros req_path. cbn. unfold get_html, requireAuth. cbn.
  destruct (String.eqb (removeFirstSlash req_path) "login.html"); [reflexivity|].
  destruct (String.eqb (removeFirstSlash req_path) "nickname.html"); reflexivity.
Qed.

(** ** Nickname *)

(** X6. For an authenticated session, a nickname that is missing, empty or
    made of white space only is answered 400 with ['Nickname required'],
    and a nickname that is not a string (a number, [true], an array, an
    object) makes the handler throw, which the route answers 400 with the
    message of the error. In both cases the world is left as it was: the
    store is not read. *)
Theorem nickname_is_validated (w : World) (req_body : value) :
  Val.truthy (uid (session w)) = true ->
  nullish req_body = false ->
  (Val.truthy (Val.field req_body "nickname") = false \/
   (exists raw : string,
       Val.field req_body "nickname" = VStr raw /\ Js.trim raw = "") ->
   post_api_nickname req_body w =
     (Ok (json 400 (VObj [("error", VStr "Nickname required")])), w))
  /\
  (Val.truthy (Val.field req_body "nickname") = true ->
   Val.is_string (Val.field req_body "nickname") = false ->
   post_api_nickname req_body w = (Throw TypeError, w) /\
   route_api_nickname req_body w =
     (Ok (json 400 (VObj [("error", VStr (Js.or_else typeErrorMessage "Upload failed"))])),
      w)).
Proof.
  intros Hauth Hbody. split.
  - intros Hblank. unfold post_api_nickname. run. rewrite Hauth. cbn.
    rewrite (get_prop_not_nullish _ _ Hbody). cbn. unfold Val.or.
    destruct Hblank as [Hfalsy | (raw & Hraw & Htrim)].
    + now rewrite Hfalsy.
    + rewrite Hraw.
      destruct (Val.truthy (VStr raw)); cbn; [now rewrite Htrim | reflexivity].
  - intros Htruthy Hnostring.
    assert (Hrun : post_api_nickname req_body w = (Throw TypeError, w)).
    { unfold post_api_nickname. run. rewrite Hauth. cbn.
      rewrite (get_prop_not_nullish _ _ Hbody). cbn. unfold Val.or.
      rewrite Htruthy.
      destruct (Val.field req_body "nickname"); cbn in *; try discriminate;
        reflexivity. }
    split; [exact Hrun|]. unfold route_api_nickname. run. now rewrite Hrun.
Qed.

(** X7. For an authenticated session whose uid is the uid of no record of
    the store, a nickname update is answered 404 with ['User not found']:
    the store is read, nothing is written and the session is left as it
    was. *)
Theorem nickname_unknown_user (w : World) (req_body : value) (raw : string)
    (users : list value) :
  Val.truthy (uid (session w)) = true ->
  Val.field req_body "nickname" = VStr raw -> Js.trim raw <> "" ->
  Val.field (stored w) "users" = VArr users ->
  Forall (fun u => nullish u = false /\
                   Val.strict_eq (Val.field u "uid") (uid (session w)) = false) users ->
  post_api_nickname req_body w =
    (Ok (json 404 (VObj [("error", VStr "User not found")])),
     with_log (log w ++ readUsers_events w) w).
Proof.
  intros Hauth Hnick Htrim Husers Hnone. unfold post_api_nickname. run.
  rewrite Hauth. cbn.
  rewrite (field_some_get_prop _ _ _ Hnick) by discriminate. cbn.
  assert (Hraw : raw <> "") by (intros ->; now apply Htrim).
  unfold Val.or. rewrite (truthy_str _ Hraw). cbn.
  destruct (String.eqb_spec (Js.trim raw) ""); [contradiction|]. cbn.
  rewrite readUsers_run.
  rewrite (field_some_get_prop _ _ _ Husers) by discriminate. cbn.
  rewrite find_from_none; [reflexivity|].
  rewrite Forall_forall in *. intros u Hin. destruct (Hnone u Hin) as [Hu Hne].
  unfold uidMatch. rewrite (get_prop_not_nullish _ _ Hu). cbn. now rewrite Hne.
Qed.

Lemma assoc_assign_eq (k : string) (x : value) (fields : list (string * value)) :
  Val.assoc k (Val.assign k x fields) = x.
Proof.
  induction fields as [|[k' v] fields IH]; cbn.
  - now rewrite String.eqb_refl.
  - destruct (String.eqb k' k) eqn:E; cbn; rewrite E; [reflexivity | exact IH].
Qed.

Lemma assoc_assign_ne (k k0 : string) (x : value) (fields : list (string * value)) :
  k0 <> k -> Val.assoc k0 (Val.assign k x fields) = Val.assoc k0 fields.
Proof.
  intros Hne. induction fields as [|[k' v] fields IH]; cbn.
  - destruct (String.eqb_spec k k0); [now subst | reflexivity].
  - destruct (String.eqb_spec k' k) as [->|Hk]; cbn.
    + destruct (String.eqb_spec k k0); [now subst | reflexivity].
    + destruct (String.eqb k' k0); [reflexivity | exact IH].
Qed.

Lemma assign_nickname_spec (data : value) (users : list value) (i : nat)
    (user : value) (nick : string) :
  Val.field data "users" = VArr users ->
  users !! i = Some user ->
  nullish user = false -> Val.truthy user = true ->
  Val.field user "uid" <> VUndefined ->
  exists user' : value,
    Val.field (assign_nickname data i nick) "users" = VArr (<[i := user']> users) /\
    (forall k : string, k <> "users" ->
       Val.field (assign_nickname data i nick) k = Val.field data k) /\
    Val.field user' "nickname" = VStr nick /\
    (forall k : string, k <> "nickname" -> Val.field user' k = Val.field user k).
Proof.
  intros Husers Hi _ _ Hobj. unfold assign_nickname. rewrite Husers, Hi.
  destruct data as [| | | | | |fields]; cbn in Husers; try discriminate Husers.
  destruct user as [| | | | | |ufields]; cbn in Hobj; try contradiction.
  exists (VObj (Val.assign "nickname" (VStr nick) ufields)). cbn.
  split; [apply assoc_assign_eq|]. split; [|split].
  - intros k Hk. now apply assoc_assign_ne.
  - apply assoc_assign_eq.
  - intros k Hk. now apply assoc_assign_ne.
Qed.

(** X8. A nickname update that succeeds rewrites [users.json] alone, with
    the data it read in which one thing has changed: the nickname of the
    first record that has the uid of the session. The other records, the
    other fields of that record (its uid and its password among them), the
    number and the order of the records and the other fields of the file
    are as before. *)
Theorem nickname_changes_one_field (w : World) (req_body : value) (raw : string)
    (users : list value) (i : nat) (user : value) :
  Val.truthy (uid (session w)) = true ->
  Val.field req_body "nickname" = VStr raw -> Js.trim raw <> "" ->
  Val.field (stored w) "users" = VArr users ->
  users !! i = Some user ->
  Val.strict_eq (Val.field user "uid") (uid (session w)) = true ->
  (forall (j : nat) (y : value), j < i -> users !! j = Some y ->
     nullish y = false /\
     Val.strict_eq (Val.field y "uid") (uid (session w)) = false) ->
  exists (w1 : World) (data' user' : value) (users' : list value),
    post_api_nickname req_body w =
      (Ok (json 200 (VObj [("ok", VBool true); ("nickname", VStr (Js.trim raw))])), w1) /\
    disk w1 !! usersPath = Some (utf8_encode (JSON_stringify 2 data')) /\
    (forall p : string, p <> usersPath -> disk w1 !! p = disk w !! p) /\
    Val.field data' "users" = VArr users' /\
    (forall k : string, k <> "users" -> Val.field data' k = Val.field (stored w) k) /\
    length users' = length users /\
    (forall j : nat, j <> i -> users' !! j = users !! j) /\
    users' !! i = Some user' /\
    Val.field user' "nickname" = VStr (Js.trim raw) /\
    (forall k : string, k <> "nickname" -> Val.field user' k = Val.field user k).
Proof.
  intros Hauth Hnick Htrim Husers Hi Hmatch Hbefore.
  pose proof (nickname_accepts w req_body raw users i user
                Hauth Hnick Htrim Husers Hi Hmatch Hbefore) as Hrun.
  destruct (match_is_object user "uid" _ Hmatch Hauth) as [Hnn Htruthy].
  assert (Hdef : Val.field user "uid" <> VUndefined).
  { intros E. rewrite E in Hmatch. destruct (uid (session w)); discriminate. }
  destruct (assign_nickname_spec (stored w) users i user (Js.trim raw)
              Husers Hi Hnn Htruthy Hdef) as (user' & Hus' & Hother & Hnew & Hkeep).
  eexists _, (assign_nickname (stored w) i (Js.trim raw)), user', (<[i := user']> users).
  split; [exact Hrun|]. cbn.
  split; [apply lookup_insert_eq|].
  split; [intros p Hp; now apply lookup_insert_ne|].
  split; [exact Hus'|]. split; [exact Hother|].
  split; [apply length_insert|].
  split; [intros j Hj; now apply list_lookup_insert_ne|].
  split; [|now split].
  apply list_lookup_insert_eq. now apply lookup_lt_Some in Hi.
Qed.

Lemma stored_after_write (w : World) (data : value) (s : Session) (l : list Event) :
  reads_back data ->
  stored (with_session s
            (with_disk (<[usersPath := utf8_encode (JSON_stringify 2 data)]> (disk w))
               (with_log l w))) = data.
Proof.
  intros (Hutf & Hne & Hparse). unfold stored. cbn.
  rewrite lookup_insert_eq, Hutf. unfold Js.or_else.
  destruct (String.eqb_spec (JSON_stringify 2 data) ""); [contradiction|].
  now rewrite Hparse.
Qed.

(** X9. Round trip through the store: when [JSON.parse] reads back what
    [writeUsers] wrote, the store holds the new nickname after a successful
    update, and a login with the uid and the password of that record is
    then answered with [needsNickname] false and opens a session that has
    the new nickname. *)
Theorem nickname_is_persisted (w : World) (req_body login_body : value)
    (raw u p : string) (users : list value) (i : nat) (user : value) :
  uid (session w) = VStr u -> u <> "" ->
  Val.field req_body "nickname" = VStr raw -> Js.trim raw <> "" ->
  Val.field (stored w) "users" = VArr users ->
  users !! i = Some user ->
  Val.field user "uid" = VStr u ->
  Val.field user "password" = VStr p -> p <> "" ->
  (forall (j : nat) (y : value), j < i -> users !! j = Some y ->
     nullish y = false /\ Val.field y "uid" <> VStr u) ->
  reads_back (assign_nickname (stored w) i (Js.trim raw)) ->
  Val.field login_body "uid" = VStr u ->
  Val.field login_body "password" = VStr p ->
  exists w1 w2 : World,
    post_api_nickname req_body w =
      (Ok (json 200 (VObj [("ok", VBool true); ("nickname", VStr (Js.trim raw))])), w1) /\
    stored w1 = assign_nickname (stored w) i (Js.trim raw) /\
    post_api_login login_body w1 =
      (Ok (json 200 (VObj [("ok", VBool true); ("needsNickname", VBool false)])), w2) /\
    uid (session w2) = VStr u /\
    nickname (session w2) = VStr (Js.trim raw).
Proof.
  intros Hsess Hu Hnick Htrim Husers Hi Huid Hpw Hp Hbefore Hback Hlu Hlp.
  assert (Hauth : Val.truthy (uid (session w)) = true)
    by (rewrite Hsess; now apply truthy_str).
  assert (Hmatch : Val.strict_eq (Val.field user "uid") (uid (session w)) = true)
    by (rewrite Hsess; now apply strict_eq_str).
  assert (Hbefore' : forall (j : nat) (y : value), j < i -> users !! j = Some y ->
            nullish y = false /\
            Val.strict_eq (Val.field y "uid") (uid (session w)) = false).
  { intros j y Hj Hy. destruct (Hbefore j y Hj Hy) as [Hy1 Hy2]. split; [exact Hy1|].
    rewrite Hsess.
    destruct (Val.strict_eq (Val.field y "uid") (VStr u)) eqn:E; [|reflexivity].
    apply strict_eq_str in E. contradiction. }
  pose proof (nickname_accepts w req_body raw users i user
                Hauth Hnick Htrim Husers Hi Hmatch Hbefore') as Hrun.
  destruct (match_is_object user "uid" _ Hmatch Hauth) as [Hnn Htruthy].
  assert (Hdef : Val.field user "uid" <> VUndefined) by (rewrite Huid; discriminate).
  destruct (assign_nickname_spec (stored w) users i user (Js.trim raw)
              Husers Hi Hnn Htruthy Hdef) as (user' & Hus' & _ & Hnew & Hkeep).
  eexists _, _. split; [exact Hrun|].
  rewrite (stored_after_write w _ _ _ Hback). split; [reflexivity|].
  match goal with
  | |- post_api_login _ ?w1 = _ /\ _ =>
      pose proof (login_accepts w1 login_body u p (<[i := user']> users) i user'
                    Hlu Hu Hlp Hp) as Hlogin
  end.
  rewrite (stored_after_write w _ _ _ Hback) in Hlogin.
  specialize (Hlogin Hus').
  rewrite list_lookup_insert_eq in Hlogin by (now apply lookup_lt_Some in Hi).
  specialize (Hlogin eq_refl).
  rewrite !Hkeep in Hlogin by discriminate.
  specialize (Hlogin Huid Hpw).
  rewrite Hnew in Hlogin.
  assert (Htn : Val.truthy (VStr (Js.trim raw)) = true) by now apply truthy_str.
  unfold Val.or in Hlogin. rewrite Htn in Hlogin. cbn [negb] in Hlogin.
  rewrite Hlogin.
  - now repeat split.
  - intros j y Hj Hy.
    rewrite list_lookup_insert_ne in Hy by lia.
    destruct (Hbefore j y Hj Hy) as [Hy1 Hy2]. split; [exact Hy1|].
    intros [Hy3 _]. contradiction.
Qed.

(** ** Bot endpoint: what a request leaves behind *)

Lemma extractFromFile_world (req_file : option File) (w w1 : World)
    (o : outcome Extracted) :
  extractFromFile req_file w = (o, w1) ->
  disk w1 = disk w /\ session w1 = session w /\
  clock w1 = clock w /\ entropy w1 = entropy w /\
  log w1 = log w ++ match req_file with
                    | Some file => [FsRead (path file)]
                    | None => []
                    end.
Proof.
  unfold extractFromFile. destruct req_file as [file|].
  - unfold readFileSync. run.
    destruct (disk w !! path file) as [buffer|]; cbn;
      [|intros [= <- <-]; now repeat split].
    repeat match goal with
           | |- context [if ?b then _ else _] => destruct b; cbn
           | |- context [match ?o with Ok _ => _ | Throw _ => _ end] =>
               destruct o; cbn
           end; intros [= <- <-]; now repeat split.
  - intros [= <- <-]. cbn. now rewrite app_nil_r.
Qed.

Lemma uploadToR2_world (file : File) (w w1 : World) (o : outcome value) :
  uploadToR2 file w = (o, w1) ->
  disk w1 = disk w /\ session w1 = session w /\
  exists l : list Event, log w1 = log w ++ l /\ no_fetch l.
Proof.
  unfold uploadToR2. destruct r2Client; run.
  - destruct (disk w !! path file) as [content|]; cbn.
    + destruct (S3_send _ _ _ _) as [[]|]; cbn.
      * destruct (Val.truthy (getenv "R2_PUBLIC_URL")); intros [= <- <-];
          repeat split; eexists; (split; [reflexivity | now repeat constructor]).
      * intros [= <- <-].
        repeat split; eexists; (split; [reflexivity | now repeat constructor]).
    + intros [= <- <-].
      repeat split; eexists; (split; [reflexivity | now repeat constructor]).
  - intros [= <- <-]. repeat split. exists []. split; [now rewrite app_nil_r|].
    constructor.
Qed.

Lemma upload_step_world (req_file : option File) (w w1 : World) (o : outcome value) :
  upload_step req_file w = (o, w1) ->
  disk w1 = disk w /\ session w1 = session w /\
  exists l : list Event, log w1 = log w ++ l /\ no_fetch l.
Proof.
  destruct req_file as [file|]; cbn.
  - apply uploadToR2_world.
  - intros [= <- <-]. repeat split. exists []. split; [now rewrite app_nil_r|].
    constructor.
Qed.

Lemma post_api_bot_configured (w : World) (botId : string) (req_body : value)
    (req_file : option File) :
  Val.truthy (uid (session w)) = true -> configured botId ->
  post_api_bot botId req_body req_file w =
    match bot_request botId (modelOf botId) (keyOf botId) req_body req_file w with
    | (Ok r, w') => (Ok r, w')
    | (Throw _, w') => (Ok (json 500 (error "Bot request failed")), w')
    end.
Proof.
  intros Hauth [Hm Hk]. unfold post_api_bot. run. rewrite Hauth. cbn.
  rewrite Hm, Hk. reflexivity.
Qed.

Lemma bot_request_steps (botId : string) (req_body : value)
    (req_file : option File) (w : World) :
  bot_request botId (modelOf botId) (keyOf botId) req_body req_file w =
    match extractFromFile req_file w with
    | (Throw e, w1) => (Throw e, w1)
    | (Ok extracted, w1) =>
        match upload_step req_file w1 with
        | (Throw e, w2) => (Throw e, w2)
        | (Ok fileUrl, w2) =>
            let w3 := with_log (log w2 ++ [generateContentCall botId req_body extracted]) w2 in
            match generateContentReply botId req_body extracted with
            | Throw e => (Throw e, w3)
            | Ok response =>
                match response_json response with
                | Throw e => (Throw e, w3)
                | Ok reply =>
                    if resp_ok response then
                      match normalizeReply reply with
                      | Throw e => (Throw e, w3)
                      | Ok out =>
                          (Ok (json 200 (VObj [("text", VStr (fst out));
                                               ("image", snd out);
                                               ("fileUrl", fileUrl);
                                               ("raw", reply)])),
                           snd (match req_file with
                                | Some file =>
                                    (there ← existsSync (path file);
                                     if there : bool then unlink (path file) else mret tt) w3
                                | None => (Ok tt, w3)
                                end))
                      end
                    else
                      (Ok (json (resp_status response)
                             (VObj [("error", VStr "Bot request failed");
                                    ("details", reply)])), w3)
                end
            end
        end
    end.
Proof.
  unfold bot_request, upload_step, generateContentCall, generateContentReply. run.
  destruct (extractFromFile req_file w) as [[extracted|e] w1]; [|reflexivity].
  destruct req_file as [file|]; cbn.
  - destruct (uploadToR2 file w1) as [[fileUrl|e] w2]; [|reflexivity]. cbn.
    destruct (fetch _ _ _) as [response|e]; [|reflexivity]. cbn.
    destruct (response_json response) as [reply|e]; [|reflexivity]. cbn.
    destruct (resp_ok response); [|reflexivity]. cbn.
    destruct (normalizeReply reply) as [out|e]; [|reflexivity]. cbn.
    unfold existsSync, unlink. run.
    now destruct (disk w2 !! path file).
  - destruct (fetch _ _ _) as [response|e]; [|reflexivity]. cbn.
    destruct (response_json response) as [reply|e]; [|reflexivity]. cbn.
    destruct (resp_ok response); [|reflexivity]. cbn.
    now destruct (normalizeReply reply) as [out|e].
Qed.

Lemma cleanup_disk (req_file : option File) (w : World) :
  disk (snd (match req_file with
             | Some file =>
                 (there ← existsSync (path file);
                  if there : bool then unlink (path file) else mret tt) w
             | None => (Ok tt, w)
             end)) = without_file req_file (disk w) /\
  session (snd (match req_file with
                | Some file =>
                    (there ← existsSync (path file);
                     if there : bool then unlink (path file) else mret tt) w
                | None => (Ok tt, w)
                end)) = session w.
Proof.
  destruct req_file as [file|]; cbn; [|now split].
  unfold existsSync, unlink. run.
  destruct (disk w !! path file) eqn:Hfile; cbn; [now split|].
  split; [|reflexivity]. symmetry. now apply delete_id.
Qed.

(** X10. The bot handler never throws: every request is answered, with
    401 or 501 and the world unchanged, with the generic 500, with the
    status and the body of a failed call of the generative API, or with
    200. The session is never changed, and the disk is changed in one case
    only: after a 200 the file of the request is gone. *)
Theorem bot_always_answers (w : World) (botId : string) (req_body : value)
    (req_file : option File) :
  exists (r : Response) (w' : World),
    post_api_bot botId req_body req_file w = (Ok r, w') /\
    session w' = session w /\
    ((r = json 401 (VObj [("error", VStr "Not authenticated")]) /\ w' = w) \/
     (r = json 501 (VObj [("error", VStr "Bot API not configured")]) /\ w' = w) \/
     (r = json 500 (VObj [("error", VStr "Bot request failed")]) /\
      disk w' = disk w) \/
     (exists (extracted : Extracted) (response : FetchResponse) (reply : value),
         generateContentReply botId req_body extracted = Ok response /\
         resp_ok response = false /\
         response_json response = Ok reply /\
         r = json (resp_status response)
               (VObj [("error", VStr "Bot request failed"); ("details", reply)]) /\
         disk w' = disk w) \/
     (exists (text : string) (image fileUrl reply : value),
         r = json 200 (VObj [("text", VStr text); ("image", image);
                             ("fileUrl", fileUrl); ("raw", reply)]) /\
         disk w' = without_file req_file (disk w))).
Proof.
  destruct (Val.truthy (uid (session w))) eqn:Hauth.
  2:{ eexists _, w. unfold post_api_bot. run. rewrite Hauth. cbn.
      split; [reflexivity|]. split; [reflexivity|]. now left. }
  destruct (Val.truthy (modelOf botId) && Val.truthy (keyOf botId)) eqn:Hconf.
  2:{ eexists _, w. rewrite post_api_bot_unconfigured; [|exact Hauth|].
      - split; [reflexivity|]. split; [reflexivity|]. right. now left.
      - apply andb_false_iff in Hconf. exact Hconf. }
  apply andb_true_iff in Hconf.
  rewrite (post_api_bot_configured w botId req_body req_file Hauth Hconf).
  rewrite bot_request_steps.
  destruct (extractFromFile req_file w) as [[extracted|e] w1] eqn:Hex;
    destruct (extractFromFile_world _ _ _ _ Hex) as (Hd1 & Hs1 & _).
  2:{ eexists _, w1. split; [reflexivity|]. split; [exact Hs1|].
      right. right. left. now split. }
  destruct (upload_step req_file w1) as [[fileUrl|e] w2] eqn:Hup;
    destruct (upload_step_world _ _ _ _ Hup) as (Hd2 & Hs2 & _).
  2:{ eexists _, w2. split; [reflexivity|]. split; [congruence|].
      right. right. left. split; [reflexivity | congruence]. }
  cbn zeta.
  destruct (generateContentReply botId req_body extracted) as [response|e] eqn:Hreply.
  2:{ eexists _, _. split; [reflexivity|]. split; [cbn; congruence|].
      right. right. left. split; [reflexivity | cbn; congruence]. }
  destruct (response_json response) as [reply|e] eqn:Hjson.
  2:{ eexists _, _. split; [reflexivity|]. split; [cbn; congruence|].
      right. right. left. split; [reflexivity | cbn; congruence]. }
  destruct (resp_ok response) eqn:Hok.
  2:{ eexists _, _. split; [reflexivity|]. split; [cbn; congruence|].
      right. right. right. left. exists extracted, response, reply.
      repeat split; try assumption. cbn. congruence. }
  destruct (normalizeReply reply) as [out|e].
  2:{ eexists _, _. split; [reflexivity|]. split; [cbn; congruence|].
      right. right. left. split; [reflexivity | cbn; congruence]. }
  eexists _, _. split; [reflexivity|].
  match goal with
  | |- context [snd ?c] =>
      destruct (cleanup_disk req_file
                  (with_log (log w2 ++ [generateContentCall botId req_body extracted]) w2))
        as [Hclean Hsess]
  end.
  split; [rewrite Hsess; cbn; congruence|].
  right. right. right. right. exists (fst out), (snd out), fileUrl, reply.
  split; [reflexivity|]. rewrite Hclean. cbn. congruence.
Qed.

(** X11. When the extraction of the file throws (the file is not on the
    disk, or its extractor fails), the request is answered with the
    generic 500; the file is neither uploaded to the object store nor sent
    to the generative API, and nothing on the disk is changed. *)
Theorem bot_extraction_failure (w w1 : World) (botId : string) (req_body : value)
    (req_file : option File) (e : exn) :
  Val.truthy (uid (session w)) = true -> configured botId ->
  extractFromFile req_file w = (Throw e, w1) ->
  post_api_bot botId req_body req_file w =
    (Ok (json 500 (VObj [("error", VStr "Bot request failed")])), w1) /\
  disk w1 = disk w /\
  network (log w1) = network (log w).
Proof.
  intros Hauth Hconf Hex.
  rewrite (post_api_bot_configured w botId req_body req_file Hauth Hconf).
  rewrite bot_request_steps, Hex. split; [reflexivity|].
  destruct (extractFromFile_world _ _ _ _ Hex) as (Hd & _ & _ & _ & Hlog).
  split; [exact Hd|]. rewrite Hlog, network_app.
  destruct req_file; cbn; now rewrite app_nil_r.
Qed.

(** X12. When the upload to the object store throws, the request is
    answered with the generic 500 and the generative API is not called. *)
Theorem bot_upload_failure (w w1 w2 : World) (botId : string) (req_body : value)
    (req_file : option File) (extracted : Extracted) (e : exn) :
  Val.truthy (uid (session w)) = true -> configured botId ->
  extractFromFile req_file w = (Ok extracted, w1) ->
  upload_step req_file w1 = (Throw e, w2) ->
  post_api_bot botId req_body req_file w =
    (Ok (json 500 (VObj [("error", VStr "Bot request failed")])), w2) /\
  disk w2 = disk w /\
  exists l : list Event, log w2 = log w ++ l /\ no_fetch l.
Proof.
  intros Hauth Hconf Hex Hup.
  rewrite (post_api_bot_configured w botId req_body req_file Hauth Hconf).
  rewrite bot_request_steps, Hex, Hup. split; [reflexivity|].
  destruct (extractFromFile_world _ _ _ _ Hex) as (Hd1 & _ & _ & _ & Hlog1).
  destruct (upload_step_world _ _ _ _ Hup) as (Hd2 & _ & l & Hlog2 & Hl).
  split; [congruence|].
  eexists. rewrite Hlog2, Hlog1, <- app_assoc. split; [reflexivity|].
  apply Forall_app. split; [|exact Hl]. destruct req_file; now repeat constructor.
Qed.

(** X13. For a request whose fields [text] and [chartType] hold no
    object, so that [String] converts them: when the generative API
    answers with a status outside 200..299 and a JSON body, the handler
    relays that status with the body as [details]; the uploaded file is
    left on the disk. *)
Theorem bot_relays_upstream (w w1 w2 : World) (botId : string) (req_body : value)
    (req_file : option File) (extracted : Extracted) (fileUrl : value)
    (response : FetchResponse) (reply : value) :
  Val.truthy (uid (session w)) = true -> configured botId ->
  Val.plain (Val.field req_body "text") = true ->
  Val.plain (Val.field req_body "chartType") = true ->
  extractFromFile req_file w = (Ok extracted, w1) ->
  upload_step req_file w1 = (Ok fileUrl, w2) ->
  generateContentReply botId req_body extracted = Ok response ->
  response_json response = Ok reply ->
  resp_ok response = false ->
  post_api_bot botId req_body req_file w =
    (Ok (json (resp_status response)
           (VObj [("error", VStr "Bot request failed"); ("details", reply)])),
     with_log (log w2 ++ [generateContentCall botId req_body extracted]) w2) /\
  disk w2 = disk w /\
  (resp_status response < 200 \/ 299 < resp_status response).
Proof.
  intros Hauth Hconf _ _ Hex Hup Hreply Hjson Hok.
  rewrite (post_api_bot_configured w botId req_body req_file Hauth Hconf).
  rewrite bot_request_steps, Hex, Hup. cbn zeta. rewrite Hreply, Hjson, Hok.
  split; [reflexivity|].
  destruct (extractFromFile_world _ _ _ _ Hex) as (Hd1 & _).
  destruct (upload_step_world _ _ _ _ Hup) as (Hd2 & _).
  split; [congruence|]. unfold resp_ok in Hok.
  apply andb_false_iff in Hok. destruct Hok as [Hok|Hok].
  - left. apply Nat.leb_gt in Hok. exact Hok.
  - right. apply Nat.leb_gt in Hok. exact Hok.
Qed.

(** ** Bot endpoint behind the upload layer *)

Lemma append_assoc (a b c : string) : (a +:+ b) +:+ c = a +:+ (b +:+ c).
Proof.
  induction a as [|x a IH]; [reflexivity|].
  now rewrite !append_cons, IH.
Qed.

Lemma upload_path_not_store (name : string) : uploadDir +:+ "/" +:+ name <> usersPath.
Proof.
  unfold uploadDir, usersPath, dataDir. rewrite !append_assoc.
  intros E. apply (inj (String.append dirname)) in E.
  rewrite !append_cons in E. discriminate E.
Qed.

Lemma upload_single_world (part : option Upload) (w w1 : World)
    (o : outcome (option File)) :
  upload_single part w = (o, w1) ->
  session w1 = session w /\
  network (log w1) = network (log w) /\
  match o, part with
  | Ok (Some file), Some u =>
      path file = uploadDir +:+ "/" +:+ filename w (up_originalname u) /\
      originalname file = up_originalname u /\
      mimetype file = up_mimetype u /\
      disk w1 = <[path file := up_content u]> (disk w)
  | Ok (Some _), None => False
  | _, _ => disk w1 = disk w
  end.
Proof.
  unfold upload_single. destruct part as [u|]; run.
  - destruct (fileFilter (up_mimetype u)) as [[|]|e]; cbn.
    + destruct (fileSize <=? N.of_nat (length (up_content u)))%N; cbn.
      * intros [= <- <-]. now repeat split.
      * unfold writeFileSync. run. intros [= <- <-]. cbn.
        rewrite network_app. cbn. rewrite app_nil_r. now repeat split.
    + intros [= <- <-]. now repeat split.
    + intros [= <- <-]. now repeat split.
  - intros [= <- <-]. now repeat split.
Qed.

Lemma post_api_bot_disk (w w' : World) (botId : string) (req_body : value)
    (req_file : option File) (o : outcome Response) :
  post_api_bot botId req_body req_file w = (o, w') ->
  session w' = session w /\
  (disk w' = disk w \/ disk w' = without_file req_file (disk w)).
Proof.
  destruct (Val.truthy (uid (session w))) eqn:Hauth.
  2:{ unfold post_api_bot. run. rewrite Hauth. cbn. intros [= <- <-].
      split; [reflexivity | now left]. }
  destruct (Val.truthy (modelOf botId) && Val.truthy (keyOf botId)) eqn:Hconf.
  2:{ apply andb_false_iff in Hconf.
      rewrite (post_api_bot_unconfigured w botId req_body req_file Hauth Hconf).
      intros [= <- <-]. split; [reflexivity | now left]. }
  apply andb_true_iff in Hconf.
  rewrite (post_api_bot_configured w botId req_body req_file Hauth Hconf).
  rewrite bot_request_steps.
  destruct (extractFromFile req_file w) as [[extracted|e] w1] eqn:Hex;
    destruct (extractFromFile_world _ _ _ _ Hex) as (Hd1 & Hs1 & _);
    [|intros [= <- <-]; split; [exact Hs1 | now left]].
  destruct (upload_step req_file w1) as [[fileUrl|e] w2] eqn:Hup;
    destruct (upload_step_world _ _ _ _ Hup) as (Hd2 & Hs2 & _);
    [|intros [= <- <-]; split; [congruence | left; congruence]].
  cbn zeta.
  destruct (cleanup_disk req_file
              (with_log (log w2 ++ [generateContentCall botId req_body extracted]) w2))
    as [Hclean Hsess].
  repeat match goal with
         | |- context [match ?x with Ok _ => _ | Throw _ => _ end] => destruct x
         | |- context [if ?b then _ else _] => destruct b
         end; intros [= <- <-];
    solve [ split; [cbn; congruence | left; cbn; congruence]
          | split; [rewrite Hsess; cbn; congruence
                   | right; rewrite Hclean; cbn; congruence] ].
Qed.

(** X14. The upload layer runs before the handler checks the session: a
    request without a session whose file the upload layer accepts (its
    type is neither audio nor video and it is shorter than the limit of
    25 MiB) is answered 401 and calls no network service, but its file has
    been written under [uploads] and is left there. *)
Theorem unauthenticated_upload_is_kept (w : World) (botId : string)
    (req_body : value) (u : Upload) :
  Val.truthy (uid (session w)) = false ->
  fileFilter (up_mimetype u) = Ok true ->
  (N.of_nat (length (up_content u)) < fileSize)%N ->
  exists w' : World,
    route_api_bot botId req_body (Some u) w =
      (Ok (json 401 (VObj [("error", VStr "Not authenticated")])), w') /\
    disk w' !! (uploadDir +:+ "/" +:+ filename w (up_originalname u))
      = Some (up_content u) /\
    network (log w') = network (log w).
Proof.
  intros Hauth Hfilter Hsize.
  unfold route_api_bot, upload_single. run. rewrite Hfilter. cbn.
  apply N.leb_gt in Hsize. rewrite Hsize. cbn.
  unfold writeFileSync. run. world.
  unfold post_api_bot. run. rewrite Hauth. cbn.
  eexists. split; [reflexivity|]. cbn. split; [apply lookup_insert_eq|].
  rewrite network_app. cbn. now rewrite app_nil_r.
Qed.

(** X15. No request to the bot route changes the credential store or the
    session, whatever the session, the configuration, the upload and the
    answers of the network are. *)
Theorem bot_route_keeps_store (w w' : World) (botId : string) (req_body : value)
    (part : option Upload) (o : outcome Response) :
  route_api_bot botId req_body part w = (o, w') ->
  disk w' !! usersPath = disk w !! usersPath /\
  stored w' = stored w /\
  session w' = session w.
Proof.
  intros Hrun.
  assert (Hkeep : disk w' !! usersPath = disk w !! usersPath /\ session w' = session w).
  { unfold route_api_bot in Hrun. run in Hrun.
    destruct (upload_single part w) as [[req_file|e] w1] eqn:Hup;
      destruct (upload_single_world _ _ _ _ Hup) as (Hs1 & _ & Hd1).
    - destruct (post_api_bot botId req_body req_file w1) as [[r|e] w2] eqn:Hbot;
        destruct (post_api_bot_disk _ _ _ _ _ _ Hbot) as (Hs2 & Hd2);
        injection Hrun as <- <-; (split; [|congruence]);
        destruct req_file as [file|], part as [u|]; try contradiction;
        try (destruct Hd2 as [-> | ->]; cbn; now rewrite Hd1).
      all: destruct Hd1 as (Hpath & _ & _ & Hd1);
        destruct Hd2 as [-> | ->]; cbn; rewrite Hd1, Hpath;
        rewrite ?lookup_delete_ne, ?lookup_insert_ne;
        auto using upload_path_not_store.
    - injection Hrun as <- <-. destruct part; cbn in Hd1; now rewrite Hd1. }
  destruct Hkeep as [Hd Hs]. split; [exact Hd|]. split; [|exact Hs].
  unfold stored. now rewrite Hd.
Qed.





(** ** The reply of the generative API *)

Lemma filter_from_texts (items : list value) :
  Forall (fun p => nullish p = false) items ->
  exists kept : list value,
    filter_from (fun p => t ← get_prop p "text"; Ok (Val.is_string t)) items = Ok kept /\
    map (fun p => toString (Val.field p "text")) kept = textsOf items.
Proof.
  induction 1 as [|p items Hp _ (kept & Hkept & Hmap)]; cbn.
  - now exists [].
  - rewrite (get_prop_not_nullish _ _ Hp). cbn. rewrite Hkept. cbn.
    unfold textsOf in *. cbn.
    destruct (Val.field p "text") eqn:Ht; cbn; eexists; split; try reflexivity;
      cbn; rewrite ?Ht; cbn; now rewrite ?Hmap.
Qed.

Lemma find_from_total (q : value -> outcome bool) (items : list value) (k : nat) :
  Forall (fun p => exists b : bool, q p = Ok b) items ->
  exists found : option (nat * value), find_from q k items = Ok found.
Proof.
  intros Hall. revert k. induction Hall as [|p items [b Hb] _ IH]; intros k; cbn.
  - now eexists.
  - rewrite Hb. cbn. destruct b; [now eexists | apply IH].
Qed.

Lemma ToString_plain (v : value) : Val.plain v = true -> ToString v = Ok (toString v).
Proof.
  revert v. fix IH 1. intros [| |b|x|s|items|fields] Hplain; try reflexivity;
    [|discriminate Hplain].
  cbn [ToString toString]. cbn [Val.plain] in Hplain.
  match goal with
  | |- mbind _ (?each items) = Ok (Val.join _ (?strings items)) =>
      assert (Heach : each items = Ok (strings items)); [|now rewrite Heach]
  end.
  induction items as [|x rest IHrest]; [reflexivity|].
  cbn [forallb] in Hplain. apply andb_true_iff in Hplain as [Hx Hrest].
  specialize (IHrest Hrest). pose proof (IH x Hx) as Hhead.
  rewrite IHrest, Hhead. now destruct x.
Qed.

Lemma ToString_TypeError (v : value) (e : exn) : ToString v = Throw e -> e = TypeError.
Proof.
  revert v e. fix IH 1. intros [| |b|x|s|items|fields] e; try discriminate.
  - cbn [ToString].
    match goal with
    | |- mbind _ (?each items) = _ -> _ =>
        assert (Heach : forall e' : exn, each items = Throw e' -> e' = TypeError)
    end.
    { induction items as [|x rest IHrest]; intros e'; [discriminate|].
      pose proof (IH x) as Hhead.
      match goal with
      | |- context [mbind _ (?each rest)] =>
          destruct (each rest) as [others|e1] eqn:Hothers
      end.
      - destruct (ToString x) as [s0|e0] eqn:Hs.
        + now destruct x.
        + destruct x; try discriminate Hs; cbn; intros [= <-]; now apply (Hhead e0).
      - specialize (IHrest e1 eq_refl) as ->.
        destruct (ToString x) as [s0|e0] eqn:Hs.
        + destruct x; cbn; now intros [= <-].
        + destruct x; try discriminate Hs; cbn; intros [= <-]; now apply (Hhead e0). }
    match goal with
    | |- mbind _ ?m = _ -> _ => destruct m as [strings|e1] eqn:Hm
    end; cbn; [discriminate|]. intros [= <-]. now apply Heach.
  - cbn. destruct (Val.has_own "toString" fields); [now intros [= <-] | discriminate].
Qed.
(** What [normalizeReply] computes for a reply with parts, none of them
    [null]. *)
Lemma normalizeReply_steps (reply : value) (items : list value) :
  has_parts reply items ->
  Forall (fun p => nullish p = false) items ->
  normalizeReply reply =
    (imagePart ← find_from
                   (fun p => Ok (Val.truthy (Val.or (Val.field p "inlineData")
                                                    (Val.field p "inline_data"))))
                   0 items;
     let inline :=
       match imagePart with
       | Some (_, p) => Val.or (Val.field p "inlineData") (Val.field p "inline_data")
       | None => VNull
       end in
     image ←
       (if Val.truthy inline && Val.truthy (Val.field inline "data")
        then
          mime ← ToString (Val.or (Val.field inline "mimeType")
                                  (Val.field inline "mime_type"));
          data ← ToString (Val.field inline "data");
          Ok (VStr ("data:" +:+ mime +:+ ";base64," +:+ data))
        else Ok VNull);
     Ok (Js.trim (Val.join (Js.LF +:+ Js.LF) (textsOf items)), image)).
Proof.
  intros Hparts Hall. unfold normalizeReply, has_parts in *.
  rewrite Hparts. change (Val.or (VArr items) (VArr [])) with (VArr items).
  cbv beta iota zeta.
  destruct (filter_from_texts items Hall) as (kept & Hkept & Hmap).
  rewrite Hkept. cbn [mbind outcome_bind]. rewrite Hmap.
  assert (Hfind : forall k : nat,
             find_from (fun p => a ← get_prop p "inlineData";
                                 b ← get_prop p "inline_data";
                                 Ok (Val.truthy (Val.or a b))) k items =
             find_from (fun p => Ok (Val.truthy (Val.or (Val.field p "inlineData")
                                                        (Val.field p "inline_data"))))
               k items).
  { clear Hparts Hkept Hmap. induction Hall as [|p items Hp _ IH]; intros k; cbn;
      [reflexivity|].
    rewrite !(get_prop_not_nullish _ _ Hp). cbn. now rewrite IH. }
  rewrite Hfind.
  destruct (find_from _ 0 items) as [[[i p]|]|e] eqn:Hfound; cbn [mbind outcome_bind];
    try reflexivity.
  destruct (find_from_found _ _ _ _ _ Hfound) as (n & _ & _ & Hq & _).
  injection Hq as Hq.
  assert (Hp : Val.truthy p = true)
    by (destruct p; cbn in Hq; try discriminate Hq; reflexivity).
  now rewrite Hp.
Qed.

(** X17. The text of the answer is the text of the string [text] parts of
    the first candidate, in order, joined by a blank line and trimmed;
    parts whose [text] is missing or is no string do not count. For a
    reply whose parts are not [null] the handler has this text or throws
    a [TypeError]; it does not throw when the MIME type and the data of
    every inline image hold no object, and it throws when the first
    inline image has for data an object with a property [toString], which
    the template literal of the data URL cannot convert. A reply that has
    no candidate, no content or no parts gives the empty text and no
    image. *)
Theorem reply_text (reply : value) :
  (forall items : list value,
      has_parts reply items ->
      Forall (fun p => nullish p = false) items ->
      (normalizeReply reply = Throw TypeError \/
       exists image : value,
         normalizeReply reply =
           Ok (Js.trim (Val.join (Js.LF +:+ Js.LF) (textsOf items)), image)) /\
      (Forall (fun p =>
                 let inline := Val.or (Val.field p "inlineData")
                                      (Val.field p "inline_data") in
                 Val.plain (Val.or (Val.field inline "mimeType")
                                   (Val.field inline "mime_type")) = true /\
                 Val.plain (Val.field inline "data") = true) items ->
       exists image : value,
         normalizeReply reply =
           Ok (Js.trim (Val.join (Js.LF +:+ Js.LF) (textsOf items)), image)) /\
      (forall (i : nat) (p : value) (fields data : list (string * value)),
          items !! i = Some p ->
          (forall (j : nat) (q : value), j < i -> items !! j = Some q ->
             Val.truthy (Val.field q "inlineData") = false /\
             Val.truthy (Val.field q "inline_data") = false) ->
          Val.or (Val.field p "inlineData") (Val.field p "inline_data") = VObj fields ->
          Val.assoc "data" fields = VObj data ->
          Val.has_own "toString" data = true ->
          normalizeReply reply = Throw TypeError)) /\
  (Val.truthy
     (Val.opt_field
        (Val.opt_field (Val.opt_first (Val.opt_field reply "candidates")) "content")
        "parts") = false ->
   normalizeReply reply = Ok ("", VNull)).
Proof.
  split.
  - intros items Hparts Hall.
    rewrite (normalizeReply_steps reply items Hparts Hall).
    set (q := fun p : value =>
                @Ok bool (Val.truthy (Val.or (Val.field p "inlineData")
                                             (Val.field p "inline_data")))).
    destruct (find_from_total q items 0) as (found & Hfound).
    { apply Forall_forall. intros p _. now eexists. }
    rewrite Hfound. cbn [mbind outcome_bind]. cbv zeta.
    split; [|split].
    + destruct (Val.truthy _ && Val.truthy _); [|right; now eexists].
      destruct (ToString (Val.or _ _)) as [mime|e] eqn:Hmime; cbn.
      * destruct (ToString (Val.field _ "data")) as [data|e] eqn:Hdata; cbn;
          [right; now eexists|].
        left. now rewrite (ToString_TypeError _ _ Hdata).
      * left. now rewrite (ToString_TypeError _ _ Hmime).
    + intros Hplain.
      destruct (Val.truthy _ && Val.truthy _); [|now eexists].
      destruct found as [[i p]|]; [|now eexists].
      destruct (find_from_found _ _ _ _ _ Hfound) as (n & _ & Hn & _).
      rewrite Forall_forall in Hplain.
      destruct (Hplain p) as [Hmime Hdata];
        [apply list_elem_of_lookup; now exists n|].
      cbv zeta in Hmime, Hdata.
      rewrite (ToString_plain _ Hmime), (ToString_plain _ Hdata). cbn. now eexists.
    + intros i p fields data Hi Hbefore Hinline Hdata Hown.
      assert (Hfirst : find_from q 0 items = Ok (Some (0 + i, p))).
      { apply find_from_first; [exact Hi | |].
        - unfold q. now rewrite Hinline.
        - intros j y Hj Hy. unfold q. destruct (Hbefore j y Hj Hy) as [H1 H2].
          unfold Val.or. now rewrite H1, H2. }
      rewrite Hfirst in Hfound. injection Hfound as <-.
      rewrite Hinline. cbn [Val.truthy Val.field andb]. rewrite Hdata.
      cbn [Val.truthy ToString]. rewrite Hown.
      destruct (ToString _) as [mime|e] eqn:Hmime; cbn; [reflexivity|].
      now rewrite (ToString_TypeError _ _ Hmime).
  - intros Hnone. unfold normalizeReply, Val.or. now rewrite Hnone.
Qed.

(** X18. The image of the answer comes from the first part of the first
    candidate that has a truthy [inlineData] or [inline_data], and from no
    later one: with a MIME type [m] and non-empty data [d] it is the data
    URL [data:m;base64,d]. When no part has inline data the image is
    [null]. *)
Theorem reply_image (reply : value) (items : list value) :
  has_parts reply items ->
  Forall (fun p => nullish p = false) items ->
  (forall (i : nat) (p : value) (fields : list (string * value)) (m d : string),
      items !! i = Some p ->
      (forall (j : nat) (q : value), j < i -> items !! j = Some q ->
         Val.truthy (Val.field q "inlineData") = false /\
         Val.truthy (Val.field q "inline_data") = false) ->
      Val.or (Val.field p "inlineData") (Val.field p "inline_data") = VObj fields ->
      Val.or (Val.assoc "mimeType" fields) (Val.assoc "mime_type" fields) = VStr m ->
      Val.assoc "data" fields = VStr d -> d <> "" ->
      exists text : string,
        normalizeReply reply =
          Ok (text, VStr ("data:" +:+ m +:+ ";base64," +:+ d))) /\
  (Forall (fun q => Val.truthy (Val.field q "inlineData") = false /\
                    Val.truthy (Val.field q "inline_data") = false) items ->
   exists text : string, normalizeReply reply = Ok (text, VNull)).
Proof.
  intros Hparts Hall.
  rewrite (normalizeReply_steps reply items Hparts Hall).
  set (q := fun p : value =>
              @Ok bool (Val.truthy (Val.or (Val.field p "inlineData")
                                           (Val.field p "inline_data")))).
  split.
  - intros i p fields m d Hi Hbefore Hinline Hmime Hdata Hd.
    assert (Hfirst : find_from q 0 items = Ok (Some (0 + i, p))).
    { apply find_from_first; [exact Hi | |].
      - unfold q. now rewrite Hinline.
      - intros j y Hj Hy. unfold q. destruct (Hbefore j y Hj Hy) as [H1 H2].
        unfold Val.or. now rewrite H1, H2. }
    rewrite Hfirst. cbn [mbind outcome_bind]. cbv zeta.
    rewrite Hinline. cbn [Val.truthy Val.field andb].
    rewrite Hdata, Hmime, (truthy_str _ Hd). cbn. now eexists.
  - intros Hnone.
    assert (Hnot : find_from q 0 items = Ok None).
    { apply find_from_none. rewrite Forall_forall in *. intros p Hin.
      unfold q. destruct (Hnone p Hin) as [H1 H2]. unfold Val.or. now rewrite H1, H2. }
    rewrite Hnot. cbn. now eexists.
Qed.

(** ** System instruction *)

(** X19. The chart type reaches the system instruction of the bot [data]
    only: for every other bot id the instruction does not depend on it. A
    bot id that is none of [image], [report], [paper], [data] in this exact
    spelling gets the generic instruction, while the configuration is
    looked up by the upper-case form of the id: two ids with the same
    upper-case form are configured together. *)
Theorem chart_type_only_for_data (botId : string) :
  (botId <> "data" ->
   forall c1 c2 : string, buildSystemPrompt botId c1 = buildSystemPrompt botId c2) /\
  (botId <> "image" -> botId <> "report" -> botId <> "paper" -> botId <> "data" ->
   forall c : string, buildSystemPrompt botId c = "You are an assistant.") /\
  (forall other : string,
      toUpperCase other = toUpperCase botId ->
      (configured other <-> configured botId)) /\
  Js.includes (buildSystemPrompt "data" "") "Include a recommended chart type." = true.
Proof.
  split; [|split; [|split]].
  - intros Hd c1 c2. unfold buildSystemPrompt.
    apply String.eqb_neq in Hd. now rewrite Hd.
  - intros H1 H2 H3 H4 c. unfold buildSystemPrompt.
    apply String.eqb_neq in H1, H2, H3, H4. now rewrite H1, H2, H3, H4.
  - intros other Hup. unfold configured. now rewrite Hup.
  - vm_compute. reflexivity.
Qed.

(** ** Extraction *)

(** X20. [extractFromFile] has no effect but one read of the file: the
    disk and the session are as before and the only I/O is that read.
    Without a file it reads nothing and gives the empty text with no image;
    for a file that is not on the disk it throws the error of the read. *)
Theorem extraction_only_reads (req_file : option File) (w w1 : World)
    (o : outcome Extracted) :
  extractFromFile req_file w = (o, w1) ->
  disk w1 = disk w /\ session w1 = session w /\
  log w1 = log w ++ match req_file with
                    | Some file => [FsRead (path file)]
                    | None => []
                    end /\
  (req_file = None -> o = Ok {| text := ""; inlineImage := None |}) /\
  (forall file : File,
      req_file = Some file -> disk w !! path file = None ->
      o = Throw (ENOENT (path file))).
Proof.
  intros Hrun.
  destruct (extractFromFile_world _ _ _ _ Hrun) as (Hd & Hs & _ & _ & Hlog).
  split; [exact Hd|]. split; [exact Hs|]. split; [exact Hlog|]. split.
  - intros ->. cbn in Hrun. now injection Hrun as <- _.
  - intros file -> Hmissing. unfold extractFromFile, readFileSync in Hrun.
    run in Hrun. rewrite Hmissing in Hrun. cbn in Hrun. now injection Hrun as <- _.
Qed.

(** ** A store of the wrong shape *)

(** X21. A [users.json] that parses but holds no [users] array (an empty
    object, a list, [null], a number) is not taken for an empty store: a
    login with a uid and a password makes the handler throw a [TypeError],
    which the route answers 400 with an error message that is not empty
    (the message of the [TypeError], which V8 words after what the store
    holds instead), neither 401 nor 200. The session and the disk are left
    as they were. *)
Theorem login_on_shapeless_store (w : World) (req_body : value) :
  Val.truthy (Val.field req_body "uid") = true ->
  Val.truthy (Val.field req_body "password") = true ->
  (forall items : list value, Val.field (stored w) "users" <> VArr items) ->
  post_api_login req_body w =
    (Throw TypeError, with_log (log w ++ readUsers_events w) w) /\
  exists message : string,
    message <> "" /\
    route_api_login req_body w =
      (Ok (json 400 (VObj [("error", VStr message)])),
       with_log (log w ++ readUsers_events w) w).
Proof.
  intros Hu Hp Hshape.
  assert (Hbody : nullish req_body = false)
    by (destruct req_body; cbn in *; congruence).
  assert (Hrun : post_api_login req_body w =
                 (Throw TypeError, with_log (log w ++ readUsers_events w) w)).
  { unfold post_api_login. run. rewrite !(get_prop_not_nullish _ _ Hbody). cbn.
    rewrite Hu, Hp. cbn. rewrite readUsers_run.
    destruct (stored w) as [| | | | | |fields] eqn:Hstored; cbn; try reflexivity.
    cbn in Hshape.
    destruct (Val.assoc "users" fields) as [| | | | |items|] eqn:Husers; cbn;
      try reflexivity.
    now contradiction (Hshape items). }
  split; [exact Hrun|].
  exists (Js.or_else typeErrorMessage "Upload failed"). split.
  - unfold Js.or_else. destruct (String.eqb_spec typeErrorMessage ""); [discriminate|].
    assumption.
  - unfold route_api_login. run. now rewrite Hrun.
Qed.

(** ** The page's retry loop *)

Lemma retryFrom_fails (net : nat -> outcome nat) (remaining i : nat)
    (lastErr : option exn) (done : list Client.Effect) :
  (forall j : nat, i <= j < i + remaining -> Client.fails net j) ->
  Client.retryFrom net i remaining lastErr done =
    (Client.Rejected match remaining with
                     | O => lastErr
                     | S k => Some (Client.caught net (i + k))
                     end,
     done ++ Client.retries i remaining).
Proof.
  revert i lastErr done.
  induction remaining as [|remaining IH]; intros i lastErr done Hfails.
  - cbn. now rewrite app_nil_r.
  - assert (Hi : Client.fails net i) by (apply Hfails; lia).
    cbn [Client.retryFrom]. unfold Client.fails in Hi.
    assert (Hstep : (res_status ← net i;
                     if Client.waking res_status then Throw (Thrown "waking")
                     else Ok res_status) = Throw (Client.caught net i)).
    { unfold Client.caught. destruct (net i) as [res_status|err]; cbn; [|reflexivity].
      now rewrite Hi. }
    rewrite Hstep, IH by (intros j Hj; apply Hfails; lia).
    unfold Client.retries. cbn [seq flat_map]. rewrite <- app_assoc. f_equal.
    destruct remaining as [|k]; [now rewrite Nat.add_0_r|].
    do 3 f_equal. lia.
Qed.

Lemma asleep_app (l1 l2 : list Client.Effect) :
  Client.asleep (l1 ++ l2) = Client.asleep l1 + Client.asleep l2.
Proof.
  unfold Client.asleep.
  induction l1 as [|[state text|ms] l1 IH]; cbn; [reflexivity|exact IH|].
  rewrite IH. lia.
Qed.

Lemma asleep_retries (k : nat) : Client.asleep (Client.retries 0 k) = 400 * (k * (k + 1)).
Proof.
  induction k as [|k IH]; [reflexivity|].
  unfold Client.retries in *. rewrite seq_S, flat_map_app, asleep_app, IH.
  cbn [flat_map Client.onCatch Client.asleep fold_right app]. nia.
Qed.

Lemma length_retries (i k : nat) : length (Client.retries i k) = 2 * k.
Proof.
  unfold Client.retries. revert i.
  induction k as [|k IH]; intros i; [reflexivity|].
  cbn [seq flat_map Client.onCatch app length]. rewrite IH. lia.
Qed.

(** X22. [fetchWithRetry] resolves with the first response whose status
    is none of 502, 503, 504, provided it comes within [tries] calls: after
    [k] failed calls (an error of [fetch] or one of these statuses) it has
    shown the warning and slept [k] times, 800, 1600, ... milliseconds, and
    makes no further call. Whenever it resolves, the status is none of the
    three. *)
Theorem retry_resolves_with_first_answer (net : nat -> outcome nat)
    (tries k res_status : nat) :
  k < tries ->
  (forall i : nat, i < k -> Client.fails net i) ->
  net k = Ok res_status ->
  Client.waking res_status = false ->
  Client.fetchWithRetry net tries = (Client.Resolved res_status, Client.retries 0 k) /\
  Client.asleep (Client.retries 0 k) = 400 * (k * (k + 1)) /\
  (forall (net' : nat -> outcome nat),
      (forall i : nat, i <= k -> net' i = net i) ->
      Client.fetchWithRetry net' tries = Client.fetchWithRetry net tries) /\
  (forall (net' : nat -> outcome nat) (tries' status : nat) (done : list Client.Effect),
      Client.fetchWithRetry net' tries' = (Client.Resolved status, done) ->
      status <> 502 /\ status <> 503 /\ status <> 504).
Proof.
  intros Hk Hfails Hnet Hok.
  assert (Hgen : forall (n : nat -> outcome nat),
             (forall i : nat, i <= k -> n i = net i) ->
             Client.fetchWithRetry n tries = (Client.Resolved res_status, Client.retries 0 k)).
  { intros n Hsame. unfold Client.fetchWithRetry.
    assert (Hsplit : forall (r i : nat) (lastErr : option exn) (done : list Client.Effect),
               i + r = k ->
               Client.retryFrom n i (r + (tries - k)) lastErr done =
                 (Client.Resolved res_status, done ++ Client.retries i r)).
    { induction r as [|r IH]; intros i lastErr done Hir.
      - cbn [Nat.add]. destruct (tries - k) as [|m] eqn:Hm; [lia|].
        cbn [Client.retryFrom]. rewrite Hsame by lia.
        replace i with k by lia. rewrite Hnet. cbn. rewrite Hok.
        unfold Client.retries. cbn. now rewrite app_nil_r.
      - cbn [Nat.add Client.retryFrom].
        assert (Hi : Client.fails net i) by (apply Hfails; lia).
        unfold Client.fails in Hi. rewrite Hsame by lia.
        assert (Hstep : (s ← net i;
                         if Client.waking s then Throw (Thrown "waking") else Ok s) =
                        Throw (Client.caught net i)).
        { unfold Client.caught. destruct (net i) as [s|err]; cbn; [|reflexivity].
          now rewrite Hi. }
        rewrite Hstep, IH by lia.
        unfold Client.retries. cbn [seq flat_map]. now rewrite <- app_assoc. }
    replace tries with (k + (tries - k)) at 1 by lia.
    now rewrite (Hsplit k 0 None [] eq_refl). }
  split; [now apply Hgen|]. split; [apply asleep_retries|]. split.
  - intros net' Hsame. rewrite (Hgen net' Hsame). symmetry. now apply Hgen.
  - intros net' tries' status done. unfold Client.fetchWithRetry.
    generalize 0 at 1. generalize (@None exn). generalize (@nil Client.Effect).
    induction tries' as [|r IH]; intros d0 e0 i0 Hrun; [discriminate|].
    cbn [Client.retryFrom] in Hrun.
    destruct (net' i0) as [s|err]; cbn in Hrun.
    + destruct (Client.waking s) eqn:Hw; [now apply IH in Hrun|].
      injection Hrun as -> _. unfold Client.waking in Hw.
      apply orb_false_iff in Hw as [Hw H504]. apply orb_false_iff in Hw as [H502 H503].
      apply Nat.eqb_neq in H502, H503, H504. auto.
    + now apply IH in Hrun.
Qed.

(** X23. When every one of the [tries] calls fails, [fetchWithRetry]
    rejects with what the last iteration caught, the error of [fetch] or
    the error [waking], after showing the warning and sleeping after every
    call, the last one included: 400 * tries * (tries + 1) milliseconds in
    all, 4800 for the default of three tries. With no tries at all it
    rejects with [undefined] at once. *)
Theorem retry_gives_up (net : nat -> outcome nat) (tries : nat) :
  (forall i : nat, i < tries -> Client.fails net i) ->
  Client.fetchWithRetry net tries =
    (Client.Rejected match tries with
                     | O => None
                     | S k => Some (Client.caught net k)
                     end,
     Client.retries 0 tries) /\
  Client.asleep (snd (Client.fetchWithRetry net tries)) = 400 * (tries * (tries + 1)) /\
  length (snd (Client.fetchWithRetry net tries)) = 2 * tries.
Proof.
  intros Hfails.
  assert (Hrun : Client.fetchWithRetry net tries =
                 (Client.Rejected match tries with
                                  | O => None
                                  | S k => Some (Client.caught net k)
                                  end,
                  Client.retries 0 tries)).
  { unfold Client.fetchWithRetry.
    rewrite retryFrom_fails by (intros j Hj; apply Hfails; lia). reflexivity. }
  split; [exact Hrun|]. rewrite Hrun. cbn [snd]. split; [apply asleep_retries|].
  apply length_retries.
Qed.

End MoreProperties.

(** * The properties on the sample deployment *)

Import Sample.

#[local] Set Warnings "-abstract-large-number".

Lemma truncateText_spec_witness :
  String.length (truncateText longText) = 12000 + String.length (truncationMarker 5) /\
  truncateText "short" = "short".
Proof.
  split.
  - destruct (proj1 (truncateText_spec longText))
      as (kept & omitted & _ & _ & _ & _ & _ & _ & Hlen).
    + apply Nat.ltb_lt. vm_compute. reflexivity.
    + rewrite Hlen.
      replace (String.length longText - 12000) with 5; [reflexivity|].
      vm_compute. reflexivity.
  - apply (proj2 (truncateText_spec "short")).
    apply Nat.leb_le. vm_compute. reflexivity.
Defined.

Lemma extractFromFile_dispatch_witness :
  @extractFromFile h1 (Some pdfFile) (world disk0 loggedIn) =
    (Ok {| text := "text of the pdf"; inlineImage := None |},
     with_log [FsRead "/srv/suite/uploads/1-c0ffee.pdf"] (world disk0 loggedIn)) /\
  @extractFromFile h1 (Some Scenario.bookFile) (world disk0 loggedIn) =
    (Ok {| text := "XLSX preview (CSV):" +:+ Js.LF +:+ "a,b"; inlineImage := None |},
     with_log [FsRead "/srv/suite/uploads/1-c0ffee.pdf"] (world disk0 loggedIn)).
Proof.
  split.
  - destruct (@extractFromFile_dispatch h1 (world disk0 loggedIn) pdfFile
                (bytes "%PDF-1.4") eq_refl) as (_ & Hother & _).
    destruct (Hother eq_refl) as (Hpdf & _).
    rewrite (Hpdf eq_refl). reflexivity.
  - destruct (@extractFromFile_dispatch h1 (world disk0 loggedIn) Scenario.bookFile
                (bytes "%PDF-1.4") eq_refl) as (_ & Hother & _).
    destruct (Hother eq_refl) as (_ & _ & _ & Hxlsx & _).
    destruct (Hxlsx eq_refl) as (_ & Hsheet & _).
    rewrite (Hsheet {| SheetNames := ["Sheet1"]; Sheets := [("Sheet1", "a,b")] |}
               "Sheet1" [] 0 "a,b" eq_refl eq_refl eq_refl); [reflexivity|].
    intros j entry Hj. inversion Hj.
Defined.

Lemma bot_not_configured_witness :
  @post_api_bot h0 "data" (VObj [("text", VStr "hi")]) None (world disk0 loggedIn) =
    (Ok (json 501 (VObj [("error", VStr "Bot API not configured")])),
     world disk0 loggedIn).
Proof.
  apply (@bot_not_configured h0 (world disk0 loggedIn) "data"
           (VObj [("text", VStr "hi")]) None eq_refl).
  left. reflexivity.
Defined.

Lemma login_invalid_credentials_witness :
  exists (r : Response) (w' : World),
    @route_api_login h0 (VObj [("uid", VStr "a"); ("password", VStr "wrong")])
      (world disk0 newSession) = (Ok r, w') /\
    status r = 401 /\
    body r = VObj [("error", VStr "Invalid credentials")] /\
    session w' = newSession.
Proof.
  destruct (@login_invalid_credentials h0 (world disk0 newSession)
              (VObj [("uid", VStr "a"); ("password", VStr "wrong")])
              "a" "wrong"
              [VObj [("uid", VStr "a"); ("password", VStr "right")]])
    as (r & w' & _ & Hroute & Hstatus & _ & Hbody & Hsession & _);
    try reflexivity; try discriminate.
  - repeat constructor.
  - repeat constructor. intros [_ Hpw]. discriminate Hpw.
  - exists r, w'. repeat split; assumption.
Defined.

Lemma nickname_unauthenticated_witness :
  @post_api_nickname h0 (VObj [("nickname", VStr "Bob")]) (world disk0 newSession) =
    (Ok (json 401 (error "Not authenticated")), world disk0 newSession).
Proof.
  exact (proj1 (@nickname_unauthenticated h0 (world disk0 newSession)
                  (VObj [("nickname", VStr "Bob")]) eq_refl)).
Defined.

Lemma nickname_then_session_witness :
  exists w1 : World,
    @post_api_nickname h0 (VObj [("nickname", VStr "  Bob ")]) (world disk0 loggedIn) =
      (Ok (json 200 (VObj [("ok", VBool true); ("nickname", VStr "Bob")])), w1) /\
    @get_api_session w1 =
      (Ok (json 200 (VObj [("authenticated", VBool true); ("uid", VStr "a");
                           ("nickname", VStr "Bob")])), w1).
Proof.
  destruct (proj2 (@nickname_then_session h0) (world disk0 loggedIn)
              (VObj [("nickname", VStr "  Bob ")]) "  Bob "
              [VObj [("uid", VStr "a"); ("password", VStr "right")]]
              0 (VObj [("uid", VStr "a"); ("password", VStr "right")]))
    as (w1 & Hrun & Hsession); try reflexivity; try discriminate.
  - intros j y Hj. inversion Hj.
  - exists w1. split; [exact Hrun | exact Hsession].
Defined.

Lemma bot_message_assembly_witness :
  exists (r : Response) (w' : World),
    @post_api_bot h1 "data" (VObj [("chartType", VStr "bar"); ("text", VStr "hi")]) None
      (world disk0 loggedIn) = (Ok r, w') /\
    log w' =
      [Fetch (generateContentUrl "gemini") "secret"
         (@JSON_stringify h1 0
            (@generateContentRequest "data"
               (@buildSystemPrompt "data" "bar") [textPart "hi"]))] /\
    Js.includes (@buildSystemPrompt "data" "bar") "Include output for a bar chart." = true.
Proof.
  destruct (proj2 (proj2 (@bot_message_assembly h1)) (world disk0 loggedIn)
              (VObj [("chartType", VStr "bar"); ("text", VStr "hi")])
              "bar" "gemini" "secret")
    as (Hprompt & _ & r & w' & Hrun & Hlog); try reflexivity; try discriminate.
  exists r, w'. split; [exact Hrun|]. split; [exact Hlog | exact Hprompt].
Defined.

Lemma uploadToR2_contract_witness :
  @uploadToR2 h0 pdfFile (world disk0 loggedIn) = (Ok VNull, world disk0 loggedIn) /\
  @uploadToR2 h2 pdfFile (world disk0 loggedIn) =
    (Ok (VStr "https://cdn.example/uploads/1700000000000-c0ffee-report.pdf"),
     with_log [R2Put "bucket" "uploads/1700000000000-c0ffee-report.pdf"
                 "/srv/suite/uploads/1-c0ffee.pdf" "application/pdf"]
       (world disk0 loggedIn)).
Proof.
  split.
  - apply (proj1 (@uploadToR2_contract h0 (world disk0 loggedIn) pdfFile)).
    left. reflexivity.
  - destruct (proj1 (proj2 (@uploadToR2_contract h2 (world disk0 loggedIn) pdfFile))
                "bucket" (bytes "%PDF-1.4") eq_refl eq_refl eq_refl eq_refl)
      as (Hurl & _).
    rewrite (Hurl "https://cdn.example/" eq_refl); [reflexivity | discriminate].
Defined.

Lemma readUsers_falls_back_witness :
  (@readUsers h0 (world disk1 newSession)).1 = Ok (VObj [("users", VArr [])]) /\
  (@readUsers h0 (world ∅ newSession)).1 = Ok (VObj [("users", VArr [])]) /\
  (@post_api_login h0 (VObj [("uid", VStr "a"); ("password", VStr "right")])
     (world disk1 newSession)).1 = Ok (json 401 (error "Invalid credentials")).
Proof.
  destruct (@readUsers_falls_back h0 (world disk1 newSession))
    as ((w1 & Hread & _) & Hlogin & _).
  { right. exists (bytes "{users"). split; [reflexivity | right; reflexivity]. }
  destruct (@readUsers_falls_back h0 (world ∅ newSession))
    as ((w2 & Hmissing & _) & _).
  { left. reflexivity. }
  destruct (Hlogin (VObj [("uid", VStr "a"); ("password", VStr "right")]) "a" "right")
    as (w3 & Hrun & _); try reflexivity; try discriminate.
  rewrite Hread, Hmissing, Hrun. repeat split.
Defined.

Lemma upload_rejects_audio_video_witness :
  @route_api_bot h1 "data" (VObj [("text", VStr "transcribe")]) (Some audioPart)
    (world disk0 loggedIn) =
    (Ok (json 400 (error "Audio/video files are not supported.")),
     world disk0 loggedIn).
Proof.
  apply (@upload_rejects_audio_video h1 (world disk0 loggedIn) "data"
           (VObj [("text", VStr "transcribe")]) audioPart).
  left. reflexivity.
Defined.

(** * Further properties on the sample deployments *)

Import Scenario.

Lemma pages_need_session_witness :
  @get_html h0 member "/../data/secret.html" =
    SendFile "/srv/suite/public" "../data/secret.html" /\
  Val.truthy (uid member) = true /\ Val.truthy (nickname member) = true.
Proof.
  assert (Hsent : @get_html h0 member "/../data/secret.html" =
                  SendFile "/srv/suite/public" "../data/secret.html").
  { apply (proj2 (@pages_need_session h0 member "/../data/secret.html" "" "")).
    right. right. repeat split; discriminate. }
  split; [exact Hsent|].
  destruct (proj1 (@pages_need_session h0 member "/../data/secret.html"
                     "/srv/suite/public" "../data/secret.html") Hsent)
    as (_ & _ & [Hlogin | [(Hnick & _) | (_ & _ & Hu & Hn)]]).
  - discriminate Hlogin.
  - discriminate Hnick.
  - split; assumption.
Defined.

Lemma login_requires_fields_witness :
  @route_api_login h0 (VObj [("uid", VStr "a")]) (world disk0 newSession) =
    (Ok (json 400 (VObj [("error", VStr "UID and password required")])),
     world disk0 newSession).
Proof.
  apply (@login_requires_fields h0 (world disk0 newSession) (VObj [("uid", VStr "a")])
           eq_refl).
  right. reflexivity.
Defined.

Lemma login_opens_session_witness :
  exists w1 : World,
    @post_api_login h0 (VObj [("uid", VStr "a"); ("password", VStr "right")])
      (world disk0 newSession) =
      (Ok (json 200 (VObj [("ok", VBool true); ("needsNickname", VBool true)])), w1) /\
    uid (session w1) = VStr "a" /\
    @get_root h0 (session w1) = Redirect "/nickname.html" /\
    disk w1 = disk0.
Proof.
  pose (run := @post_api_login h0 (VObj [("uid", VStr "a"); ("password", VStr "right")])
                 (world disk0 newSession)).
  destruct (@login_opens_session h0 (world disk0 newSession) run.2
              (VObj [("uid", VStr "a"); ("password", VStr "right")])
              (json 200 (VObj [("ok", VBool true); ("needsNickname", VBool true)]))
              "a" "right" eq_refl eq_refl eq_refl eq_refl)
    as ([|] & Hr & Hu & _ & _ & _ & Hroot & Hdisk); [|discriminate Hr].
  exists run.2. split; [reflexivity|]. split; [exact Hu|]. split; [exact Hroot|exact Hdisk].
Defined.

Lemma nickname_is_validated_witness :
  @post_api_nickname h0 (VObj [("nickname", VStr "   ")]) (world disk0 loggedIn) =
    (Ok (json 400 (VObj [("error", VStr "Nickname required")])), world disk0 loggedIn) /\
  @route_api_nickname h0 (VObj [("nickname", VBool true)]) (world disk0 loggedIn) =
    (Ok (json 400 (VObj [("error", VStr "Cannot read properties of undefined")])),
     world disk0 loggedIn).
Proof.
  split.
  - apply (proj1 (@nickname_is_validated h0 (world disk0 loggedIn)
                    (VObj [("nickname", VStr "   ")]) eq_refl eq_refl)).
    right. exists "   ". split; reflexivity.
  - apply (proj2 (@nickname_is_validated h0 (world disk0 loggedIn)
                    (VObj [("nickname", VBool true)]) eq_refl eq_refl));
      reflexivity.
Defined.

Lemma nickname_unknown_user_witness :
  @post_api_nickname h0 (VObj [("nickname", VStr "Zed")]) (world disk0 stranger) =
    (Ok (json 404 (VObj [("error", VStr "User not found")])),
     with_log [FsExists "/srv/suite/data/users.json"; FsRead "/srv/suite/data/users.json"]
       (world disk0 stranger)).
Proof.
  apply (@nickname_unknown_user h0 (world disk0 stranger) (VObj [("nickname", VStr "Zed")])
           "Zed" [VObj [("uid", VStr "a"); ("password", VStr "right")]]);
    try reflexivity; try discriminate.
  repeat constructor.
Defined.

Lemma nickname_changes_one_field_witness :
  exists (w1 : World) (data' : value),
    @post_api_nickname h0 (VObj [("nickname", VStr "  Bob ")]) (world disk0 loggedIn) =
      (Ok (json 200 (VObj [("ok", VBool true); ("nickname", VStr "Bob")])), w1) /\
    disk w1 !! "/srv/suite/data/users.json" =
      Some (@utf8_encode h0 (@JSON_stringify h0 2 data')) /\
    disk w1 !! "/srv/suite/uploads/1-c0ffee.pdf" = Some (bytes "%PDF-1.4").
Proof.
  destruct (@nickname_changes_one_field h0 (world disk0 loggedIn)
              (VObj [("nickname", VStr "  Bob ")]) "  Bob "
              [VObj [("uid", VStr "a"); ("password", VStr "right")]]
              0 (VObj [("uid", VStr "a"); ("password", VStr "right")]))
    as (w1 & data' & user' & users' & Hrun & Hstore & Hrest & _);
    try reflexivity; try discriminate.
  - intros j y Hj. inversion Hj.
  - exists w1, data'. split; [exact Hrun|]. split; [exact Hstore|].
    rewrite Hrest by discriminate. reflexivity.
Defined.

Lemma nickname_is_persisted_witness :
  exists w1 w2 : World,
    @post_api_nickname h3 (VObj [("nickname", VStr "  Bob ")]) (world disk0 loggedIn) =
      (Ok (json 200 (VObj [("ok", VBool true); ("nickname", VStr "Bob")])), w1) /\
    @stored h3 w1 = named /\
    @post_api_login h3 (VObj [("uid", VStr "a"); ("password", VStr "right")]) w1 =
      (Ok (json 200 (VObj [("ok", VBool true); ("needsNickname", VBool false)])), w2) /\
    nickname (session w2) = VStr "Bob".
Proof.
  destruct (@nickname_is_persisted h3 (world disk0 loggedIn)
              (VObj [("nickname", VStr "  Bob ")])
              (VObj [("uid", VStr "a"); ("password", VStr "right")])
              "  Bob " "a" "right"
              [VObj [("uid", VStr "a"); ("password", VStr "right")]]
              0 (VObj [("uid", VStr "a"); ("password", VStr "right")]))
    as (w1 & w2 & Hrun & Hstored & Hlogin & _ & Hnick);
    try reflexivity; try discriminate.
  - intros j y Hj. inversion Hj.
  - split; [reflexivity|]. split; [discriminate|reflexivity].
  - exists w1, w2. split; [exact Hrun|]. split; [exact Hstored|].
    split; [exact Hlogin|exact Hnick].
Defined.

Lemma bot_extraction_failure_witness :
  @post_api_bot h1 "data" (VObj [("text", VStr "read this")]) (Some goneFile)
    (world disk0 loggedIn) =
    (Ok (json 500 (VObj [("error", VStr "Bot request failed")])),
     with_log [FsRead "/srv/suite/uploads/gone.txt"] (world disk0 loggedIn)).
Proof.
  apply (@bot_extraction_failure h1 (world disk0 loggedIn)
           (with_log [FsRead "/srv/suite/uploads/gone.txt"] (world disk0 loggedIn))
           "data" (VObj [("text", VStr "read this")]) (Some goneFile)
           (ENOENT "/srv/suite/uploads/gone.txt") eq_refl).
  - split; reflexivity.
  - reflexivity.
Defined.

Lemma bot_upload_failure_witness :
  exists w2 : World,
    @post_api_bot h4 "data" (VObj [("text", VStr "read this")]) (Some pdfFile)
      (world disk0 loggedIn) =
      (Ok (json 500 (VObj [("error", VStr "Bot request failed")])), w2) /\
    disk w2 = disk0.
Proof.
  pose (w1 := (@extractFromFile h4 (Some pdfFile) (world disk0 loggedIn)).2).
  pose (w2 := (@upload_step h4 (Some pdfFile) w1).2).
  destruct (@bot_upload_failure h4 (world disk0 loggedIn) w1 w2 "data"
              (VObj [("text", VStr "read this")]) (Some pdfFile)
              {| text := "text of the pdf"; inlineImage := None |}
              (Thrown "AccessDenied") eq_refl) as (Hrun & Hdisk & _).
  - split; reflexivity.
  - reflexivity.
  - reflexivity.
  - exists w2. split; [exact Hrun|exact Hdisk].
Defined.

Lemma bot_relays_upstream_witness :
  exists w' : World,
    @post_api_bot h5 "data" (VObj [("text", VStr "hi")]) None (world disk0 loggedIn) =
      (Ok (json 429 (VObj [("error", VStr "Bot request failed"); ("details", quota)])), w').
Proof.
  destruct (@bot_relays_upstream h5 (world disk0 loggedIn) (world disk0 loggedIn)
              (world disk0 loggedIn) "data" (VObj [("text", VStr "hi")]) None
              {| text := ""; inlineImage := None |} VNull
              {| resp_status := 429; resp_body := Sample.stringify quota |} quota eq_refl)
    as (Hrun & _).
  - split; reflexivity.
  - reflexivity.
  - reflexivity.
  - reflexivity.
  - reflexivity.
  - reflexivity.
  - reflexivity.
  - reflexivity.
  - eexists. exact Hrun.
Defined.

Lemma unauthenticated_upload_is_kept_witness :
  exists w' : World,
    @route_api_bot h1 "data" (VObj [("text", VStr "hi")]) (Some notes)
      (world disk0 newSession) =
      (Ok (json 401 (VObj [("error", VStr "Not authenticated")])), w') /\
    disk w' !! "/srv/suite/uploads/1700000000000-c0ffee.txt" = Some (bytes "hello").
Proof.
  destruct (@unauthenticated_upload_is_kept h1 (world disk0 newSession) "data"
              (VObj [("text", VStr "hi")]) notes eq_refl eq_refl)
    as (w' & Hrun & Hkept & _).
  - vm_compute. reflexivity.
  - exists w'. split; [exact Hrun|exact Hkept].
Defined.

Lemma bot_route_keeps_store_witness :
  @stored h1 (@route_api_bot h1 "data" (VObj [("text", VStr "hi")]) (Some notes)
                (world disk0 loggedIn)).2 = users.
Proof.
  rewrite (proj1 (proj2 (@bot_route_keeps_store h1 (world disk0 loggedIn) _ "data"
                           (VObj [("text", VStr "hi")]) (Some notes) _
                           (surjective_pairing _)))).
  reflexivity.
Defined.


Lemma reply_text_witness :
  @normalizeReply h0 badReply = Throw TypeError /\
  exists image : value, @normalizeReply h0 reply = Ok ("hello", image).
Proof.
  split.
  - destruct (proj1 (@reply_text h0 badReply)
                [VObj [("inlineData",
                        VObj [("mimeType", VStr "image/png");
                              ("data", VObj [("toString", VNum 0)])])]]
                eq_refl ltac:(repeat constructor)) as (_ & _ & Hthrows).
    apply (Hthrows 0 (VObj [("inlineData",
                             VObj [("mimeType", VStr "image/png");
                                   ("data", VObj [("toString", VNum 0)])])])
             [("mimeType", VStr "image/png"); ("data", VObj [("toString", VNum 0)])]
             [("toString", VNum 0)]); try reflexivity.
    intros j q Hj. inversion Hj.
  - destruct (proj1 (@reply_text h0 reply) [VObj [("text", VStr "hello")]]
                eq_refl ltac:(repeat constructor)) as (_ & Hreturns & _).
    apply Hreturns. repeat constructor.
Defined.

Lemma reply_image_witness :
  exists text : string,
    @normalizeReply h0 imageReply = Ok (text, VStr "data:image/png;base64,AAAA").
Proof.
  apply (proj1 (@reply_image h0 imageReply
                  [VObj [("text", VStr "a cat")];
                   VObj [("inlineData",
                          VObj [("mimeType", VStr "image/png"); ("data", VStr "AAAA")])]]
                  eq_refl ltac:(repeat constructor))
           1 (VObj [("inlineData",
                     VObj [("mimeType", VStr "image/png"); ("data", VStr "AAAA")])])
           [("mimeType", VStr "image/png"); ("data", VStr "AAAA")] "image/png" "AAAA");
    try reflexivity; try discriminate.
  intros [|j] q Hj Hq; [|lia]. injection Hq as <-. split; reflexivity.
Defined.

Lemma extraction_only_reads_witness :
  log (@extractFromFile h1 (Some pdfFile) (world disk0 loggedIn)).2 =
    [FsRead "/srv/suite/uploads/1-c0ffee.pdf"] /\
  disk (@extractFromFile h1 (Some pdfFile) (world disk0 loggedIn)).2 = disk0.
Proof.
  destruct (@extraction_only_reads h1 (Some pdfFile) (world disk0 loggedIn) _ _
              (surjective_pairing _)) as (Hdisk & _ & Hlog & _).
  split; [exact Hlog|exact Hdisk].
Defined.

Lemma login_on_shapeless_store_witness :
  @post_api_login h3 (VObj [("uid", VStr "a"); ("password", VStr "right")])
    (world disk2 newSession) =
    (Throw TypeError,
     with_log [FsExists "/srv/suite/data/users.json"; FsRead "/srv/suite/data/users.json"]
       (world disk2 newSession)) /\
  exists message : string,
    @route_api_login h3 (VObj [("uid", VStr "a"); ("password", VStr "right")])
      (world disk2 newSession) =
      (Ok (json 400 (VObj [("error", VStr message)])),
       with_log [FsExists "/srv/suite/data/users.json"; FsRead "/srv/suite/data/users.json"]
         (world disk2 newSession)).
Proof.
  destruct (@login_on_shapeless_store h3 (world disk2 newSession)
              (VObj [("uid", VStr "a"); ("password", VStr "right")]) eq_refl eq_refl)
    as (Hrun & message & _ & Hroute).
  - intros items. discriminate.
  - split; [exact Hrun|]. exists message. exact Hroute.
Defined.

Lemma retry_resolves_with_first_answer_witness :
  Client.fetchWithRetry wakes 3 =
    (Client.Resolved 200,
     [Client.SetStatus "warn" "Waking up server..."; Client.Sleep 800;
      Client.SetStatus "warn" "Waking up server..."; Client.Sleep 1600]).
Proof.
  apply (@retry_resolves_with_first_answer wakes 3 2 200); try reflexivity; try lia.
  intros [|[|i]] Hi; [reflexivity|exact I|lia].
Defined.

Lemma retry_gives_up_witness :
  Client.fetchWithRetry sleeps 3 =
    (Client.Rejected (Some (Thrown "waking")), Client.retries 0 3) /\
  Client.asleep (Client.fetchWithRetry sleeps 3).2 = 4800.
Proof.
  destruct (@retry_gives_up sleeps 3) as (Hrun & Hslept & _).
  - intros i _. reflexivity.
  - split; [exact Hrun|exact Hslept].
Defined.
